(** * NewsHotWordProvider: a shallow embedding of [google_news_hotword_provider.py]

    The development follows the Python module top-down:

    - Python values the provider touches: [str] as a list of code points,
      [None], exceptions as a result type;
    - the pieces of the standard library the provider calls ([str.strip],
      [str.lower], [in], [str.startswith], [re.sub], [re.finditer],
      [html.unescape], [json.dumps], the ElementTree queries);
    - the provider's own methods, under the names they have in the source;
    - the properties of the extraction pipeline. *)

From Stdlib Require Import String Ascii NArith ZArith Bool Lia Arith List.
From Stdlib Require DecimalString.
Import ListNotations.

Set Implicit Arguments.
Set Warnings "-register-all".

(** ** Python strings *)

(** A [str] is a sequence of Unicode code points; [len] is [length]. *)
Definition pychar := N.
Definition pystr := list pychar.

(** ASCII literals of the source are written [str "..."]; literals with
    other characters are written as code points. *)
Definition str (x : string) : pystr := map N_of_ascii (list_ascii_of_string x).

(** One ASCII character of the source. *)
Definition ch (a : ascii) : pychar := N_of_ascii a.

Definition pystr_eqb (a b : pystr) : bool :=
  if list_eq_dec N.eq_dec a b then true else false.

(** [None] or a [str]: what a title, a link or an element's [.text] can be. *)
Inductive pyval :=
| PNone
| PStr (s : pystr).

(** Truth value of an object, as [if x:] and [not x] take it. *)
Definition truthy (v : pyval) : bool :=
  match v with
  | PNone => false
  | PStr [] => false
  | PStr (_ :: _) => true
  end.

(** Exceptions the modelled code can meet. *)
Inductive exn :=
| ValueError
| TypeError
| IndexError.

Inductive result (A : Type) :=
| Ok (a : A)
| Raise (e : exn).
Arguments Ok {A} a.
Arguments Raise {A} e.

Definition bind {A B} (r : result A) (f : A -> result B) : result B :=
  match r with
  | Ok a => f a
  | Raise e => Raise e
  end.

Notation "x <- r ;; k" := (bind r (fun x => k))
  (at level 61, r at next level, right associativity).

(** [s.startswith(prefix)] *)
Fixpoint startswith (s prefix : pystr) {struct prefix} : bool :=
  match prefix, s with
  | [], _ => true
  | _ :: _, [] => false
  | p :: prefix', c :: s' => (c =? p)%N && startswith s' prefix'
  end.

(** [sub in s] *)
Fixpoint py_in (sub s : pystr) : bool :=
  startswith s sub ||
  match s with
  | [] => false
  | _ :: s' => py_in sub s'
  end.

(** [str.isspace] on one character, which is also what [\s] matches in a
    [str] pattern. *)
Definition isspace (c : pychar) : bool :=
  existsb (N.eqb c)
    [9; 10; 11; 12; 13; 28; 29; 30; 31; 32; 133; 160; 5760;
     8192; 8193; 8194; 8195; 8196; 8197; 8198; 8199; 8200; 8201; 8202;
     8232; 8233; 8239; 8287; 12288]%N.

Fixpoint lstrip (s : pystr) : pystr :=
  match s with
  | [] => []
  | c :: s' => if isspace c then lstrip s' else s
  end.

Fixpoint rstrip (s : pystr) : pystr :=
  match s with
  | [] => []
  | c :: s' =>
      match rstrip s' with
      | [] => if isspace c then [] else [c]
      | r => c :: r
      end
  end.

(** [s.strip()] *)
Definition strip (s : pystr) : pystr := rstrip (lstrip s).

Definition is_ascii (c : pychar) : bool := (c <? 128)%N.

Definition ascii_lower (c : pychar) : pychar :=
  if (65 <=? c)%N && (c <=? 90)%N then (c + 32)%N else c.

(** ** Regular expressions

    The fragment of [re] the provider's five patterns are written in:
    characters and character sets, greedy bounded repetition of a set,
    concatenation, alternation, capturing groups and [$].  Matching is the
    backtracking search of [re]: a repetition first takes as many
    characters as it can and gives them back one at a time. *)
Module Re.

Inductive cset :=
| Lit (c : pychar)              (* a character *)
| LitI (c : pychar)             (* a lower-case letter under IGNORECASE *)
| OneOf (cs : list pychar)      (* [...] *)
| NoneOf (cs : list pychar)     (* [^...] *)
| Space                         (* \s *)
| Dot.                          (* . *)

(** The characters that IGNORECASE equates with an ASCII letter besides
    its two cases: dotted capital and dotless small i, the Kelvin sign,
    the long s. *)
Definition other_cases (c : pychar) : list pychar :=
  if (c =? 105)%N then [304; 305]%N
  else if (c =? 107)%N then [8490]%N
  else if (c =? 115)%N then [383]%N
  else [].

Definition mem (k : cset) (ch : pychar) : bool :=
  match k with
  | Lit c => (ch =? c)%N
  | LitI c => (ascii_lower ch =? c)%N || existsb (N.eqb ch) (other_cases c)
  | OneOf cs => existsb (N.eqb ch) cs
  | NoneOf cs => negb (existsb (N.eqb ch) cs)
  | Space => isspace ch
  | Dot => negb (ch =? 10)%N
  end.

Inductive regex :=
| Empty
| Char (k : cset)
| Repeat (k : cset) (lo : nat) (hi : option nat)   (* k{lo,hi}, greedy *)
| Cat (r1 r2 : regex)
| Or (r1 r2 : regex)
| Group (i : nat) (r : regex)
| Eos.                                             (* $ *)

Definition Star k := Repeat k 0 None.
Definition Plus k := Repeat k 1 None.
Definition Opt k := Repeat k 0 (Some 1).

Definition seq (rs : list regex) : regex := fold_right Cat Empty rs.

(** A run of literal characters, compiled without and with IGNORECASE. *)
Definition literal (s : pystr) : regex := seq (map (fun c => Char (Lit c)) s).

Definition is_ascii_letter (c : pychar) : bool :=
  ((65 <=? c) && (c <=? 90) || (97 <=? c) && (c <=? 122))%N.

Definition literal_i (s : pystr) : regex :=
  seq (map (fun c => Char (if is_ascii_letter c then LitI (ascii_lower c) else Lit c)) s).

(** Captured groups, most recent first. *)
Definition captures := list (nat * pystr).

Definition may_take_more (hi : option nat) : bool :=
  match hi with
  | Some 0 => false
  | _ => true
  end.

Definition one_less (hi : option nat) : option nat :=
  match hi with
  | Some n => Some (pred n)
  | None => None
  end.

Section Matcher.
Variable A : Type.

(** Greedy [k{lo,hi}] followed by the continuation [cont]. *)
Fixpoint repeat_then (k : cset) (lo : nat) (hi : option nat)
    (cont : pystr -> option A) (s : pystr) : option A :=
  let stop := if (lo =? 0)%nat then cont s else None in
  match s with
  | [] => stop
  | ch :: s' =>
      if mem k ch && may_take_more hi then
        match repeat_then k (pred lo) (one_less hi) cont s' with
        | Some a => Some a
        | None => stop
        end
      else stop
  end.

(** [run r cont s caps]: the first way, in backtracking order, to match
    [r] at the start of [s] so that [cont] accepts what is left. *)
Fixpoint run (r : regex) (cont : pystr -> captures -> option A)
    (s : pystr) (caps : captures) : option A :=
  match r with
  | Empty => cont s caps
  | Char k =>
      match s with
      | ch :: s' => if mem k ch then cont s' caps else None
      | [] => None
      end
  | Repeat k lo hi => repeat_then k lo hi (fun s' => cont s' caps) s
  | Cat r1 r2 => run r1 (fun s' caps' => run r2 cont s' caps') s caps
  | Or r1 r2 =>
      match run r1 cont s caps with
      | Some a => Some a
      | None => run r2 cont s caps
      end
  | Group i r1 =>
      run r1 (fun s' caps' =>
                cont s' ((i, firstn (length s - length s') s) :: caps')) s caps
  | Eos =>
      (* end of string, or just before a newline that ends the string *)
      match s with
      | [] => cont s caps
      | [ch] => if (ch =? 10)%N then cont s caps else None
      | _ => None
      end
  end.
End Matcher.

(** A match object: its length and its groups. *)
Record rematch := mkMatch { span : nat; groups : captures }.

(** [pattern.match] at the start of [s]. *)
Definition match_here (r : regex) (s : pystr) : option rematch :=
  run r (fun s' caps => Some (mkMatch (length s - length s') caps)) s [].

(** [m.group(i)]; every group of the provider's patterns takes part in
    every match, so the group is a [str]. *)
Fixpoint lookup (i : nat) (caps : captures) : pystr :=
  match caps with
  | [] => []
  | (j, g) :: rest => if (i =? j)%nat then g else lookup i rest
  end.

Definition group (m : rematch) (i : nat) : pystr := lookup i (groups m).

(** [pattern.finditer(s)]: the matches left to right, none overlapping.
    [skip] counts the characters still inside the previous match.  None
    of the provider's patterns matches the empty string. *)
Fixpoint finditer_from (r : regex) (s : pystr) (skip : nat) : list rematch :=
  match s with
  | [] =>
      match skip, match_here r [] with
      | 0, Some m => [m]
      | _, _ => []
      end
  | _ :: s' =>
      match skip with
      | S n => finditer_from r s' n
      | 0 =>
          match match_here r s with
          | Some m => m :: finditer_from r s' (pred (span m))
          | None => finditer_from r s' 0
          end
      end
  end.

Definition finditer (r : regex) (s : pystr) : list rematch := finditer_from r s 0.

(** [re.sub(pattern, repl, s)] for a replacement without group
    references. *)
Fixpoint sub_from (r : regex) (repl : pystr) (s : pystr) (skip : nat) : pystr :=
  match s with
  | [] =>
      match skip, match_here r [] with
      | 0, Some _ => repl
      | _, _ => []
      end
  | ch :: s' =>
      match skip with
      | S n => sub_from r repl s' n
      | 0 =>
          match match_here r s with
          | Some m =>
              match span m with
              | 0 => repl ++ ch :: sub_from r repl s' 0
              | S n => repl ++ sub_from r repl s' n
              end
          | None => ch :: sub_from r repl s' 0
          end
      end
  end.

Definition sub (r : regex) (repl : pystr) (s : pystr) : pystr := sub_from r repl s 0.

(** [requires r c]: every string [r] matches contains the character [c]
    (a syntactic sufficient condition). *)
Fixpoint requires (r : regex) (c : pychar) : bool :=
  match r with
  | Empty => false
  | Char (Lit d) => (d =? c)%N
  | Char _ => false
  | Repeat (Lit d) (S _) _ => (d =? c)%N
  | Repeat _ _ _ => false
  | Cat r1 r2 => requires r1 c || requires r2 c
  | Or r1 r2 => requires r1 c && requires r2 c
  | Group _ r1 => requires r1 c
  | Eos => false
  end.

End Re.

(** ** [html.unescape]

    The function the provider imports from Python's [html] module,
    translated from CPython's [Lib/html/__init__.py]: [unescape],
    [_charref], [_replace_charref] and their two tables.  The table of
    the HTML5 named references ([html.entities.html5]) is data of the
    standard library; the model takes it as the lookup function [html5]. *)
Module Html.

Definition invalid_charrefs : list (N * pychar) :=
  [(0, 65533); (13, 13); (128, 8364); (129, 129); (130, 8218); (131, 402);
   (132, 8222); (133, 8230); (134, 8224); (135, 8225); (136, 710);
   (137, 8240); (138, 352); (139, 8249); (140, 338); (141, 141); (142, 381);
   (143, 143); (144, 144); (145, 8216); (146, 8217); (147, 8220);
   (148, 8221); (149, 8226); (150, 8211); (151, 8212); (152, 732);
   (153, 8482); (154, 353); (155, 8250); (156, 339); (157, 157); (158, 382);
   (159, 376)]%N.

(** [_invalid_codepoints], written as the ranges its comments name. *)
Definition invalid_codepoints : list (N * N) :=
  [(1, 8); (11, 11); (14, 31); (127, 159); (64976, 65007); (65534, 65535);
   (131070, 131071); (196606, 196607); (262142, 262143); (327678, 327679);
   (393214, 393215); (458750, 458751); (524286, 524287); (589822, 589823);
   (655358, 655359); (720894, 720895); (786430, 786431); (851966, 851967);
   (917502, 917503); (983038, 983039); (1048574, 1048575);
   (1114110, 1114111)]%N.

Fixpoint charref_of (num : N) (table : list (N * pychar)) : option pychar :=
  match table with
  | [] => None
  | (k, v) :: rest => if (num =? k)%N then Some v else charref_of num rest
  end.

Definition in_ranges (num : N) (ranges : list (N * N)) : bool :=
  existsb (fun r => (fst r <=? num)%N && (num <=? snd r)%N) ranges.

(** [sys.get_int_max_str_digits()]: since CPython 3.11 (and the security
    releases of 3.7 to 3.10) [int] refuses a decimal literal of more
    digits than this with [ValueError]; a literal in base 16 has no
    limit. *)
Definition int_max_str_digits : nat := 4300.

Definition digit_value (c : pychar) : N :=
  if (48 <=? c)%N && (c <=? 57)%N then (c - 48)%N
  else if (97 <=? c)%N && (c <=? 102)%N then (c - 87)%N
  else (c - 55)%N.

Definition digits_value (base : N) (digits : pystr) : N :=
  fold_left (fun acc c => (acc * base + digit_value c)%N) digits 0%N.

(** [int(digits)] and [int(digits, 16)] on a run of digits of the base. *)
Definition int_base10 (digits : pystr) : result N :=
  if (int_max_str_digits <? length digits)%nat then Raise ValueError
  else Ok (digits_value 10 digits).

Definition int_base16 (digits : pystr) : result N :=
  Ok (digits_value 16 digits).

(** [s.rstrip(';')] *)
Fixpoint rstrip_semicolon (s : pystr) : pystr :=
  match s with
  | [] => []
  | c :: s' =>
      match rstrip_semicolon s' with
      | [] => if (c =? ch ";")%N then [] else [c]
      | r => c :: r
      end
  end.

Definition decimal_digits : list pychar := [48; 49; 50; 51; 52; 53; 54; 55; 56; 57]%N.
Definition hex_digits : list pychar :=
  (decimal_digits ++ [97; 98; 99; 100; 101; 102; 65; 66; 67; 68; 69; 70])%N.

(** [_charref], with blanks between its parts:
    [& ( # [0-9]+ ;? | # [xX] [0-9a-fA-F]+ ;? | [^\t\n\f <&#;]{1,32} ;? )] *)
Definition charref : Re.regex :=
  Re.Cat (Re.Char (Re.Lit (ch "&")))
    (Re.Group 1
       (Re.Or
          (Re.seq [Re.Char (Re.Lit (ch "#")); Re.Plus (Re.OneOf decimal_digits);
                   Re.Opt (Re.Lit (ch ";"))])
          (Re.Or
             (Re.seq [Re.Char (Re.Lit (ch "#")); Re.Char (Re.OneOf [ch "x"; ch "X"]);
                      Re.Plus (Re.OneOf hex_digits); Re.Opt (Re.Lit (ch ";"))])
             (Re.seq [Re.Repeat (Re.NoneOf [9%N; 10%N; 12%N; ch " "; ch "<"; ch "&"; ch "#"; ch ";"])
                        1 (Some 32);
                      Re.Opt (Re.Lit (ch ";"))])))).

Section Unescape.
Variable html5 : pystr -> option pystr.

(** [for x in range(len(s)-1, 1, -1): if s[:x] in _html5: ...] *)
Fixpoint longest_name (x : nat) (s : pystr) : option pystr :=
  match x with
  | 0 => None
  | S x' =>
      if (2 <=? x)%nat then
        match html5 (firstn x s) with
        | Some v => Some (v ++ skipn x s)
        | None => longest_name x' s
        end
      else None
  end.

Definition replace_charref (m : Re.rematch) : result pystr :=
  let s := Re.group m 1 in
  match s with
  | 35%N :: rest =>
      (* numeric charref *)
      num <- match rest with
             | [] => Raise IndexError
             | c :: digits =>
                 if (c =? ch "x")%N || (c =? ch "X")%N
                 then int_base16 (rstrip_semicolon digits)
                 else int_base10 (rstrip_semicolon rest)
             end ;;
      match charref_of num invalid_charrefs with
      | Some v => Ok [v]
      | None =>
          if (55296 <=? num)%N && (num <=? 57343)%N || (1114111 <? num)%N
          then Ok [65533%N]
          else if in_ranges num invalid_codepoints then Ok []
          else Ok [num]
      end
  | _ =>
      (* named charref *)
      match html5 s with
      | Some v => Ok v
      | None =>
          match longest_name (length s - 1) s with
          | Some v => Ok v
          | None => Ok (ch "&" :: s)
          end
      end
  end.

(** [_charref.sub(_replace_charref, s)]: the replacement is computed
    match by match, left to right, and the first one to raise ends the
    call. *)
Fixpoint charref_sub (s : pystr) (skip : nat) : result pystr :=
  match s with
  | [] => Ok []
  | ch :: s' =>
      match skip with
      | S n => charref_sub s' n
      | 0 =>
          match Re.match_here charref s with
          | Some m =>
              repl <- replace_charref m ;;
              rest <- charref_sub s' (pred (Re.span m)) ;;
              Ok (repl ++ rest)
          | None =>
              rest <- charref_sub s' 0 ;;
              Ok (ch :: rest)
          end
      end
  end.

Definition unescape (s : pystr) : result pystr :=
  if negb (existsb (N.eqb (ch "&")) s) then Ok s
  else charref_sub s 0.
End Unescape.
End Html.

(** ** [json.dumps(obj, ensure_ascii=False, indent=2)] *)
Module Json.

(** The objects the provider serialises; a [dict] keeps its keys in
    insertion order. *)
Inductive json :=
| JNull
| JBool (b : bool)
| JInt (z : Z)
| JStr (s : pystr)
| JList (items : list json)
| JDict (entries : list (pystr * json)).

Definition of_pyval (v : pyval) : json :=
  match v with
  | PNone => JNull
  | PStr s => JStr s
  end.

Definition hex_digit (n : N) : pychar :=
  if (n <? 10)%N then (48 + n)%N else (87 + n)%N.

Definition escape_char (c : pychar) : pystr :=
  if (c =? 34)%N then [92; 34]%N
  else if (c =? 92)%N then [92; 92]%N
  else if (c =? 10)%N then [92; 110]%N
  else if (c =? 13)%N then [92; 114]%N
  else if (c =? 9)%N then [92; 116]%N
  else if (c =? 8)%N then [92; 98]%N
  else if (c =? 12)%N then [92; 102]%N
  else if (c <? 32)%N then [92; 117; 48; 48; hex_digit (c / 16); hex_digit (c mod 16)]%N
  else [c].

Definition quote (s : pystr) : pystr := [34%N] ++ flat_map escape_char s ++ [34%N].

Definition int_repr (z : Z) : pystr :=
  str (DecimalString.NilZero.string_of_int (Z.to_int z)).

Fixpoint join (sep : pystr) (parts : list pystr) : pystr :=
  match parts with
  | [] => []
  | [p] => p
  | p :: rest => p ++ sep ++ join sep rest
  end.

Definition newline_indent (level : nat) : pystr := 10%N :: repeat (ch " ") (2 * level).

Fixpoint encode (level : nat) (j : json) : pystr :=
  match j with
  | JNull => str "null"
  | JBool true => str "true"
  | JBool false => str "false"
  | JInt z => int_repr z
  | JStr s => quote s
  | JList [] => str "[]"
  | JList items =>
      str "[" ++ newline_indent (S level)
      ++ join (str "," ++ newline_indent (S level)) (map (encode (S level)) items)
      ++ newline_indent level ++ str "]"
  | JDict [] => str "{}"
  | JDict entries =>
      str "{" ++ newline_indent (S level)
      ++ join (str "," ++ newline_indent (S level))
           (map (fun kv => quote (fst kv) ++ str ": " ++ encode (S level) (snd kv)) entries)
      ++ newline_indent level ++ str "}"
  end.

Definition dumps (j : json) : pystr := encode 0 j.

(** [d[key]] *)
Fixpoint get (key : pystr) (entries : list (pystr * json)) : option json :=
  match entries with
  | [] => None
  | (k, v) :: rest => if pystr_eqb k key then Some v else get key rest
  end.

End Json.

(** ** [xml.etree.ElementTree] *)
Module ET.

Inductive Element :=
| mkElement (tag : pystr) (text : pyval) (children : list Element).

Definition tag (e : Element) : pystr := let (t, _, _) := e in t.
Definition text (e : Element) : pyval := let (_, x, _) := e in x.
Definition children (e : Element) : list Element := let (_, _, c) := e in c.

(** [e.iter()]: the element and its descendants in document order. *)
Fixpoint iter (e : Element) : list Element :=
  match e with
  | mkElement _ _ cs => e :: flat_map iter cs
  end.

(** [root.findall('.//name')]: the proper descendants with that tag. *)
Definition findall_descendants (root : Element) (name : pystr) : list Element :=
  filter (fun e => pystr_eqb (tag e) name) (flat_map iter (children root)).

(** [e.find(name)]: the first child with that tag, or [None]. *)
Definition find (e : Element) (name : pystr) : option Element :=
  List.find (fun c => pystr_eqb (tag c) name) (children e).

End ET.

(** ** The provider's data *)

(** A news item: the [dict] with the keys [text], [url], [h5_url],
    [appIconUrl], [sourceUniqueId] and [package] that the extractors
    append to their output list. *)
Record NewsItem := mkNewsItem {
  text : pyval;
  url : pyval;
  h5_url : pyval;
  appIconUrl : pystr;
  sourceUniqueId : pystr;
  package : pystr
}.

(** How one pass through a loop body over [news_array] ends. *)
Inductive flow :=
| Next (news_array : list NewsItem)              (* end of the body, or [continue] *)
| Break (news_array : list NewsItem)             (* [break] *)
| Raised (news_array : list NewsItem) (e : exn). (* an exception leaves the loop *)

(** [for x in xs: body], on the list the body appends to; the list keeps
    what was appended before an exception. *)
Fixpoint for_each {X : Type} (body : X -> list NewsItem -> flow) (xs : list X)
    (news_array : list NewsItem) : list NewsItem * option exn :=
  match xs with
  | [] => (news_array, None)
  | x :: rest =>
      match body x news_array with
      | Next news_array' => for_each body rest news_array'
      | Break news_array' => (news_array', None)
      | Raised news_array' e => (news_array', Some e)
      end
  end.

(** What [urllib.request.urlopen] gives the provider: an exception, or a
    response with its status and its decoded body. *)
Inductive http_outcome :=
| UrlopenRaises
| Response (status : Z) (body : pystr).

(** The three markup patterns, in the order [parse_yahoo_html] tries them. *)
Inductive pattern_id :=
| Pattern1
| Pattern2
| Pattern3.

(** State of [parse_yahoo_html]'s [try] block: the caller's list, the
    patterns searched so far, and the exception that ended the block. *)
Record parse_state := mkState {
  arr : list NewsItem;
  searched : list pattern_id;
  raised : option exn
}.

Definition YAHOO_NEWS_URL : pystr := str "https://tw.news.yahoo.com/".
Definition GOOGLE_NEWS_URL : pystr :=
  str "https://news.google.com/rss?hl=zh-TW&gl=TW&ceid=TW:zh-Hant".
Definition GOOGLE_NEWS_WEB_URL : pystr :=
  str "https://news.google.com/home?hl=zh-TW&gl=TW&ceid=TW:zh-Hant".
Definition MAX_NEWS_ITEMS : nat := 15.

(** The two quote characters of [[\x22\']] and the sets [[^\x22\']], [[^>]]
    and [[^<]]; the comments write the double quote as [\x22]. *)
Definition quotes : list pychar := [34%N; 39%N].
Definition a_quote : Re.regex := Re.Char (Re.OneOf quotes).
Definition not_quote : Re.cset := Re.NoneOf quotes.
Definition not_gt : Re.cset := Re.NoneOf [ch ">"].
Definition not_lt : Re.cset := Re.NoneOf [ch "<"].

(** The patterns are quoted with blanks between their parts.

    [<a \s+ [^>]* href= [\x22\'] ( \\ .? /articles [^\x22\']* ) [\x22\'] [^>]* > ( [^<]* ) </a>],
    IGNORECASE.  In the raw string the two backslashes before [.?] are a
    literal backslash. *)
Definition pattern1 : Re.regex :=
  Re.seq
    [Re.literal_i (str "<a"); Re.Plus Re.Space; Re.Star not_gt;
     Re.literal_i (str "href="); a_quote;
     Re.Group 1
       (Re.seq [Re.Char (Re.Lit 92%N); Re.Opt Re.Dot;
                Re.literal_i (str "/articles"); Re.Star not_quote]);
     a_quote; Re.Star not_gt; Re.Char (Re.Lit (ch ">"));
     Re.Group 2 (Re.Star not_lt);
     Re.literal_i (str "</a>")].

(** [<a \s+ [^>]* class= [\x22\'] ( [^\x22\']* (?:gPFEn|IFHyqb|IBr9hb) [^\x22\']* ) [\x22\']
     [^>]* href= [\x22\'] ( [^\x22\']* ) [\x22\'] [^>]* > ( [^<]* ) </a>], IGNORECASE. *)
Definition pattern2 : Re.regex :=
  Re.seq
    [Re.literal_i (str "<a"); Re.Plus Re.Space; Re.Star not_gt;
     Re.literal_i (str "class="); a_quote;
     Re.Group 1
       (Re.seq [Re.Star not_quote;
                Re.Or (Re.literal_i (str "gPFEn"))
                  (Re.Or (Re.literal_i (str "IFHyqb")) (Re.literal_i (str "IBr9hb")));
                Re.Star not_quote]);
     a_quote; Re.Star not_gt;
     Re.literal_i (str "href="); a_quote;
     Re.Group 2 (Re.Star not_quote);
     a_quote; Re.Star not_gt; Re.Char (Re.Lit (ch ">"));
     Re.Group 3 (Re.Star not_lt);
     Re.literal_i (str "</a>")].

(** [<a \s+ [^>]* href= [\x22\'] ( [^\x22\']+ ) [\x22\'] [^>]* > ( [^<]{10,} ) </a>],
    IGNORECASE. *)
Definition pattern3 : Re.regex :=
  Re.seq
    [Re.literal_i (str "<a"); Re.Plus Re.Space; Re.Star not_gt;
     Re.literal_i (str "href="); a_quote;
     Re.Group 1 (Re.Plus not_quote);
     a_quote; Re.Star not_gt; Re.Char (Re.Lit (ch ">"));
     Re.Group 2 (Re.Repeat not_lt 10 None);
     Re.literal_i (str "</a>")].

(** [clean_title]'s two patterns: [\s* \| \s* [^|]* \s* - \s* [^-]* $] and
    [\s* - \s* [^-]* $]. *)
Definition title_patterns : list Re.regex :=
  [Re.seq [Re.Star Re.Space; Re.Char (Re.Lit (ch "|")); Re.Star Re.Space;
           Re.Star (Re.NoneOf [ch "|"]); Re.Star Re.Space;
           Re.Char (Re.Lit (ch "-")); Re.Star Re.Space;
           Re.Star (Re.NoneOf [ch "-"]); Re.Eos];
   Re.seq [Re.Star Re.Space; Re.Char (Re.Lit (ch "-")); Re.Star Re.Space;
           Re.Star (Re.NoneOf [ch "-"]); Re.Eos]].

(** [should_exclude_text]'s phrases; the Chinese ones by code point. *)
Definition exclude_patterns : list pystr :=
  [ (* 很抱歉，您使用的瀏覽器版本過低 *)
    [24456; 25265; 27465; 65292; 24744; 20351; 29992; 30340; 28687; 35261;
     22120; 29256; 26412; 36942; 20302]%N;
    (* 建議改用 *)
    [24314; 35696; 25913; 29992]%N;
    str "Yahoo Chrome, Firefox, Microsoft Edge";
    str "Google Chrome, Firefox, Microsoft Edge";
    (* 以獲得最佳瀏覽經驗 *)
    [20197; 29554; 24471; 26368; 20339; 28687; 35261; 32147; 39511]%N;
    str "Manage history";
    str "{notificationCenterNavMsg}";
    (* 瀏覽器版本過低 *)
    [28687; 35261; 22120; 29256; 26412; 36942; 20302]%N;
    (* 最佳瀏覽經驗 *)
    [26368; 20339; 28687; 35261; 32147; 39511]%N;
    str "browser version";
    str "Internet Explorer" ].

Definition exclude_url_patterns : list pystr :=
  [ str "javascript:";
    str "mailto:";
    str "#";
    str "microsoft.com/zh-tw/download/internet-explorer";
    str "download/internet-explorer" ].

(** The two messages of the fallback document. *)
Definition yahoo_unreachable : pystr :=
  (* 無法訪問Yahoo新聞，請檢查網絡連接 *)
  [28961; 27861; 35370; 21839; 89; 97; 104; 111; 111; 26032; 32862; 65292;
   35531; 27298; 26597; 32178; 32097; 36899; 25509]%N.
Definition google_unreachable : pystr :=
  (* 無法訪問Google新聞，請檢查網絡連接 *)
  [28961; 27861; 35370; 21839; 71; 111; 111; 103; 108; 101; 26032; 32862;
   65292; 35531; 27298; 26597; 32178; 32097; 36899; 25509]%N.

Import Json.

Definition item_json (item : NewsItem) : json :=
  JDict [ (str "text", of_pyval (text item));
          (str "url", of_pyval (url item));
          (str "h5_url", of_pyval (h5_url item));
          (str "appIconUrl", JStr (appIconUrl item));
          (str "sourceUniqueId", JStr (sourceUniqueId item));
          (str "package", JStr (package item)) ].

Definition update_intervals : json :=
  JDict [ (str "2G", JInt 20); (str "3G", JInt 20);
          (str "4G", JInt 20); (str "WIFI", JInt 20) ].

(** A source section, as [get_hot_words_json] and [create_fallback_json]
    write it. *)
Definition section (track_id title : pystr) (data : list NewsItem) (rank_type : pystr) : json :=
  JDict [ (str "track_id", JStr track_id);
          (str "title", JStr title);
          (str "title_icon_url", JStr []);
          (str "headImageUrl", JStr []);
          (str "link_type", JStr (str "app"));
          (str "data", JList (map item_json data));
          (str "selectedStatus", JBool false);
          (str "rank_type", JStr rank_type) ].

Definition fallback_data : json :=
  JDict [ (str "config_id", JStr (str "R-10"));
          (str "updateIntervalMinutes", update_intervals);
          (str "result",
             JList [ section (str "hq_yahoo") (str "Yahoo!")
                       [ {| text := PStr yahoo_unreachable;
                            url := PStr YAHOO_NEWS_URL;
                            h5_url := PStr YAHOO_NEWS_URL;
                            appIconUrl := [];
                            sourceUniqueId := str "content_yahoo";
                            package := [] |} ]
                       (str "Yahoo");
                     section (str "hq_google") (str "Google")
                       [ {| text := PStr google_unreachable;
                            url := PStr GOOGLE_NEWS_WEB_URL;
                            h5_url := PStr GOOGLE_NEWS_WEB_URL;
                            appIconUrl := [];
                            sourceUniqueId := str "content_google";
                            package := [] |} ]
                       (str "Google") ]);
          (str "hash", JStr (str "news_fallback"));
          (str "qt", JStr (str "composite_ad_news"));
          (str "message", JStr (str "success"));
          (str "cost", JInt 20);
          (str "status", JInt 0) ].

(** [create_fallback_json]: serialising the fixed document raises nothing,
    so the handler's hard-coded string is never returned. *)
Definition create_fallback_json : pystr := dumps fallback_data.

(** The sections of a serialised document and the items of a section. *)
Definition sections_of (doc : json) : list json :=
  match doc with
  | JDict entries =>
      match get (str "result") entries with
      | Some (JList sections) => sections
      | _ => []
      end
  | _ => []
  end.

Definition data_of (sec : json) : list json :=
  match sec with
  | JDict entries =>
      match get (str "data") entries with
      | Some (JList items) => items
      | _ => []
      end
  | _ => []
  end.

(** ** Stand-ins for the runtime's tables

    Concrete values for what the provider's methods take from the Python
    runtime, used where a statement is about one input.

    [lower_ascii_letters] lower-cases the ASCII letters and leaves every
    other character alone: it is [str.lower] on every string whose other
    characters have no case, which holds for the phrases of
    [exclude_patterns]. *)
Definition lower_ascii_letters (s : pystr) : pystr := map ascii_lower s.

(** An entity table without entries; the sample titles contain no [&]. *)
Definition no_named_references (name : pystr) : option pystr := None.

(** A parser that rejects every text. *)
Definition rejects_every_text (xml_content : pystr) : option ET.Element := None.

(** A parser that reads every text as the document [root]. *)
Definition parses_as (root : ET.Element) (xml_content : pystr) : option ET.Element :=
  Some root.

(** ** Sample inputs *)

(** A decimal character reference of 4301 digits. *)
Definition overlong_reference : pystr :=
  str "&#" ++ repeat (ch "1") 4301 ++ str ";".

(** 台股大漲 - 自由時報 and 台股大漲 *)
Definition headline_with_source : pystr :=
  [21488; 32929; 22823; 28466; 32; 45; 32; 33258; 30001; 26178; 22577]%N.
Definition headline : pystr := [21488; 32929; 22823; 28466]%N.

(** Feed documents: [<rss><channel>] with [<item>] children that hold a
    [<title>] and a [<link>]. *)
Definition feed_item (title link : pyval) : ET.Element :=
  ET.mkElement (str "item") PNone
    [ET.mkElement (str "title") title []; ET.mkElement (str "link") link []].

Definition feed_of (items : list ET.Element) : ET.Element :=
  ET.mkElement (str "rss") PNone [ET.mkElement (str "channel") PNone items].

(** [Headline A], [Headline B], ... and [https://news.example/a], ... *)
Definition numbered_headline (n : nat) : pystr := str "Headline " ++ [N.of_nat (65 + n)].
Definition numbered_link (n : nat) : pystr := str "https://news.example/" ++ [N.of_nat (97 + n)].
Definition numbered_item (n : nat) : ET.Element :=
  feed_item (PStr (numbered_headline n)) (PStr (numbered_link n)).

(** The record the feed extractor makes of a title and a link. *)
Definition google_record (title link : pyval) : NewsItem :=
  {| text := title;
     url := link;
     h5_url := link;
     appIconUrl := [];
     sourceUniqueId := str "content_google";
     package := [] |}.

(** The record the markup extractor makes of a title and a link. *)
Definition yahoo_record (title : pyval) (link : pystr) : NewsItem :=
  {| text := title;
     url := PStr link;
     h5_url := PStr link;
     appIconUrl := [];
     sourceUniqueId := str "content_yahoo";
     package := [] |}.

Definition numbered_record (n : nat) : NewsItem :=
  google_record (PStr (numbered_headline n)) (PStr (numbered_link n)).




(** One item whose link is an ftp url. *)
Definition feed_with_ftp_link : ET.Element :=
  feed_of [feed_item (PStr (str "Breaking news today")) (PStr (str "ftp://example.com/a"))].

(** Markup documents: one anchor with a relative link, and one anchor
    whose class is one the second pattern knows. *)
Definition page_with_relative_link : pystr :=
  str "<html><a href='./articles/123'>Some long headline text</a></html>".

Definition page_with_known_class : pystr :=
  str "<a class='x gPFEn' href='https://news.example/a1'>Big headline number one - Src</a>".

(** One item whose title holds a carriage return. *)
Definition feed_with_carriage_return : ET.Element :=
  feed_of [feed_item (PStr (str "Line one" ++ 13%N :: str "line two"))
             (PStr (numbered_link 0))].

(** A page whose anchor the first pattern matches, with the overlong
    reference as its text. *)
Definition page_with_overlong_title : pystr :=
  str "<a href='" ++ 92%N :: str "/articles/1'>" ++ overlong_reference ++ str "</a>".

(** A well-formed item, then an item whose title holds the overlong
    reference. *)
Definition feed_with_overlong_title : ET.Element :=
  feed_of [numbered_item 0; feed_item (PStr overlong_reference) (PStr (numbered_link 1))].

(** ** Predicates of the statements *)

Definition is_suffix (s' s : pystr) : Prop := exists p, s = p ++ s'.

(** [matches r s caps s' caps']: the pattern [r] matches the part of [s]
    that ends where [s'] begins, and adds its groups to [caps], which
    gives [caps'].  Every match the backtracking search finds is one of
    these. *)
Fixpoint matches (r : Re.regex) (s : pystr) (caps : Re.captures)
    (s' : pystr) (caps' : Re.captures) : Prop :=
  match r with
  | Re.Empty => s' = s /\ caps' = caps
  | Re.Char k => exists c, s = c :: s' /\ Re.mem k c = true /\ caps' = caps
  | Re.Repeat k lo hi =>
      exists taken,
        s = taken ++ s' /\ forallb (Re.mem k) taken = true /\
        lo <= length taken /\ caps' = caps
  | Re.Cat r1 r2 =>
      exists s1 caps1, matches r1 s caps s1 caps1 /\ matches r2 s1 caps1 s' caps'
  | Re.Or r1 r2 => matches r1 s caps s' caps' \/ matches r2 s caps s' caps'
  | Re.Group i r1 =>
      exists caps1,
        matches r1 s caps s' caps1 /\
        caps' = (i, firstn (length s - length s') s) :: caps1
  | Re.Eos => s' = s /\ caps' = caps /\ (s = [] \/ s = [10%N])
  end.

(** A pattern without capturing groups. *)
Fixpoint no_groups (r : Re.regex) : bool :=
  match r with
  | Re.Cat r1 r2 => no_groups r1 && no_groups r2
  | Re.Or r1 r2 => no_groups r1 && no_groups r2
  | Re.Group _ _ => false
  | _ => true
  end.

(** A record's title is a string that is trimmed already and has at least
    5 characters. *)
Definition title_trimmed (item : NewsItem) : Prop :=
  exists t, text item = PStr t /\ strip t = t /\ 5 <= length t.

(** A record as the extractors build it for a source: the two links are
    the same value, the icon and the package are empty. *)
Definition built_for (source : pystr) (item : NewsItem) : Prop :=
  h5_url item = url item /\ appIconUrl item = [] /\
  sourceUniqueId item = source /\ package item = [].

(** The file [recword.json]: absent, or the text it holds, as a read
    without newline translation decodes it.  What can go wrong when the
    provider touches it: [os.remove] may raise, and [save_json_to_file]
    may fail before the file is opened ([OpenFails]) or while it is
    written, leaving [on_disk] behind. *)
Inductive save_fault :=
| SaveWorks
| OpenFails
| WriteFails (on_disk : pystr).

(** [os.linesep] is a line feed, or a carriage return and a line feed. *)
Inductive platform := Posix | Windows.

Definition linesep (os : platform) : pystr :=
  match os with
  | Posix => [10%N]
  | Windows => [13%N; 10%N]
  end.

(** What [f.write] puts into a file opened with [open(path, 'w')]: text
    mode turns every line feed into [os.linesep]. *)
Definition written_text (os : platform) (s : pystr) : pystr :=
  flat_map (fun c => if (c =? 10)%N then linesep os else [c]) s.

(** What [f.read] gives for a file opened with [open(path, 'r')]: text
    mode turns a carriage return, with the line feed that follows it if
    there is one, into a line feed. *)
Fixpoint read_text (raw : pystr) : pystr :=
  match raw with
  | [] => []
  | c :: rest =>
      if (c =? 13)%N then
        10%N :: read_text match rest with
                          | d :: rest' => if (d =? 10)%N then rest' else rest
                          | [] => rest
                          end
      else c :: read_text rest
  end.

(** A [str] that the [utf-8] codec encodes: one without surrogates. *)
Definition is_surrogate (c : pychar) : bool := ((55296 <=? c) && (c <=? 57343))%N.
Definition encodable (s : pystr) : bool := forallb (fun c => negb (is_surrogate c)) s.

Record disk_faults := mkFaults {
  remove_fails : bool;
  save_fails : save_fault
}.

Definition no_faults : disk_faults :=
  {| remove_fails := false; save_fails := SaveWorks |}.

(** A pattern whose repetitions have no upper bound. *)
Fixpoint unbounded (r : Re.regex) : bool :=
  match r with
  | Re.Repeat _ _ None => true
  | Re.Repeat _ _ (Some _) => false
  | Re.Cat r1 r2 => unbounded r1 && unbounded r2
  | Re.Or r1 r2 => unbounded r1 && unbounded r2
  | Re.Group _ r1 => unbounded r1
  | _ => true
  end.

(** [clean_title]'s first and second pattern. *)
Definition pipe_pattern : Re.regex := nth 0 title_patterns Re.Empty.
Definition dash_pattern : Re.regex := nth 1 title_patterns Re.Empty.

(** [lacks cs s]: none of the characters [cs] occurs in [s]. *)
Definition lacks (cs : list pychar) (s : pystr) : bool :=
  forallb (fun c => negb (existsb (N.eqb c) cs)) s.

(** How often the characters [cs] occur in [s]. *)
Definition occurrences (cs : list pychar) (s : pystr) : nat :=
  length (filter (fun c => existsb (N.eqb c) cs) s).

(** A character set all of whose members are among [cs]. *)
Definition cset_within (cs : list pychar) (k : Re.cset) : bool :=
  match k with
  | Re.Lit c => existsb (N.eqb c) cs
  | Re.OneOf l => forallb (fun c => existsb (N.eqb c) cs) l
  | _ => false
  end.

(** A number of occurrences of [cs] that every match of the pattern
    holds (a syntactic lower bound). *)
Fixpoint needs (cs : list pychar) (r : Re.regex) : nat :=
  match r with
  | Re.Char k => if cset_within cs k then 1 else 0
  | Re.Repeat k lo _ => if cset_within cs k then lo else 0
  | Re.Cat r1 r2 => needs cs r1 + needs cs r2
  | Re.Or r1 r2 => Nat.min (needs cs r1) (needs cs r2)
  | Re.Group _ r1 => needs cs r1
  | _ => 0
  end.

(** An anchor with nothing but its link, as it stands in a page. *)
Definition anchor (quote : pychar) (link title : pystr) : pystr :=
  str "<a href=" ++ quote :: link ++ quote :: ch ">" :: title ++ str "</a>".

(** The characters an anchor's parts may not hold for it to stand alone:
    [<], the backslash and the two quotes. *)
Definition special : list pychar := ch "<" :: 92%N :: quotes.

(** The class names the second pattern looks for. *)
Definition class_names : list pystr := [str "gPFEn"; str "IFHyqb"; str "IBr9hb"].

(** An anchor with a class and a link. *)
Definition class_anchor (quote : pychar) (before name after link title : pystr)
    : pystr :=
  str "<a class=" ++ quote :: before ++ name ++ after ++ quote
    :: str " href=" ++ quote :: link ++ quote :: ch ">" :: title ++ str "</a>".

(** The list a pass through a loop body leaves. *)
Definition flow_list (f : flow) : list NewsItem :=
  match f with
  | Next news_array => news_array
  | Break news_array => news_array
  | Raised news_array _ => news_array
  end.

(** The title of a record has trimmed length at least 5; its link starts
    with [http://] or [https://]. *)
Definition title_ok (item : NewsItem) : Prop :=
  exists t, text item = PStr t /\ 5 <= length (strip t).

Definition link_ok (item : NewsItem) : Prop :=
  exists u, url item = PStr u /\
            (startswith u (str "http://") = true \/ startswith u (str "https://") = true).

Definition record_ok (item : NewsItem) : Prop := title_ok item /\ link_ok item.

(** [free_of c v]: the value is no string that contains [c]. *)
Definition free_of (c : pychar) (v : pyval) : bool :=
  match v with
  | PNone => true
  | PStr s => negb (existsb (N.eqb c) s)
  end.

(** ** The provider's methods *)

Section Provider.

Set Default Proof Using "Type".

(** Data and code of the Python runtime that the repository does not
    hold: the HTML5 entity table, [str.lower] on a string that is not
    ASCII (the Unicode case tables), and the XML parser, whose result is
    [None] when it raises [ParseError]. *)
Variable html5 : pystr -> option pystr.
Variable unicode_lower : pystr -> pystr.
Variable ET_fromstring : pystr -> option ET.Element.

(** [s.lower()] *)
Definition lower (s : pystr) : pystr :=
  if forallb is_ascii s then map ascii_lower s else unicode_lower s.

Definition clean_title (title : pyval) : result pyval :=
  if negb (truthy title) then Ok title
  else
    match title with
    | PNone => Raise TypeError
    | PStr title =>
        title <- Html.unescape html5 title ;;
        let title := strip title in
        let title :=
          fold_left (fun title pattern => Re.sub pattern [] title)
            title_patterns title in
        Ok (PStr (strip title))
    end.

Definition should_exclude_text (text : pyval) : bool :=
  if negb (truthy text) then true
  else
    match text with
    | PNone => true
    | PStr text =>
        let text_lower := lower text in
        if existsb (fun pattern => py_in (lower pattern) text_lower) exclude_patterns
        then true
        else if (length (strip text) <? 5)%nat then true
        else false
    end.

Definition should_exclude_url (url : pyval) : bool :=
  if negb (truthy url) then true
  else
    match url with
    | PNone => true
    | PStr url =>
        let url_lower := lower url in
        if existsb (fun pattern => py_in pattern url_lower) exclude_url_patterns
        then true
        else if negb (startswith url (str "http://") || startswith url (str "https://"))
        then true
        else false
    end.

(** *** The feed extractor *)

(** Body of the loop over the feed's items. *)
Definition rss_body (item : ET.Element) (news_array : list NewsItem) : flow :=
  match ET.find item (str "title"), ET.find item (str "link") with
  | Some title_elem, Some link_elem =>
      let title := ET.text title_elem in
      let link := ET.text link_elem in
      if truthy title && truthy link then
        match clean_title title with
        | Raise e => Raised news_array e
        | Ok title =>
            if negb (should_exclude_text title) then
              Next (news_array ++
                      [ {| text := title;
                           url := link;
                           h5_url := link;
                           appIconUrl := [];
                           sourceUniqueId := str "content_google";
                           package := [] |} ])
            else Next news_array
        end
      else Next news_array
  | _, _ => Next news_array
  end.

(** The part of [fetch_google_news_rss] that follows a successful parse:
    the items, the slice, the loop. *)
Definition rss_items (root : ET.Element) : list NewsItem * option exn :=
  let items := ET.findall_descendants root (str "item") in
  for_each rss_body (firstn MAX_NEWS_ITEMS items) [].

Definition fetch_google_news_rss (google : http_outcome) : list NewsItem :=
  match google with
  | UrlopenRaises => []
  | Response status xml_content =>
      if negb (status =? 200)%Z then []
      else
        match ET_fromstring xml_content with
        | None => []
        | Some root =>
            match rss_items root with
            | (news_array, None) => news_array
            | (_, Some _) => []
            end
        end
  end.

(** *** The markup extractor *)

Definition pattern1_body (m : Re.rematch) (news_array : list NewsItem) : flow :=
  if (MAX_NEWS_ITEMS <=? length news_array)%nat then Break news_array
  else
    let url := Re.group m 1 in
    let title := Re.group m 2 in
    match clean_title (PStr title) with
    | Raise e => Raised news_array e
    | Ok title =>
        if should_exclude_text title then Next news_array
        else if should_exclude_url (PStr url) then Next news_array
        else if truthy title && truthy (PStr url) then
          Next (news_array ++
                  [ {| text := title;
                       url := PStr url;
                       h5_url := PStr url;
                       appIconUrl := [];
                       sourceUniqueId := str "content_yahoo";
                       package := [] |} ])
        else Next news_array
    end.

Definition pattern2_body (m : Re.rematch) (news_array : list NewsItem) : flow :=
  if (MAX_NEWS_ITEMS <=? length news_array)%nat then Break news_array
  else
    let url := Re.group m 2 in
    let title := Re.group m 3 in
    match clean_title (PStr title) with
    | Raise e => Raised news_array e
    | Ok title =>
        if should_exclude_text title then Next news_array
        else if should_exclude_url (PStr url) then Next news_array
        else if truthy title && truthy (PStr url) then
          Next (news_array ++
                  [ {| text := title;
                       url := PStr url;
                       h5_url := PStr url;
                       appIconUrl := [];
                       sourceUniqueId := str "content_yahoo";
                       package := [] |} ])
        else Next news_array
    end.

(** [title[:255]] when the title is longer than 255 characters. *)
Definition limit_title (title : pystr) : pystr :=
  if (255 <? length title)%nat then firstn 255 title else title.

(** The relative-link step of the third loop. *)
Definition rebase_link (url : pystr) : pystr :=
  if negb (startswith url (str "http")) then
    if startswith url (str "./") then YAHOO_NEWS_URL ++ skipn 2 url
    else if startswith url (str "/") then YAHOO_NEWS_URL ++ url
    else url
  else url.

Definition pattern3_body (m : Re.rematch) (news_array : list NewsItem) : flow :=
  if (MAX_NEWS_ITEMS <=? length news_array)%nat then Break news_array
  else
    let url := Re.group m 1 in
    let title := Re.group m 2 in
    let title := limit_title title in
    match clean_title (PStr title) with
    | Raise e => Raised news_array e
    | Ok title =>
        if should_exclude_text title then Next news_array
        else
          let url := rebase_link url in
          if should_exclude_url (PStr url) then Next news_array
          else if truthy title && truthy (PStr url) then
            Next (news_array ++
                    [ {| text := title;
                         url := PStr url;
                         h5_url := PStr url;
                         appIconUrl := [];
                         sourceUniqueId := str "content_yahoo";
                         package := [] |} ])
          else Next news_array
    end.

(** One [pattern.finditer(html_content)] and the loop over its matches.
    After an exception the rest of the [try] block does not run. *)
Definition search (p : pattern_id) (pattern : Re.regex)
    (body : Re.rematch -> list NewsItem -> flow)
    (html_content : pystr) (st : parse_state) : parse_state :=
  match raised st with
  | Some _ => st
  | None =>
      let (news_array, e) := for_each body (Re.finditer pattern html_content) (arr st) in
      {| arr := news_array; searched := searched st ++ [p]; raised := e |}
  end.

(** [len(news_array) == 0], reached only while no exception has ended
    the block. *)
Definition none_found (st : parse_state) : bool :=
  match raised st with
  | Some _ => false
  | None => (length (arr st) =? 0)%nat
  end.

(** [parse_yahoo_html]: the caller's list after the call, and the
    patterns that were searched. *)
Definition parse_yahoo_html (html_content : pystr) (news_array : list NewsItem)
    : list NewsItem * list pattern_id :=
  let st := {| arr := news_array; searched := []; raised := None |} in
  let st := search Pattern1 pattern1 pattern1_body html_content st in
  let st := if none_found st
            then search Pattern2 pattern2 pattern2_body html_content st else st in
  let st := if none_found st
            then search Pattern3 pattern3 pattern3_body html_content st else st in
  (arr st, searched st).

Definition fetch_yahoo_news_trending (yahoo : http_outcome) : list NewsItem :=
  match yahoo with
  | UrlopenRaises => []
  | Response status html_content =>
      if negb (status =? 200)%Z then []
      else fst (parse_yahoo_html html_content [])
  end.

(** *** The aggregator *)

(** The [result] list of [get_hot_words_json]. *)
Definition result_sections (yahoo_news google_news : list NewsItem) : list json :=
  (match yahoo_news with
   | [] => []
   | _ :: _ => [section (str "hq_yahoo") (str "Yahoo!") yahoo_news (str "rank_ahoo")]
   end)
  ++
  (match google_news with
   | [] => []
   | _ :: _ => [section (str "hq_google") (str "Google") google_news (str "rank_google")]
   end).

Definition response_data (result : list json) (cost : Z) : json :=
  JDict [ (str "config_id", JStr (str "R-10"));
          (str "updateIntervalMinutes", update_intervals);
          (str "result", JList result);
          (str "hash", JStr (str "c2d15b8822404d2ea10f48b759eadba1"));
          (str "qt", JStr (str "composite_ad_yahoo_google"));
          (str "message", JStr (str "success"));
          (str "cost", JInt cost);
          (str "status", JInt 0) ].

(** The document whose serialisation [get_hot_words_json] returns;
    [randint] is the draw of [random.randint(10, 50)]. *)
Definition hot_words_document (yahoo google : http_outcome) (randint : Z) : json :=
  let yahoo_news := fetch_yahoo_news_trending yahoo in
  let google_news := fetch_google_news_rss google in
  let result := result_sections yahoo_news google_news in
  match result with
  | [] => fallback_data
  | _ :: _ => response_data result randint
  end.

Definition get_hot_words_json (yahoo google : http_outcome) (randint : Z) : pystr :=
  let yahoo_news := fetch_yahoo_news_trending yahoo in
  let google_news := fetch_google_news_rss google in
  let result := result_sections yahoo_news google_news in
  match result with
  | [] => create_fallback_json
  | _ :: _ => dumps (response_data result randint)
  end.

(** *** The JSON file *)

(** [read_local_json_file]: the text of the file as text mode reads it,
    or [None] when the file is absent or reading it raises. *)
Definition read_local_json_file (read_fails : bool) (file : option pystr) : pyval :=
  match file with
  | Some raw => if read_fails then PNone else PStr (read_text raw)
  | None => PNone
  end.

(** [save_json_to_file]: the file after the call; an exception is logged
    and goes no further.  Opening the file for writing empties it; a
    string with a surrogate makes [f.write] raise before anything is
    written. *)
Definition save_json_to_file (os : platform) (fault : save_fault)
    (json_string : pystr) (file : option pystr) : option pystr :=
  match fault with
  | SaveWorks =>
      if encodable json_string then Some (written_text os json_string) else Some []
  | OpenFails => file
  | WriteFails on_disk => Some on_disk
  end.

(** [get_hot_words_json] with its effect on the file: the old file is
    removed first, and the new text is saved only when a source gave
    records. *)
Definition get_hot_words_json_on_disk (os : platform) (faults : disk_faults)
    (yahoo google : http_outcome) (randint : Z) (file : option pystr)
    : pystr * option pystr :=
  let file :=
    match file with
    | Some _ => if remove_fails faults then file else None
    | None => None
    end in
  let yahoo_news := fetch_yahoo_news_trending yahoo in
  let google_news := fetch_google_news_rss google in
  let result := result_sections yahoo_news google_news in
  match result with
  | [] => (create_fallback_json, file)
  | _ :: _ =>
      let json_result := dumps (response_data result randint) in
      (json_result, save_json_to_file os (save_fails faults) json_result file)
  end.


(** *** The specification's wording, for comparison *)

(** The link filter as the specification words it: the scheme is judged
    by a prefix check that ignores case. *)
Definition excluded_link_as_specified (url : pyval) : bool :=
  match url with
  | PNone => true
  | PStr [] => true
  | PStr url =>
      existsb (fun pattern => py_in pattern url) exclude_url_patterns
      || negb (startswith (lower url) (str "http://")
               || startswith (lower url) (str "https://"))
  end.







(** The caller's list after the first loop alone, and after the second
    loop alone: from an empty list, what that loop accepts. *)
Definition after_pattern1 (html_content : pystr) (news_array : list NewsItem)
    : list NewsItem :=
  fst (for_each pattern1_body (Re.finditer pattern1 html_content) news_array).

Definition after_pattern2 (html_content : pystr) (news_array : list NewsItem)
    : list NewsItem :=
  fst (for_each pattern2_body (Re.finditer pattern2 html_content) news_array).

(** The exception that ends the first loop, and the second, if one
    does. *)
Definition raised_by_pattern1 (html_content : pystr) (news_array : list NewsItem)
    : option exn :=
  snd (for_each pattern1_body (Re.finditer pattern1 html_content) news_array).


(** ** Strings *)

Lemma existsb_eqb_false (c : pychar) (s : pystr) :
  existsb (N.eqb c) s = false <-> ~ In c s.
Proof.
  induction s as [|x s IH]; simpl.
  - split; [intros _ []|reflexivity].
  - rewrite orb_false_iff, IH, N.eqb_neq. split.
    + intros [Hc Hs] [Hx|Hin]; [now apply Hc|now apply Hs].
    + intros H. split; [intros Hc|intros Hin]; apply H; [now left|now right].
Qed.

Lemma rstrip_idempotent (s : pystr) : rstrip (rstrip s) = rstrip s.
Proof.
  induction s as [|c s IH]; simpl; [reflexivity|].
  destruct (rstrip s) as [|x r] eqn:E.
  - destruct (isspace c) eqn:Ec; simpl; [reflexivity|now rewrite Ec].
  - change (rstrip (c :: x :: r)) with
      (match rstrip (x :: r) with
       | [] => if isspace c then [] else [c]
       | r' => c :: r'
       end).
    now rewrite IH.
Qed.

Lemma lstrip_head (s : pystr) :
  lstrip s = [] \/ exists c u, lstrip s = c :: u /\ isspace c = false.
Proof.
  induction s as [|c s IH]; simpl; [now left|].
  destruct (isspace c) eqn:Ec; [exact IH|].
  right. now exists c, s.
Qed.

Lemma rstrip_head (c : pychar) (u : pystr) :
  isspace c = false -> exists r, rstrip (c :: u) = c :: r.
Proof.
  intros Ec. simpl. destruct (rstrip u) as [|x r].
  - rewrite Ec. now exists [].
  - now exists (x :: r).
Qed.

Lemma strip_idempotent (s : pystr) : strip (strip s) = strip s.
Proof.
  unfold strip.
  destruct (lstrip_head s) as [E | (c & u & E & Ec)]; rewrite E.
  - reflexivity.
  - destruct (rstrip_head c u Ec) as [r Er]. rewrite Er.
    simpl lstrip. rewrite Ec. rewrite <- Er. apply rstrip_idempotent.
Qed.

(** ** The matcher fails where it has to *)

Lemma is_suffix_refl (s : pystr) : is_suffix s s.
Proof. now exists []. Qed.

Lemma is_suffix_tail (s' s : pystr) (c : pychar) :
  is_suffix s' s -> is_suffix s' (c :: s).
Proof. intros [p ->]. now exists (c :: p). Qed.

Lemma is_suffix_trans (a b c : pystr) :
  is_suffix a b -> is_suffix b c -> is_suffix a c.
Proof. intros [p ->] [q ->]. exists (q ++ p). now rewrite app_assoc. Qed.

Lemma is_suffix_not_in (c : pychar) (s' s : pystr) :
  is_suffix s' s -> ~ In c s -> ~ In c s'.
Proof. intros [p ->] H Hin. apply H, in_or_app. now right. Qed.

Lemma repeat_then_fails (A : Type) (k : Re.cset) (cont : pystr -> option A) (s : pystr) :
  (forall s', is_suffix s' s -> cont s' = None) ->
  forall lo hi, Re.repeat_then k lo hi cont s = None.
Proof.
  induction s as [|c s IH]; intros Hc lo hi; simpl.
  - destruct (lo =? 0)%nat; [apply Hc, is_suffix_refl | reflexivity].
  - assert (Hstop : (if (lo =? 0)%nat then cont (c :: s) else None) = None)
      by (destruct (lo =? 0)%nat; [apply Hc, is_suffix_refl | reflexivity]).
    destruct (Re.mem k c && Re.may_take_more hi); [|exact Hstop].
    rewrite IH; [exact Hstop|].
    intros s' Hs'. apply Hc. now apply is_suffix_tail.
Qed.

Lemma run_fails (A : Type) (r : Re.regex) :
  forall (cont : pystr -> Re.captures -> option A) s caps,
    (forall s' caps', is_suffix s' s -> cont s' caps' = None) ->
    Re.run r cont s caps = None.
Proof.
  induction r as [|k|k lo hi|r1 IH1 r2 IH2|r1 IH1 r2 IH2|i r1 IH1|];
    intros cont s caps Hc; simpl.
  - apply Hc, is_suffix_refl.
  - destruct s as [|c s]; [reflexivity|].
    destruct (Re.mem k c); [|reflexivity].
    apply Hc, is_suffix_tail, is_suffix_refl.
  - apply repeat_then_fails. intros s' Hs'. now apply Hc.
  - apply IH1. intros s' caps' Hs'. apply IH2.
    intros s'' caps'' Hs''. apply Hc. eapply is_suffix_trans; eassumption.
  - rewrite IH1 by exact Hc. now apply IH2.
  - apply IH1. intros s' caps' Hs'. now apply Hc.
  - destruct s as [|c [|d s]]; [apply Hc, is_suffix_refl| |reflexivity].
    destruct (c =? 10)%N; [apply Hc, is_suffix_refl | reflexivity].
Qed.

Lemma run_requires (A : Type) (c : pychar) (r : Re.regex) :
  Re.requires r c = true ->
  forall (cont : pystr -> Re.captures -> option A) s caps,
    ~ In c s -> Re.run r cont s caps = None.
Proof.
  induction r as [|k|k lo hi|r1 IH1 r2 IH2|r1 IH1 r2 IH2|i r1 IH1|];
    simpl; intros Hr cont s caps Hs; try discriminate.
  - destruct k; try discriminate.
    destruct s as [|x s]; [reflexivity|]. simpl.
    apply N.eqb_eq in Hr. subst c0.
    destruct (x =? c)%N eqn:E; [|reflexivity].
    apply N.eqb_eq in E. subst x. exfalso. apply Hs. now left.
  - destruct k; try discriminate. destruct lo as [|lo]; [discriminate|].
    apply N.eqb_eq in Hr. subst c0.
    destruct s as [|x s]; simpl; [reflexivity|].
    destruct (x =? c)%N eqn:E; [|reflexivity].
    apply N.eqb_eq in E. subst x. exfalso. apply Hs. now left.
  - apply orb_true_iff in Hr. destruct Hr as [Hr|Hr].
    + now apply IH1.
    + apply run_fails. intros s' caps' Hs'. apply IH2; [exact Hr|].
      eapply is_suffix_not_in; eassumption.
  - apply andb_true_iff in Hr. destruct Hr as [Hr1 Hr2].
    rewrite IH1 by assumption. now apply IH2.
  - now apply IH1.
Qed.

Lemma match_here_requires (c : pychar) (r : Re.regex) (s : pystr) :
  Re.requires r c = true -> ~ In c s -> Re.match_here r s = None.
Proof. intros Hr Hs. unfold Re.match_here. now apply run_requires with (c := c). Qed.

(** A pattern that needs a character leaves a string without it alone. *)
Lemma sub_requires (c : pychar) (r : Re.regex) (repl s : pystr) :
  Re.requires r c = true -> ~ In c s -> Re.sub r repl s = s.
Proof.
  intros Hr. unfold Re.sub. induction s as [|x s IH]; intros Hs; simpl.
  - now rewrite match_here_requires with (c := c).
  - rewrite match_here_requires with (c := c) by assumption. f_equal. apply IH.
    intros Hin. apply Hs. now right.
Qed.

(** ** What the matcher finds is a match *)

Lemma repeat_then_sound (A : Type) (k : Re.cset) (cont : pystr -> option A) (s : pystr) :
  forall lo hi a,
    Re.repeat_then k lo hi cont s = Some a ->
    exists taken s',
      s = taken ++ s' /\ forallb (Re.mem k) taken = true /\
      lo <= length taken /\ cont s' = Some a.
Proof.
  induction s as [|c s IH]; intros lo hi a; simpl.
  - destruct lo; simpl; [|discriminate]. intros H. exists [], []. now repeat split.
  - assert (Hstop : (if (lo =? 0)%nat then cont (c :: s) else None) = Some a ->
                    exists taken s',
                      c :: s = taken ++ s' /\ forallb (Re.mem k) taken = true /\
                      lo <= length taken /\ cont s' = Some a).
    { destruct lo; simpl; [|discriminate]. intros H. exists [], (c :: s). now repeat split. }
    destruct (Re.mem k c) eqn:Hc; simpl; [|exact Hstop].
    destruct (Re.may_take_more hi); [|exact Hstop].
    destruct (Re.repeat_then k (pred lo) (Re.one_less hi) cont s) as [a'|] eqn:E;
      [|exact Hstop].
    intros [= <-]. destruct (IH _ _ _ E) as (taken & s' & -> & Hall & Hlo & Hk).
    exists (c :: taken), s'. simpl. rewrite Hc, Hall. repeat split; [lia|exact Hk].
Qed.

Lemma run_sound (A : Type) (r : Re.regex) :
  forall (cont : pystr -> Re.captures -> option A) s caps a,
    Re.run r cont s caps = Some a ->
    exists s' caps', matches r s caps s' caps' /\ cont s' caps' = Some a.
Proof.
  induction r as [|k|k lo hi|r1 IH1 r2 IH2|r1 IH1 r2 IH2|i r1 IH1|];
    intros cont s caps a; simpl.
  - intros H. now exists s, caps.
  - destruct s as [|c s]; [discriminate|].
    destruct (Re.mem k c) eqn:Hc; [|discriminate].
    intros H. exists s, caps. split; [|exact H]. now exists c.
  - intros H. destruct (repeat_then_sound _ _ _ _ _ H) as (taken & s' & -> & Hall & Hlo & Hk).
    exists s', caps. split; [|exact Hk]. now exists taken.
  - intros H. destruct (IH1 _ _ _ _ H) as (s1 & caps1 & H1 & H').
    destruct (IH2 _ _ _ _ H') as (s2 & caps2 & H2 & Hk).
    exists s2, caps2. split; [|exact Hk]. now exists s1, caps1.
  - destruct (Re.run r1 cont s caps) as [a'|] eqn:E.
    + intros [= <-]. destruct (IH1 _ _ _ _ E) as (s' & caps' & H1 & Hk).
      exists s', caps'. split; [now left|exact Hk].
    + intros H. destruct (IH2 _ _ _ _ H) as (s' & caps' & H2 & Hk).
      exists s', caps'. split; [now right|exact Hk].
  - intros H. destruct (IH1 _ _ _ _ H) as (s' & caps1 & H1 & Hk).
    exists s', ((i, firstn (length s - length s') s) :: caps1).
    split; [|exact Hk]. now exists caps1.
  - destruct s as [|c [|d s]].
    + intros H. exists [], caps. split; [|exact H]. repeat split. now left.
    + destruct (c =? 10)%N eqn:Hc; [|discriminate]. apply N.eqb_eq in Hc. subst c.
      intros H. exists [10%N], caps. split; [|exact H]. repeat split. now right.
    + discriminate.
Qed.

Lemma match_here_sound (r : Re.regex) (s : pystr) (m : Re.rematch) :
  Re.match_here r s = Some m ->
  exists s', matches r s [] s' (Re.groups m) /\ Re.span m = length s - length s'.
Proof.
  unfold Re.match_here. intros H.
  destruct (run_sound _ _ _ _ H) as (s' & caps' & Hm & [= <-]).
  now exists s'.
Qed.

(** Every match [finditer] yields is a match at some place of the text. *)
Lemma finditer_from_sound (r : Re.regex) (s : pystr) :
  forall skip,
    Forall (fun m => exists t, Re.match_here r t = Some m) (Re.finditer_from r s skip).
Proof.
  induction s as [|c s IH]; intros skip; simpl.
  - destruct skip; [|constructor].
    destruct (Re.match_here r []) as [m|] eqn:E; constructor; [|constructor].
    now exists [].
  - destruct skip; [|apply IH].
    destruct (Re.match_here r (c :: s)) as [m|] eqn:E; [|apply IH].
    constructor; [|apply IH]. now exists (c :: s).
Qed.

Lemma matches_suffix (r : Re.regex) :
  forall s caps s' caps', matches r s caps s' caps' -> is_suffix s' s.
Proof.
  induction r as [|k|k lo hi|r1 IH1 r2 IH2|r1 IH1 r2 IH2|i r1 IH1|];
    intros s caps s' caps'; simpl.
  - intros [-> _]. apply is_suffix_refl.
  - intros (c & -> & _). now exists [c].
  - intros (taken & -> & _). now exists taken.
  - intros (s1 & caps1 & H1 & H2).
    eapply is_suffix_trans; [eapply IH2|eapply IH1]; eassumption.
  - intros [H|H]; [eapply IH1|eapply IH2]; eassumption.
  - intros (caps1 & H & _). eapply IH1; eassumption.
  - intros (-> & _). apply is_suffix_refl.
Qed.

Lemma matches_keeps_captures (r : Re.regex) :
  no_groups r = true ->
  forall s caps s' caps', matches r s caps s' caps' -> caps' = caps.
Proof.
  induction r as [|k|k lo hi|r1 IH1 r2 IH2|r1 IH1 r2 IH2|i r1 IH1|];
    simpl; intros Hg s caps s' caps'; try discriminate.
  - now intros [_ ->].
  - now intros (c & _ & _ & ->).
  - now intros (taken & _ & _ & _ & ->).
  - apply andb_true_iff in Hg. destruct Hg as [Hg1 Hg2].
    intros (s1 & caps1 & H1 & H2).
    rewrite (IH2 Hg2 _ _ _ _ H2). exact (IH1 Hg1 _ _ _ _ H1).
  - apply andb_true_iff in Hg. destruct Hg as [Hg1 Hg2].
    intros [H|H]; [exact (IH1 Hg1 _ _ _ _ H)|exact (IH2 Hg2 _ _ _ _ H)].
  - now intros (_ & -> & _).
Qed.

Lemma matches_plain (r : Re.regex) (s : pystr) (caps : Re.captures)
    (s' : pystr) (caps' : Re.captures) :
  no_groups r = true -> matches r s caps s' caps' -> caps' = caps /\ is_suffix s' s.
Proof.
  intros Hg H. split.
  - exact (matches_keeps_captures r Hg _ _ _ _ H).
  - exact (matches_suffix r _ _ _ _ H).
Qed.

Lemma firstn_cons_suffix (c : pychar) (t s' : pystr) :
  is_suffix s' t ->
  exists rest, firstn (length (c :: t) - length s') (c :: t) = c :: rest.
Proof.
  intros [p ->]. simpl length. rewrite length_app.
  replace (S (length p + length s') - length s') with (S (length p)) by lia.
  simpl. eauto.
Qed.

Lemma firstn_taken (taken s' : pystr) :
  firstn (length (taken ++ s') - length s') (taken ++ s') = taken.
Proof.
  rewrite length_app.
  replace (length taken + length s' - length s') with (length taken) by lia.
  rewrite firstn_app, Nat.sub_diag, firstn_all. simpl. now rewrite app_nil_r.
Qed.

(** The link that pattern 1 captures starts with a backslash. *)
Lemma pattern1_link_starts_with_backslash (s : pystr) (m : Re.rematch) :
  Re.match_here pattern1 s = Some m -> exists rest, Re.group m 1 = 92%N :: rest.
Proof.
  intros H. destruct (match_here_sound _ _ H) as (s' & Hm & _).
  unfold Re.group. destruct m as [sp caps]. simpl Re.groups in *. clear H.
  unfold pattern1, Re.seq in Hm. cbn [fold_right matches] in Hm.
  repeat match goal with
         | H : exists _, _ |- _ => destruct H
         | H : _ /\ _ |- _ => destruct H
         | H : matches ?r _ _ _ _ |- _ =>
             apply (@matches_plain r) in H; [|reflexivity]
         end.
  subst. simpl Re.lookup.
  match goal with H : Re.mem (Re.Lit 92%N) ?c = true |- _ =>
    simpl in H; apply N.eqb_eq in H; subst c end.
  apply firstn_cons_suffix.
  repeat (eapply is_suffix_trans; [eassumption|]). apply is_suffix_refl.
Qed.

(** The text that pattern 3 captures has at least ten characters. *)
Lemma pattern3_text_at_least_ten (s : pystr) (m : Re.rematch) :
  Re.match_here pattern3 s = Some m -> 10 <= length (Re.group m 2).
Proof.
  intros H. destruct (match_here_sound _ _ H) as (s' & Hm & _).
  unfold Re.group. destruct m as [sp caps]. simpl Re.groups in *. clear H.
  unfold pattern3, Re.seq in Hm. cbn [fold_right matches] in Hm.
  repeat match goal with
         | H : exists _, _ |- _ => destruct H
         | H : _ /\ _ |- _ => destruct H
         | H : matches ?r _ _ _ _ |- _ =>
             apply (@matches_plain r) in H; [|reflexivity]
         end.
  subst. simpl Re.lookup. now rewrite firstn_taken.
Qed.

(** ** [clean_title] *)

Lemma unescape_without_ampersand (t : pystr) :
  existsb (N.eqb (ch "&")) t = false -> Html.unescape html5 t = Ok t.
Proof. intros H. unfold Html.unescape. now rewrite H. Qed.

Lemma title_patterns_need_a_dash :
  Forall (fun pattern => Re.requires pattern (ch "-") = true) title_patterns.
Proof. repeat constructor. Qed.

Lemma title_patterns_keep_dashless (t : pystr) :
  ~ In (ch "-") t ->
  fold_left (fun title pattern => Re.sub pattern [] title) title_patterns t = t.
Proof.
  intros Ht. generalize title_patterns_need_a_dash.
  induction title_patterns as [|p ps IH]; intros Hp; simpl; [reflexivity|].
  inversion Hp as [|? ? Hp1 Hps]; subst.
  rewrite sub_requires with (c := ch "-") by assumption.
  now apply IH.
Qed.

(** What [clean_title] does to a string that is not empty. *)
Lemma clean_title_nonempty (c : pychar) (t : pystr) :
  clean_title (PStr (c :: t)) =
  (u <- Html.unescape html5 (c :: t) ;;
   Ok (PStr (strip (fold_left (fun title pattern => Re.sub pattern [] title)
                      title_patterns (strip u))))).
Proof. reflexivity. Qed.

(** C9 (as amended): [clean_title] returns [None] and the empty string
    unchanged; on any other string it raises exactly when [html.unescape]
    raises on it, with the same exception, and otherwise returns a
    string; in particular it returns on every string without [&]. *)
Theorem clean_title_raises_only_with_unescape :
  clean_title PNone = Ok PNone /\
  clean_title (PStr []) = Ok (PStr []) /\
  (forall t e,
      clean_title (PStr t) = Raise e <-> t <> [] /\ Html.unescape html5 t = Raise e) /\
  (forall t u,
      Html.unescape html5 t = Ok u -> exists r, clean_title (PStr t) = Ok (PStr r)) /\
  (forall t,
      existsb (N.eqb (ch "&")) t = false -> exists r, clean_title (PStr t) = Ok (PStr r)).
Proof.
  assert (Hret : forall t u,
             Html.unescape html5 t = Ok u -> exists r, clean_title (PStr t) = Ok (PStr r)).
  { intros [|c t] u Hu.
    - now exists [].
    - rewrite clean_title_nonempty, Hu. unfold bind. eauto. }
  split; [reflexivity|]. split; [reflexivity|]. split; [|split].
  - intros t e. split.
    + intros H. destruct t as [|c t]; [discriminate|].
      split; [discriminate|].
      rewrite clean_title_nonempty in H.
      destruct (Html.unescape html5 (c :: t)); unfold bind in H; [discriminate|congruence].
    + intros [Ht Hu]. destruct t as [|c t]; [contradiction|].
      rewrite clean_title_nonempty, Hu. reflexivity.
  - exact Hret.
  - intros t Ht. apply Hret with (u := t). now apply unescape_without_ampersand.
Qed.

Lemma clean_title_output_stripped (c : pychar) (t : pystr) (y : pyval) :
  clean_title (PStr (c :: t)) = Ok y -> exists w, y = PStr (strip w).
Proof.
  rewrite clean_title_nonempty.
  destruct (Html.unescape html5 (c :: t)) as [u|]; unfold bind; [|discriminate].
  intros H. eexists. injection H as <-. reflexivity.
Qed.

Lemma clean_title_fixes_plain_stripped (w : pystr) :
  existsb (N.eqb (ch "&")) (strip w) = false ->
  existsb (N.eqb (ch "-")) (strip w) = false ->
  clean_title (PStr (strip w)) = Ok (PStr (strip w)).
Proof.
  intros Hamp Hdash.
  assert (Hs : strip (strip w) = strip w) by apply strip_idempotent.
  destruct (strip w) as [|d r]; [reflexivity|].
  rewrite clean_title_nonempty.
  rewrite unescape_without_ampersand by exact Hamp. unfold bind.
  rewrite Hs, title_patterns_keep_dashless, Hs; [reflexivity|].
  now apply existsb_eqb_false.
Qed.

(** C4 (as amended): when [clean_title] returns a value that contains
    neither [&] nor [-], cleaning that value again returns it unchanged. *)
Theorem clean_title_idempotent_on_plain_titles (x y : pyval) :
  clean_title x = Ok y ->
  free_of (ch "&") y = true ->
  free_of (ch "-") y = true ->
  clean_title y = Ok y.
Proof.
  intros Hx Hamp Hdash.
  destruct x as [|[|c t]].
  - injection Hx as <-. reflexivity.
  - injection Hx as <-. reflexivity.
  - destruct (clean_title_output_stripped _ _ Hx) as [w ->].
    unfold free_of in Hamp, Hdash. apply negb_true_iff in Hamp, Hdash.
    now apply clean_title_fixes_plain_stripped.
Qed.

(** ** [should_exclude_url] *)

Lemma should_exclude_url_nonempty (c : pychar) (u : pystr) :
  should_exclude_url (PStr (c :: u)) =
  (existsb (fun pattern => py_in pattern (lower (c :: u))) exclude_url_patterns
   || negb (startswith (c :: u) (str "http://") || startswith (c :: u) (str "https://"))).
Proof.
  unfold should_exclude_url. cbv beta iota delta [truthy negb].
  destruct (existsb _ exclude_url_patterns); [reflexivity|].
  now destruct (startswith (c :: u) (str "http://") || startswith (c :: u) (str "https://")).
Qed.

Lemma should_exclude_url_passes (u : pystr) :
  should_exclude_url (PStr u) = false ->
  startswith u (str "http://") = true \/ startswith u (str "https://") = true.
Proof.
  destruct u as [|c u]; [discriminate|].
  rewrite should_exclude_url_nonempty.
  intros H. apply orb_false_iff in H. destruct H as [_ H].
  apply negb_false_iff in H. now apply orb_true_iff in H.
Qed.

(** C6 (as amended): the link filter returns true exactly when the url
    is empty (or [None]), or its lower-cased form contains one of the
    denylist substrings, or the url as written starts with neither
    [http://] nor [https://]; so it returns true on
    [javascript:void(0)], and on every url that begins [HTTP://] or
    [HTTPS://] in upper case. *)
Theorem should_exclude_url_exactly :
  (forall url,
      should_exclude_url url = true <->
      truthy url = false
      \/ (exists u pattern,
             url = PStr u /\ In pattern exclude_url_patterns
             /\ py_in pattern (lower u) = true)
      \/ (exists u,
             url = PStr u /\ startswith u (str "http://") = false
             /\ startswith u (str "https://") = false))
  /\ should_exclude_url (PStr (str "javascript:void(0)")) = true
  /\ (forall rest, should_exclude_url (PStr (str "HTTP://" ++ rest)) = true)
  /\ (forall rest, should_exclude_url (PStr (str "HTTPS://" ++ rest)) = true).
Proof.
  split; [|split; [reflexivity|split]].
  - intros [|[|c u]].
    + split; [now left|reflexivity].
    + split; [now left|reflexivity].
    + rewrite should_exclude_url_nonempty, orb_true_iff, existsb_exists,
        negb_true_iff, orb_false_iff.
      split.
      * intros [(pattern & Hin & Hp)|[H1 H2]]; right.
        -- left. now exists (c :: u), pattern.
        -- right. now exists (c :: u).
      * intros [H|[(u' & pattern & [= <-] & Hin & Hp)|(u' & [= <-] & H1 & H2)]].
        -- discriminate.
        -- left. now exists pattern.
        -- now right.
  - intros rest. change (str "HTTP://" ++ rest) with (ch "H" :: str "TTP://" ++ rest).
    rewrite should_exclude_url_nonempty. apply orb_true_iff. now right.
  - intros rest. change (str "HTTPS://" ++ rest) with (ch "H" :: str "TTPS://" ++ rest).
    rewrite should_exclude_url_nonempty. apply orb_true_iff. now right.
Qed.

(** C10: a url whose lower-cased form contains [#] is excluded. *)
Theorem should_exclude_url_fragment (url : pystr) :
  py_in (str "#") (lower url) = true -> should_exclude_url (PStr url) = true.
Proof.
  intros H. destruct url as [|c u].
  - reflexivity.
  - rewrite should_exclude_url_nonempty. apply orb_true_iff. left.
    apply existsb_exists. exists (str "#"). split; [|exact H].
    unfold exclude_url_patterns. right. right. left. reflexivity.
Qed.

(** ** Loops *)

Lemma for_each_invariant (X : Type) (P : list NewsItem -> Prop)
    (body : X -> list NewsItem -> flow) :
  (forall x news_array, P news_array -> P (flow_list (body x news_array))) ->
  forall xs news_array, P news_array -> P (fst (for_each body xs news_array)).
Proof.
  intros Hbody xs. induction xs as [|x xs IH]; intros news_array HP; simpl.
  - exact HP.
  - specialize (Hbody x news_array HP).
    destruct (body x news_array); simpl in *; [now apply IH|exact Hbody|exact Hbody].
Qed.

Lemma for_each_length (X : Type) (body : X -> list NewsItem -> flow) :
  (forall x news_array, length (flow_list (body x news_array)) <= S (length news_array)) ->
  forall xs news_array,
    length (fst (for_each body xs news_array)) <= length news_array + length xs.
Proof.
  intros Hbody xs. induction xs as [|x xs IH]; intros news_array; simpl.
  - lia.
  - specialize (Hbody x news_array).
    destruct (body x news_array) as [a|a|a e]; simpl in *.
    + specialize (IH a). lia.
    + lia.
    + lia.
Qed.

(** ** [should_exclude_text] *)

Lemma should_exclude_text_passes (title : pyval) :
  should_exclude_text title = false ->
  exists t, title = PStr t /\ 5 <= length (strip t).
Proof.
  destruct title as [|[|c t]]; try discriminate.
  unfold should_exclude_text. cbv beta iota delta [truthy negb].
  destruct (existsb _ exclude_patterns); [discriminate|].
  destruct (length (strip (c :: t)) <? 5)%nat eqn:E; [discriminate|].
  intros _. exists (c :: t). split; [reflexivity|].
  apply Nat.ltb_ge in E. exact E.
Qed.

(** ** The feed extractor *)

(** A pass through the feed loop's body leaves the list alone or appends
    one record, whose title passed the title filter and whose link is
    the item's link text, not empty and otherwise unexamined. *)
Lemma rss_body_cases (item : ET.Element) (news_array : list NewsItem) :
  flow_list (rss_body item news_array) = news_array \/
  exists title link,
    rss_body item news_array = Next (news_array ++ [google_record title link]) /\
    should_exclude_text title = false /\ truthy link = true.
Proof.
  unfold rss_body.
  destruct (ET.find item (str "title")) as [title_elem|]; [|now left].
  destruct (ET.find item (str "link")) as [link_elem|]; [|now left].
  destruct (truthy (ET.text title_elem)) eqn:Ht; [|now left].
  destruct (truthy (ET.text link_elem)) eqn:Hl; [|now left].
  cbv beta iota delta [andb].
  destruct (clean_title (ET.text title_elem)) as [title|e]; [|now left].
  destruct (should_exclude_text title) eqn:Hx; [now left|].
  right. exists title, (ET.text link_elem). now repeat split.
Qed.



Lemma rss_body_length (item : ET.Element) (news_array : list NewsItem) :
  length (flow_list (rss_body item news_array)) <= S (length news_array).
Proof.
  destruct (rss_body_cases item news_array) as [->|(title & link & -> & _)].
  - lia.
  - simpl. rewrite length_app. simpl. lia.
Qed.

(** The bound holds for every document. *)
Lemma rss_items_at_most_fifteen (root : ET.Element) :
  length (fst (rss_items root)) <= MAX_NEWS_ITEMS.
Proof.
  unfold rss_items.
  pose proof (for_each_length rss_body rss_body_length
                (firstn MAX_NEWS_ITEMS (ET.findall_descendants root (str "item"))) []) as H.
  rewrite length_firstn in H. change (length (@nil NewsItem)) with 0 in H.
  unfold MAX_NEWS_ITEMS in *. lia.
Qed.









(** ** Accepted records *)

Lemma accepted_record_ok (title : pyval) (link : pystr) :
  should_exclude_text title = false ->
  should_exclude_url (PStr link) = false ->
  record_ok (yahoo_record title link).
Proof.
  intros Ht Hu. split.
  - destruct (should_exclude_text_passes _ Ht) as (t & -> & H). now exists t.
  - exists link. split; [reflexivity|]. now apply should_exclude_url_passes.
Qed.

(** A pass through the body of a markup loop leaves the list alone or
    appends one record that passed both filters. *)
Lemma pattern1_body_cases (m : Re.rematch) (news_array : list NewsItem) :
  flow_list (pattern1_body m news_array) = news_array \/
  exists title,
    pattern1_body m news_array
    = Next (news_array ++ [yahoo_record title (Re.group m 1)]) /\
    clean_title (PStr (Re.group m 2)) = Ok title /\
    should_exclude_text title = false /\
    should_exclude_url (PStr (Re.group m 1)) = false.
Proof.
  unfold pattern1_body.
  destruct (MAX_NEWS_ITEMS <=? length news_array)%nat; [now left|].
  cbv zeta.
  destruct (clean_title (PStr (Re.group m 2))) as [title|e]; [|now left].
  destruct (should_exclude_text title) eqn:Ht; [now left|].
  destruct (should_exclude_url (PStr (Re.group m 1))) eqn:Hu; [now left|].
  destruct (truthy title && truthy (PStr (Re.group m 1))); [|now left].
  right. now exists title.
Qed.

Lemma pattern2_body_cases (m : Re.rematch) (news_array : list NewsItem) :
  flow_list (pattern2_body m news_array) = news_array \/
  exists title,
    pattern2_body m news_array
    = Next (news_array ++ [yahoo_record title (Re.group m 2)]) /\
    clean_title (PStr (Re.group m 3)) = Ok title /\
    should_exclude_text title = false /\
    should_exclude_url (PStr (Re.group m 2)) = false.
Proof.
  unfold pattern2_body.
  destruct (MAX_NEWS_ITEMS <=? length news_array)%nat; [now left|].
  cbv zeta.
  destruct (clean_title (PStr (Re.group m 3))) as [title|e]; [|now left].
  destruct (should_exclude_text title) eqn:Ht; [now left|].
  destruct (should_exclude_url (PStr (Re.group m 2))) eqn:Hu; [now left|].
  destruct (truthy title && truthy (PStr (Re.group m 2))); [|now left].
  right. now exists title.
Qed.

Lemma pattern3_body_cases (m : Re.rematch) (news_array : list NewsItem) :
  flow_list (pattern3_body m news_array) = news_array \/
  exists title,
    pattern3_body m news_array
    = Next (news_array ++ [yahoo_record title (rebase_link (Re.group m 1))]) /\
    clean_title (PStr (limit_title (Re.group m 2))) = Ok title /\
    should_exclude_text title = false /\
    should_exclude_url (PStr (rebase_link (Re.group m 1))) = false.
Proof.
  unfold pattern3_body.
  destruct (MAX_NEWS_ITEMS <=? length news_array)%nat; [now left|].
  cbv zeta.
  destruct (clean_title (PStr (limit_title (Re.group m 2)))) as [title|e]; [|now left].
  destruct (should_exclude_text title) eqn:Ht; [now left|].
  destruct (should_exclude_url (PStr (rebase_link (Re.group m 1)))) eqn:Hu; [now left|].
  destruct (truthy title && truthy (PStr (rebase_link (Re.group m 1)))); [|now left].
  right. now exists title.
Qed.

Lemma appended_ok (news_array : list NewsItem) (title : pyval) (link : pystr) :
  Forall record_ok news_array ->
  should_exclude_text title = false ->
  should_exclude_url (PStr link) = false ->
  Forall record_ok (news_array ++ [yahoo_record title link]).
Proof.
  intros H Ht Hu. apply Forall_app. split; [exact H|].
  constructor; [now apply accepted_record_ok|constructor].
Qed.

Lemma pattern1_body_ok (m : Re.rematch) (news_array : list NewsItem) :
  Forall record_ok news_array -> Forall record_ok (flow_list (pattern1_body m news_array)).
Proof.
  intros H. destruct (pattern1_body_cases m news_array) as [->|(t & -> & _ & Ht & Hu)];
    [exact H|now apply appended_ok].
Qed.

Lemma pattern2_body_ok (m : Re.rematch) (news_array : list NewsItem) :
  Forall record_ok news_array -> Forall record_ok (flow_list (pattern2_body m news_array)).
Proof.
  intros H. destruct (pattern2_body_cases m news_array) as [->|(t & -> & _ & Ht & Hu)];
    [exact H|now apply appended_ok].
Qed.

Lemma pattern3_body_ok (m : Re.rematch) (news_array : list NewsItem) :
  Forall record_ok news_array -> Forall record_ok (flow_list (pattern3_body m news_array)).
Proof.
  intros H. destruct (pattern3_body_cases m news_array) as [->|(t & -> & _ & Ht & Hu)];
    [exact H|now apply appended_ok].
Qed.

Lemma search_invariant (P : list NewsItem -> Prop) (p : pattern_id)
    (pattern : Re.regex) (body : Re.rematch -> list NewsItem -> flow)
    (html_content : pystr) (st : parse_state) :
  (forall m news_array, P news_array -> P (flow_list (body m news_array))) ->
  P (arr st) -> P (arr (search p pattern body html_content st)).
Proof.
  intros Hbody HP. unfold search. destruct (raised st); [exact HP|].
  pose proof (for_each_invariant P body Hbody
                (Re.finditer pattern html_content) (arr st) HP) as H.
  destruct (for_each body (Re.finditer pattern html_content) (arr st)). exact H.
Qed.

Lemma parse_yahoo_html_ok (html_content : pystr) (news_array : list NewsItem) :
  Forall record_ok news_array ->
  Forall record_ok (fst (parse_yahoo_html html_content news_array)).
Proof.
  intros H. unfold parse_yahoo_html. cbv zeta. simpl fst.
  set (st1 := search Pattern1 pattern1 pattern1_body html_content _).
  assert (H1 : Forall record_ok (arr st1))
    by (apply search_invariant; [apply pattern1_body_ok|exact H]).
  set (st2 := if none_found st1 then _ else st1).
  assert (H2 : Forall record_ok (arr st2)).
  { subst st2. destruct (none_found st1); [|exact H1].
    apply search_invariant; [apply pattern2_body_ok|exact H1]. }
  destruct (none_found st2); [|exact H2].
  apply search_invariant; [apply pattern3_body_ok|exact H2].
Qed.

Lemma fetch_google_news_rss_cases (google : http_outcome) :
  fetch_google_news_rss google = [] \/
  exists root, fetch_google_news_rss google = fst (rss_items root).
Proof.
  unfold fetch_google_news_rss. destruct google as [|status xml_content]; [now left|].
  destruct (negb (status =? 200)%Z); [now left|].
  destruct (ET_fromstring xml_content) as [root|]; [|now left].
  destruct (rss_items root) as [news_array [e|]] eqn:E; [now left|].
  right. exists root. now rewrite E.
Qed.

(** C2 (as amended): every record of the feed extractor has a title of
    trimmed length at least 5, and a link that is not empty; every
    record of the markup extractor, whichever of its three loops
    appended it, has such a title and a link that starts with [http://]
    or [https://]. *)
Theorem accepted_records_ok :
  (forall root,
      Forall (fun item => title_ok item /\ truthy (url item) = true)
        (fst (rss_items root))) /\
  (forall google, Forall title_ok (fetch_google_news_rss google)) /\
  (forall matches, Forall record_ok (fst (for_each pattern1_body matches []))) /\
  (forall matches, Forall record_ok (fst (for_each pattern2_body matches []))) /\
  (forall matches, Forall record_ok (fst (for_each pattern3_body matches []))) /\
  (forall html_content, Forall record_ok (fst (parse_yahoo_html html_content []))) /\
  (forall yahoo, Forall record_ok (fetch_yahoo_news_trending yahoo)).
Proof.
  assert (Hfeed : forall root,
             Forall (fun item => title_ok item /\ truthy (url item) = true)
               (fst (rss_items root))).
  { intros root. unfold rss_items. apply for_each_invariant; [|constructor].
    intros item news_array H.
    destruct (rss_body_cases item news_array) as [->|(title & link & -> & Hx & Hl)];
      [exact H|].
    simpl. apply Forall_app. split; [exact H|]. constructor; [|constructor].
    split; [|exact Hl].
    destruct (should_exclude_text_passes _ Hx) as (t & -> & Ht). now exists t. }
  split; [exact Hfeed|]. split.
  { intros google. destruct (fetch_google_news_rss_cases google) as [->|[root ->]];
      [constructor|].
    eapply Forall_impl; [|apply Hfeed]. now intros item [H _]. }
  split; [intros; apply for_each_invariant; [apply pattern1_body_ok|constructor]|].
  split; [intros; apply for_each_invariant; [apply pattern2_body_ok|constructor]|].
  split; [intros; apply for_each_invariant; [apply pattern3_body_ok|constructor]|].
  split; [intros; apply parse_yahoo_html_ok; constructor|].
  intros [|status html_content]; simpl; [constructor|].
  destruct (negb (status =? 200)%Z); [constructor|].
  apply parse_yahoo_html_ok. constructor.
Qed.

(** ** The markup extractor *)

Lemma for_each_unchanged (X : Type) (body : X -> list NewsItem -> flow) (xs : list X) :
  Forall (fun x => forall news_array, flow_list (body x news_array) = news_array) xs ->
  forall news_array, fst (for_each body xs news_array) = news_array.
Proof.
  induction 1 as [|x xs Hx _ IH]; intros news_array; simpl; [reflexivity|].
  specialize (Hx news_array).
  destruct (body x news_array) as [a|a|a e]; simpl in Hx; subst a; [apply IH| |]; reflexivity.
Qed.

Lemma pattern1_body_rejects (m : Re.rematch) (news_array : list NewsItem) :
  (exists rest, Re.group m 1 = 92%N :: rest) ->
  flow_list (pattern1_body m news_array) = news_array.
Proof.
  intros [rest E].
  destruct (pattern1_body_cases m news_array) as [H|(title & _ & _ & _ & Hu)]; [exact H|].
  rewrite E, should_exclude_url_nonempty in Hu.
  apply orb_false_iff in Hu. destruct Hu as [_ Hu]. discriminate.
Qed.

(** The first loop never appends a record: the link its pattern captures
    starts with a backslash, which the link filter rejects. *)
Lemma pattern1_accepts_nothing (html_content : pystr) (news_array : list NewsItem) :
  after_pattern1 html_content news_array = news_array.
Proof.
  unfold after_pattern1. apply for_each_unchanged.
  eapply Forall_impl; [|apply finditer_from_sound].
  intros m [t Ht] arr0. apply pattern1_body_rejects.
  eapply pattern1_link_starts_with_backslash. exact Ht.
Qed.

(** [parse_yahoo_html] by cases on what the first loop leaves. *)
Lemma parse_yahoo_html_stops_after_pattern1 (html_content : pystr)
    (news_array : list NewsItem) :
  after_pattern1 html_content news_array <> [] ->
  parse_yahoo_html html_content news_array
  = (after_pattern1 html_content news_array, [Pattern1]).
Proof.
  unfold parse_yahoo_html, after_pattern1, search, none_found. cbn [raised arr searched].
  destruct (for_each pattern1_body (Re.finditer pattern1 html_content) news_array)
    as [a1 [e1|]]; cbn [raised arr searched fst app]; intros H.
  - reflexivity.
  - destruct a1 as [|x a1]; [contradiction|]. reflexivity.
Qed.

Lemma parse_yahoo_html_searched (html_content : pystr) (news_array : list NewsItem) :
  let searched := snd (parse_yahoo_html html_content news_array) in
  searched = [Pattern1]
  \/ (searched = [Pattern1; Pattern2] /\ after_pattern1 html_content news_array = [])
  \/ (searched = [Pattern1; Pattern2; Pattern3]
      /\ after_pattern1 html_content news_array = []
      /\ after_pattern2 html_content [] = []).
Proof.
  unfold parse_yahoo_html, after_pattern1, after_pattern2, search, none_found.
  cbn [raised arr searched].
  destruct (for_each pattern1_body (Re.finditer pattern1 html_content) news_array)
    as [a1 [e1|]]; cbn [raised arr searched fst snd app]; [now left|].
  destruct a1 as [|x a1]; cbn [length Nat.eqb raised arr searched fst snd app]; [|now left].
  destruct (for_each pattern2_body (Re.finditer pattern2 html_content) [])
    as [a2 [e2|]]; cbn [raised arr searched fst snd app]; [right; now left|].
  destruct a2 as [|y a2]; cbn [length Nat.eqb raised arr searched fst snd app];
    [|right; now left].
  destruct (for_each pattern3_body (Re.finditer pattern3 html_content) []) as [a3 e3].
  cbn [raised arr searched fst snd app]. right. right. now repeat split.
Qed.



Lemma limit_title_firstn (title : pystr) : limit_title title = firstn 255 title.
Proof.
  unfold limit_title. destruct (255 <? length title)%nat eqn:E; [reflexivity|].
  apply Nat.ltb_ge in E. symmetry. now apply firstn_all2.
Qed.

(** C7: in the third loop the captured text, of at least 10 characters,
    is cut to its first 255
    characters before it is cleaned, and a captured link that starts with
    [./] loses those two characters and gets the base url in front, one
    that starts with [/] gets the base url in front; every record the
    loop appends holds the title cleaned from the cut text and the link so
    rebased. *)
Theorem pattern3_truncates_and_rebases :
  (forall title, limit_title title = firstn 255 title) /\
  (forall rest, rebase_link (str "./" ++ rest) = YAHOO_NEWS_URL ++ rest) /\
  (forall rest, rebase_link (str "/" ++ rest) = YAHOO_NEWS_URL ++ str "/" ++ rest) /\
  rebase_link (str "./articles/123") = str "https://tw.news.yahoo.com/articles/123" /\
  (forall html_content,
      Forall (fun m => 10 <= length (Re.group m 2)) (Re.finditer pattern3 html_content)) /\
  (forall m news_array news_array',
      pattern3_body m news_array = Next news_array' ->
      news_array' = news_array \/
      exists title,
        clean_title (PStr (firstn 255 (Re.group m 2))) = Ok title /\
        news_array' = news_array ++ [yahoo_record title (rebase_link (Re.group m 1))]).
Proof.
  split; [exact limit_title_firstn|]. split; [reflexivity|]. split; [reflexivity|].
  split; [reflexivity|]. split.
  { intros html_content. eapply Forall_impl; [|apply finditer_from_sound].
    intros m [t Ht]. eapply pattern3_text_at_least_ten. exact Ht. }
  intros m news_array news_array' H.
  destruct (pattern3_body_cases m news_array) as [E|(title & E & Hc & _)].
  - left. rewrite H in E. simpl in E. now symmetry.
  - right. exists title. rewrite limit_title_firstn in Hc. split; [exact Hc|].
    congruence.
Qed.

(** ** The aggregator *)

Lemma data_of_section (track_id title : pystr) (data : list NewsItem) (rank_type : pystr) :
  data_of (section track_id title data rank_type) = map item_json data.
Proof. reflexivity. Qed.

Lemma result_sections_nonempty_data (yahoo_news google_news : list NewsItem) :
  Forall (fun sec => data_of sec <> []) (result_sections yahoo_news google_news).
Proof.
  unfold result_sections. apply Forall_app. split.
  - destruct yahoo_news; constructor; [|constructor].
    rewrite data_of_section. discriminate.
  - destruct google_news; constructor; [|constructor].
    rewrite data_of_section. discriminate.
Qed.

Lemma sections_of_response_data (result : list json) (cost : Z) :
  sections_of (response_data result cost) = result.
Proof. reflexivity. Qed.

Lemma get_hot_words_json_dumps (yahoo google : http_outcome) (randint : Z) :
  get_hot_words_json yahoo google randint
  = dumps (hot_words_document yahoo google randint).
Proof.
  unfold get_hot_words_json, hot_words_document, create_fallback_json.
  now destruct (result_sections _ _).
Qed.

(** C5: when both extractors return no record, [get_hot_words_json]
    returns the very string [create_fallback_json] returns. *)
Theorem get_hot_words_json_falls_back (yahoo google : http_outcome) (randint : Z) :
  fetch_yahoo_news_trending yahoo = [] ->
  fetch_google_news_rss google = [] ->
  get_hot_words_json yahoo google randint = create_fallback_json.
Proof.
  intros Hy Hg. unfold get_hot_words_json. now rewrite Hy, Hg.
Qed.

(** C8: whatever the extractors return, every section of the document
    that [get_hot_words_json] serialises holds at least one record: a
    source without records gets no section, and the fallback document's
    two sections hold one record each. *)
Theorem sections_are_never_empty (yahoo google : http_outcome) (randint : Z) :
  get_hot_words_json yahoo google randint
  = dumps (hot_words_document yahoo google randint) /\
  Forall (fun sec => data_of sec <> [])
    (sections_of (hot_words_document yahoo google randint)) /\
  (forall yahoo_news google_news,
      Forall (fun sec => data_of sec <> []) (result_sections yahoo_news google_news) /\
      length (result_sections yahoo_news google_news)
      = (match yahoo_news with [] => 0 | _ :: _ => 1 end)
        + (match google_news with [] => 0 | _ :: _ => 1 end)).
Proof.
  split; [apply get_hot_words_json_dumps|]. split.
  - unfold hot_words_document.
    pose proof (result_sections_nonempty_data
                  (fetch_yahoo_news_trending yahoo) (fetch_google_news_rss google)) as H.
    destruct (result_sections _ _) as [|sec secs].
    + repeat constructor; discriminate.
    + rewrite sections_of_response_data. exact H.
  - intros yahoo_news google_news. split; [apply result_sections_nonempty_data|].
    now destruct yahoo_news, google_news.
Qed.

(** ** More of the extractors *)

(** X1: the first loop of [parse_yahoo_html] never appends a record,
    whatever the markup, because its pattern captures a link that starts
    with a backslash; so a call with a list that is not empty searches
    pattern 1 alone and returns the list as it was. *)
Theorem first_loop_never_accepts (html_content : pystr) (news_array : list NewsItem) :
  after_pattern1 html_content news_array = news_array /\
  (news_array <> [] ->
   parse_yahoo_html html_content news_array = (news_array, [Pattern1])).
Proof.
  split; [apply pattern1_accepts_nothing|].
  intros H. rewrite <- (pattern1_accepts_nothing html_content news_array) at 2.
  apply parse_yahoo_html_stops_after_pattern1.
  now rewrite pattern1_accepts_nothing.
Qed.

(** A property of lists that every pass of the three loop bodies keeps is
    kept by [parse_yahoo_html]. *)
Lemma parse_yahoo_html_keeps (P : list NewsItem -> Prop) (html_content : pystr)
    (news_array : list NewsItem) :
  (forall m a, P a -> P (flow_list (pattern1_body m a))) ->
  (forall m a, P a -> P (flow_list (pattern2_body m a))) ->
  (forall m a, P a -> P (flow_list (pattern3_body m a))) ->
  P news_array -> P (fst (parse_yahoo_html html_content news_array)).
Proof.
  intros B1 B2 B3 H. unfold parse_yahoo_html. cbv zeta. simpl fst.
  set (st1 := search Pattern1 pattern1 pattern1_body html_content _).
  assert (H1 : P (arr st1)) by (apply search_invariant; [exact B1|exact H]).
  set (st2 := if none_found st1 then _ else st1).
  assert (H2 : P (arr st2)).
  { subst st2. destruct (none_found st1); [|exact H1].
    apply search_invariant; [exact B2|exact H1]. }
  destruct (none_found st2); [|exact H2].
  apply search_invariant; [exact B3|exact H2].
Qed.

Lemma fetch_yahoo_news_trending_keeps (P : list NewsItem -> Prop) (yahoo : http_outcome) :
  (forall m a, P a -> P (flow_list (pattern1_body m a))) ->
  (forall m a, P a -> P (flow_list (pattern2_body m a))) ->
  (forall m a, P a -> P (flow_list (pattern3_body m a))) ->
  P [] -> P (fetch_yahoo_news_trending yahoo).
Proof.
  intros B1 B2 B3 H. unfold fetch_yahoo_news_trending.
  destruct yahoo as [|status html_content]; [exact H|].
  destruct (negb (status =? 200)%Z); [exact H|].
  now apply parse_yahoo_html_keeps.
Qed.

Lemma fetch_google_news_rss_keeps (P : list NewsItem -> Prop) (google : http_outcome) :
  (forall item a, P a -> P (flow_list (rss_body item a))) ->
  P [] -> P (fetch_google_news_rss google).
Proof.
  intros B H. destruct (fetch_google_news_rss_cases google) as [->|[root ->]]; [exact H|].
  unfold rss_items. now apply for_each_invariant.
Qed.

(** The bodies of the markup loops stop appending at [MAX_NEWS_ITEMS]. *)
Lemma pattern1_body_cap (m : Re.rematch) (a : list NewsItem) :
  length a <= MAX_NEWS_ITEMS -> length (flow_list (pattern1_body m a)) <= MAX_NEWS_ITEMS.
Proof.
  intros H. unfold pattern1_body.
  destruct (MAX_NEWS_ITEMS <=? length a)%nat eqn:E; [exact H|].
  apply Nat.leb_gt in E. cbv zeta.
  repeat match goal with
         | |- context [match ?c with Ok _ => _ | Raise _ => _ end] => destruct c
         | |- context [if ?c then _ else _] => destruct c
         end; simpl flow_list; try exact H.
  rewrite length_app. simpl. lia.
Qed.

Lemma pattern2_body_cap (m : Re.rematch) (a : list NewsItem) :
  length a <= MAX_NEWS_ITEMS -> length (flow_list (pattern2_body m a)) <= MAX_NEWS_ITEMS.
Proof.
  intros H. unfold pattern2_body.
  destruct (MAX_NEWS_ITEMS <=? length a)%nat eqn:E; [exact H|].
  apply Nat.leb_gt in E. cbv zeta.
  repeat match goal with
         | |- context [match ?c with Ok _ => _ | Raise _ => _ end] => destruct c
         | |- context [if ?c then _ else _] => destruct c
         end; simpl flow_list; try exact H.
  rewrite length_app. simpl. lia.
Qed.

Lemma pattern3_body_cap (m : Re.rematch) (a : list NewsItem) :
  length a <= MAX_NEWS_ITEMS -> length (flow_list (pattern3_body m a)) <= MAX_NEWS_ITEMS.
Proof.
  intros H. unfold pattern3_body.
  destruct (MAX_NEWS_ITEMS <=? length a)%nat eqn:E; [exact H|].
  apply Nat.leb_gt in E. cbv zeta.
  repeat match goal with
         | |- context [match ?c with Ok _ => _ | Raise _ => _ end] => destruct c
         | |- context [if ?c then _ else _] => destruct c
         end; simpl flow_list; try exact H.
  rewrite length_app. simpl. lia.
Qed.

Lemma fetch_google_news_rss_cap (google : http_outcome) :
  length (fetch_google_news_rss google) <= MAX_NEWS_ITEMS.
Proof.
  destruct (fetch_google_news_rss_cases google) as [->|[root ->]].
  - simpl. lia.
  - apply rss_items_at_most_fifteen.
Qed.

(** X2: neither extractor returns more than [MAX_NEWS_ITEMS] records, so
    no section of the document that [get_hot_words_json] serialises holds
    more than 15 items. *)
Theorem sections_hold_at_most_fifteen :
  (forall yahoo, length (fetch_yahoo_news_trending yahoo) <= MAX_NEWS_ITEMS) /\
  (forall google, length (fetch_google_news_rss google) <= MAX_NEWS_ITEMS) /\
  (forall yahoo google randint,
      Forall (fun sec => length (data_of sec) <= MAX_NEWS_ITEMS)
        (sections_of (hot_words_document yahoo google randint))).
Proof.
  assert (Hy : forall yahoo, length (fetch_yahoo_news_trending yahoo) <= MAX_NEWS_ITEMS).
  { intros yahoo.
    apply (fetch_yahoo_news_trending_keeps (fun a => length a <= MAX_NEWS_ITEMS)).
    - exact pattern1_body_cap.
    - exact pattern2_body_cap.
    - exact pattern3_body_cap.
    - simpl. lia. }
  split; [exact Hy|]. split; [exact fetch_google_news_rss_cap|].
  intros yahoo google randint. unfold hot_words_document.
  specialize (Hy yahoo). pose proof (fetch_google_news_rss_cap google) as Hg.
  unfold result_sections.
  destruct (fetch_yahoo_news_trending yahoo) as [|y ys];
    destruct (fetch_google_news_rss google) as [|g gs]; cbn [app].
  - repeat constructor.
  - rewrite sections_of_response_data. constructor; [|constructor].
    now rewrite data_of_section, length_map.
  - rewrite sections_of_response_data. constructor; [|constructor].
    now rewrite data_of_section, length_map.
  - rewrite sections_of_response_data.
    constructor; [|constructor; [|constructor]];
      now rewrite data_of_section, length_map.
Qed.

(** A title that [clean_title] returned and the title filter let pass is
    a trimmed string of at least 5 characters. *)
Lemma clean_title_passing (raw title : pyval) :
  clean_title raw = Ok title ->
  should_exclude_text title = false ->
  exists t, title = PStr t /\ strip t = t /\ 5 <= length t.
Proof.
  intros Hc Hx. destruct raw as [|[|c s]].
  - injection Hc as <-. discriminate.
  - injection Hc as <-. discriminate.
  - destruct (clean_title_output_stripped _ _ Hc) as [w ->].
    destruct (should_exclude_text_passes _ Hx) as (t & [= <-] & Ht).
    exists (strip w). rewrite strip_idempotent in *. now repeat split.
Qed.

Lemma rss_body_appends (item : ET.Element) (a : list NewsItem) :
  flow_list (rss_body item a) = a \/
  exists record,
    flow_list (rss_body item a) = a ++ [record] /\
    title_trimmed record /\ built_for (str "content_google") record.
Proof.
  unfold rss_body.
  destruct (ET.find item (str "title")) as [title_elem|]; [|now left].
  destruct (ET.find item (str "link")) as [link_elem|]; [|now left].
  destruct (truthy (ET.text title_elem) && truthy (ET.text link_elem)); [|now left].
  destruct (clean_title (ET.text title_elem)) as [title|e] eqn:Hc; [|now left].
  destruct (should_exclude_text title) eqn:Hx; [now left|].
  right. eexists. split; [reflexivity|]. split; [|now repeat split].
  destruct (clean_title_passing _ Hc Hx) as (t & -> & Ht). now exists t.
Qed.

Lemma pattern1_body_appends (m : Re.rematch) (a : list NewsItem) :
  flow_list (pattern1_body m a) = a \/
  exists record,
    flow_list (pattern1_body m a) = a ++ [record] /\
    title_trimmed record /\ built_for (str "content_yahoo") record.
Proof.
  destruct (pattern1_body_cases m a) as [H|(title & -> & Hc & Hx & _)]; [now left|].
  right. eexists. split; [reflexivity|]. split; [|now repeat split].
  destruct (clean_title_passing _ Hc Hx) as (t & -> & Ht). now exists t.
Qed.

Lemma pattern2_body_appends (m : Re.rematch) (a : list NewsItem) :
  flow_list (pattern2_body m a) = a \/
  exists record,
    flow_list (pattern2_body m a) = a ++ [record] /\
    title_trimmed record /\ built_for (str "content_yahoo") record.
Proof.
  destruct (pattern2_body_cases m a) as [H|(title & -> & Hc & Hx & _)]; [now left|].
  right. eexists. split; [reflexivity|]. split; [|now repeat split].
  destruct (clean_title_passing _ Hc Hx) as (t & -> & Ht). now exists t.
Qed.

Lemma pattern3_body_appends (m : Re.rematch) (a : list NewsItem) :
  flow_list (pattern3_body m a) = a \/
  exists record,
    flow_list (pattern3_body m a) = a ++ [record] /\
    title_trimmed record /\ built_for (str "content_yahoo") record.
Proof.
  destruct (pattern3_body_cases m a) as [H|(title & -> & Hc & Hx & _)]; [now left|].
  right. eexists. split; [reflexivity|]. split; [|now repeat split].
  destruct (clean_title_passing _ Hc Hx) as (t & -> & Ht). now exists t.
Qed.

Lemma appends_keep (X : Type) (Q : NewsItem -> Prop) (body : X -> list NewsItem -> flow) :
  (forall x a,
      flow_list (body x a) = a \/
      exists record, flow_list (body x a) = a ++ [record] /\ Q record) ->
  forall x a, Forall Q a -> Forall Q (flow_list (body x a)).
Proof.
  intros Hb x a H. destruct (Hb x a) as [->|(record & -> & Hq)]; [exact H|].
  apply Forall_app. split; [exact H|]. now repeat constructor.
Qed.

Lemma weaken_appends (X : Type) (Q Q' : NewsItem -> Prop)
    (body : X -> list NewsItem -> flow) :
  (forall record, Q record -> Q' record) ->
  (forall x a,
      flow_list (body x a) = a \/
      exists record, flow_list (body x a) = a ++ [record] /\ Q record) ->
  forall x a,
    flow_list (body x a) = a \/
    exists record, flow_list (body x a) = a ++ [record] /\ Q' record.
Proof.
  intros Hq Hb x a. destruct (Hb x a) as [H|(record & H & Hr)]; [now left|].
  right. exists record. split; [exact H|now apply Hq].
Qed.

(** X3: the title of every record that either extractor returns is
    already trimmed (stripping it changes nothing) and has at least 5
    characters as it stands. *)
Theorem record_titles_are_trimmed :
  (forall yahoo, Forall title_trimmed (fetch_yahoo_news_trending yahoo)) /\
  (forall google, Forall title_trimmed (fetch_google_news_rss google)).
Proof.
  split.
  - intros yahoo. apply (fetch_yahoo_news_trending_keeps (Forall title_trimmed));
      [| | |constructor]; apply appends_keep;
      eapply weaken_appends;
      try apply pattern1_body_appends; try apply pattern2_body_appends;
      try apply pattern3_body_appends; now intros record [H _].
  - intros google. apply (fetch_google_news_rss_keeps (Forall title_trimmed));
      [|constructor]. apply appends_keep.
    eapply weaken_appends; [|apply rss_body_appends]. now intros record [H _].
Qed.

(** X4: every record carries its source: the markup extractor's records
    have [sourceUniqueId] [content_yahoo], the feed extractor's
    [content_google]; in every record [h5_url] is the same value as [url],
    and [appIconUrl] and [package] are empty. *)
Theorem records_carry_their_source :
  (forall yahoo,
      Forall (built_for (str "content_yahoo")) (fetch_yahoo_news_trending yahoo)) /\
  (forall google,
      Forall (built_for (str "content_google")) (fetch_google_news_rss google)).
Proof.
  split.
  - intros yahoo.
    apply (fetch_yahoo_news_trending_keeps (Forall (built_for (str "content_yahoo"))));
      [| | |constructor]; apply appends_keep;
      eapply weaken_appends;
      try apply pattern1_body_appends; try apply pattern2_body_appends;
      try apply pattern3_body_appends; now intros record [_ H].
  - intros google.
    apply (fetch_google_news_rss_keeps (Forall (built_for (str "content_google"))));
      [|constructor]. apply appends_keep.
    eapply weaken_appends; [|apply rss_body_appends]. now intros record [_ H].
Qed.

(** X5: in the third loop a captured link is accepted only if it starts
    with [http://], [https://], [./] or [/]; any other link, such as a
    path relative to the page, is left as captured and then rejected by
    the link filter.  The link of an accepted record is the captured
    link itself or the base url followed by the captured path. *)
Theorem pattern3_accepts_only_rooted_links (link : pystr) :
  should_exclude_url (PStr (rebase_link link)) = false ->
  (startswith link (str "http://") = true /\ rebase_link link = link) \/
  (startswith link (str "https://") = true /\ rebase_link link = link) \/
  (startswith link (str "./") = true /\ rebase_link link = YAHOO_NEWS_URL ++ skipn 2 link) \/
  (startswith link (str "/") = true /\ rebase_link link = YAHOO_NEWS_URL ++ link).
Proof.
  unfold rebase_link.
  destruct (startswith link (str "http")) eqn:Eh; cbv beta iota delta [negb].
  - intros H. destruct (should_exclude_url_passes _ H) as [H1|H1]; [left|right; left];
      now split.
  - destruct (startswith link (str "./")) eqn:Ed; [intros _; right; right; left; now split|].
    destruct (startswith link (str "/")) eqn:Es; [intros _; right; right; right; now split|].
    intros H. destruct (should_exclude_url_passes _ H) as [H1|H1]; [left|right; left];
      now split.
Qed.

(** The body of the feed loop never breaks out of the loop. *)
Lemma rss_body_never_breaks (item : ET.Element) (a a' : list NewsItem) :
  rss_body item a <> Break a'.
Proof.
  unfold rss_body.
  repeat match goal with
         | |- context [match ?c with Some _ => _ | None => _ end] => destruct c
         | |- context [match ?c with Ok _ => _ | Raise _ => _ end] => destruct c
         | |- context [if ?c then _ else _] => destruct c
         end; discriminate.
Qed.

Lemma for_each_rss_raises (items : list ET.Element) (item : ET.Element) :
  In item items ->
  (forall a, exists e, rss_body item a = Raised a e) ->
  forall a, exists e, snd (for_each rss_body items a) = Some e.
Proof.
  intros Hin Hr. induction items as [|x items IH]; [destruct Hin|].
  intros a. simpl.
  destruct (rss_body x a) as [a'|a'|a' e] eqn:E.
  - destruct Hin as [->|Hin].
    + destruct (Hr a) as [e He]. rewrite He in E. discriminate.
    + now apply IH.
  - exfalso. exact (rss_body_never_breaks _ _ E).
  - now exists e.
Qed.

(** X6: one title on which [clean_title] raises, among the first
    [MAX_NEWS_ITEMS] items of the feed, empties the result of
    [fetch_google_news_rss]: the records accepted before it are not
    returned. *)
Theorem feed_is_lost_on_exception (xml_content : pystr) (root item : ET.Element)
    (title_elem link_elem : ET.Element) (e : exn) :
  ET_fromstring xml_content = Some root ->
  In item (firstn MAX_NEWS_ITEMS (ET.findall_descendants root (str "item"))) ->
  ET.find item (str "title") = Some title_elem ->
  ET.find item (str "link") = Some link_elem ->
  truthy (ET.text title_elem) = true ->
  truthy (ET.text link_elem) = true ->
  clean_title (ET.text title_elem) = Raise e ->
  fetch_google_news_rss (Response 200 xml_content) = [].
Proof.
  intros Hp Hin Ht Hl Htt Hlt Hc. unfold fetch_google_news_rss.
  change (negb (200 =? 200)%Z) with false. cbv iota. rewrite Hp.
  destruct (@for_each_rss_raises _ item Hin) with (a := @nil NewsItem) as [e' He'].
  { intros a. exists e. unfold rss_body. now rewrite Ht, Hl, Htt, Hlt, Hc. }
  unfold rss_items. destruct (for_each rss_body _ []) as [news_array [e0|]];
    [reflexivity|discriminate].
Qed.

(** ** The JSON file *)

Lemma hex_digit_no_cr (n : N) : Json.hex_digit n <> 13%N.
Proof. unfold Json.hex_digit. destruct (n <? 10)%N; lia. Qed.

Lemma escape_char_no_cr (c : pychar) : ~ In 13%N (Json.escape_char c).
Proof.
  unfold Json.escape_char.
  repeat match goal with
         | |- context [if ?b then _ else _] => destruct b eqn:?
         end;
    simpl; intros H;
    repeat match goal with
           | H : _ \/ _ |- _ => destruct H as [H|H]
           | H : False |- _ => destruct H
           end;
    try discriminate H;
    try (now apply hex_digit_no_cr in H).
  apply N.eqb_eq in H. congruence.
Qed.

Lemma quote_no_cr (s : pystr) : ~ In 13%N (Json.quote s).
Proof.
  unfold Json.quote. intros H. apply in_app_or in H. destruct H as [[H|[]]|H];
    [discriminate|].
  apply in_app_or in H. destruct H as [H|[H|[]]]; [|discriminate].
  apply in_flat_map in H. destruct H as (c & _ & H). now apply escape_char_no_cr in H.
Qed.

Lemma uint_no_cr (d : Decimal.uint) :
  ~ In 13%N (str (DecimalString.NilEmpty.string_of_uint d)).
Proof.
  induction d; simpl; intros H;
    try (destruct H as [H|H]; [discriminate H|now apply IHd]).
  destruct H.
Qed.

Lemma int_repr_no_cr (z : Z) : ~ In 13%N (Json.int_repr z).
Proof.
  unfold Json.int_repr, DecimalString.NilZero.string_of_int,
    DecimalString.NilZero.string_of_uint.
  destruct (Z.to_int z) as [d|d].
  - destruct d; try apply uint_no_cr. simpl. intros [H|[]]. discriminate.
  - intros H. simpl in H. destruct H as [H|H]; [discriminate|].
    revert H. destruct d; try apply uint_no_cr. simpl. intros [H|[]]. discriminate.
Qed.

Lemma newline_indent_no_cr (level : nat) : ~ In 13%N (Json.newline_indent level).
Proof.
  unfold Json.newline_indent. intros [H|H]; [discriminate|].
  apply repeat_spec in H. discriminate.
Qed.

Lemma join_no_cr (sep : pystr) (parts : list pystr) :
  ~ In 13%N sep -> Forall (fun p => ~ In 13%N p) parts ->
  ~ In 13%N (Json.join sep parts).
Proof.
  intros Hsep. induction 1 as [|p parts Hp Hparts IH]; [intros []|].
  simpl. destruct parts as [|q parts]; [exact Hp|].
  intros H. apply in_app_or in H. destruct H as [H|H]; [now apply Hp|].
  apply in_app_or in H. destruct H as [H|H]; [now apply Hsep|now apply IH].
Qed.

Lemma separator_no_cr (level : nat) :
  ~ In 13%N (str "," ++ Json.newline_indent level).
Proof.
  intros H. apply in_app_or in H. destruct H as [[H|[]]|H]; [discriminate|].
  now apply newline_indent_no_cr in H.
Qed.

Lemma brackets_no_cr (level : nat) (opening closing : pychar) (inner : pystr) :
  opening <> 13%N -> closing <> 13%N -> ~ In 13%N inner ->
  ~ In 13%N ([opening] ++ Json.newline_indent (S level) ++ inner
             ++ Json.newline_indent level ++ [closing]).
Proof.
  intros Ho Hc Hi H.
  apply in_app_or in H. destruct H as [[H|[]]|H]; [now apply Ho|].
  apply in_app_or in H. destruct H as [H|H]; [now apply newline_indent_no_cr in H|].
  apply in_app_or in H. destruct H as [H|H]; [now apply Hi|].
  apply in_app_or in H. destruct H as [H|[H|[]]];
    [now apply newline_indent_no_cr in H|now apply Hc].
Qed.

(** [json.dumps] writes a carriage return as an escape, so its text holds
    none. *)
Lemma encode_no_cr : forall (j : Json.json) (level : nat), ~ In 13%N (Json.encode level j).
Proof.
  fix IH 1. intros [|[|]|z|s|items|entries] level.
  - simpl. intros H.
    repeat (destruct H as [H|H]; [discriminate H|]). destruct H.
  - simpl. intros H.
    repeat (destruct H as [H|H]; [discriminate H|]). destruct H.
  - simpl. intros H.
    repeat (destruct H as [H|H]; [discriminate H|]). destruct H.
  - apply int_repr_no_cr.
  - apply quote_no_cr.
  - destruct items as [|item items].
    + simpl. intros H.
      repeat (destruct H as [H|H]; [discriminate H|]). destruct H.
    + change (Json.encode level (Json.JList (item :: items)))
        with ([ch "["] ++ Json.newline_indent (S level)
              ++ Json.join (str "," ++ Json.newline_indent (S level))
                   (map (Json.encode (S level)) (item :: items))
              ++ Json.newline_indent level ++ [ch "]"]).
      apply brackets_no_cr; [discriminate|discriminate|].
      apply join_no_cr; [apply separator_no_cr|].
      generalize (item :: items). intros l.
      induction l as [|x l IHl]; constructor; [apply IH|exact IHl].
  - destruct entries as [|entry entries].
    + simpl. intros H.
      repeat (destruct H as [H|H]; [discriminate H|]). destruct H.
    + change (Json.encode level (Json.JDict (entry :: entries)))
        with ([ch "{"] ++ Json.newline_indent (S level)
              ++ Json.join (str "," ++ Json.newline_indent (S level))
                   (map (fun kv => Json.quote (fst kv) ++ str ": "
                                   ++ Json.encode (S level) (snd kv))
                      (entry :: entries))
              ++ Json.newline_indent level ++ [ch "}"]).
      apply brackets_no_cr; [discriminate|discriminate|].
      apply join_no_cr; [apply separator_no_cr|].
      generalize (entry :: entries). intros l.
      induction l as [|[k v] l IHl]; constructor; [|exact IHl].
      cbn [fst snd]. intros H.
      apply in_app_or in H. destruct H as [H|H]; [now apply quote_no_cr in H|].
      apply in_app_or in H. destruct H as [H|H].
      * simpl in H. repeat (destruct H as [H|H]; [discriminate H|]). destruct H.
      * revert H. apply IH.
Qed.

Lemma read_text_cons (c : pychar) (rest : pystr) :
  (c =? 13)%N = false -> read_text (c :: rest) = c :: read_text rest.
Proof. intros H. simpl. now rewrite H. Qed.

Lemma read_text_crlf (rest : pystr) :
  read_text (13%N :: 10%N :: rest) = 10%N :: read_text rest.
Proof. reflexivity. Qed.

(** Text without a carriage return is read as it was written, whatever
    [os.linesep] is. *)
Lemma read_written_text (os : platform) (s : pystr) :
  ~ In 13%N s -> read_text (written_text os s) = s.
Proof.
  induction s as [|c s IH]; intros H; [reflexivity|].
  assert (Hc : (c =? 13)%N = false).
  { apply N.eqb_neq. intros ->. apply H. now left. }
  assert (Hs : ~ In 13%N s) by (intros Hin; apply H; now right).
  specialize (IH Hs).
  change (written_text os (c :: s))
    with ((if (c =? 10)%N then linesep os else [c]) ++ written_text os s).
  destruct (c =? 10)%N eqn:E.
  - apply N.eqb_eq in E. subst c. destruct os.
    + change (linesep Posix ++ written_text Posix s)
        with (10%N :: written_text Posix s).
      now rewrite read_text_cons, IH.
    + change (linesep Windows ++ written_text Windows s)
        with (13%N :: 10%N :: written_text Windows s).
      now rewrite read_text_crlf, IH.
  - change ([c] ++ written_text os s) with (c :: written_text os s).
    now rewrite read_text_cons, IH.
Qed.

(** X7: [json.dumps] writes a carriage return as an escape, so the text
    [get_hot_words_json] saves holds none and is read back as it was
    written, whatever [os.linesep] is.  With no trouble from the file
    system, after the call [read_local_json_file] gives [None] after a
    fallback, since the old file is removed and the fallback document is
    never saved; otherwise it gives exactly the returned text, or the
    empty text when the returned text holds a surrogate, which the
    [utf-8] codec refuses. *)
Theorem saved_document_reads_back :
  (forall j, ~ In 13%N (dumps j)) /\
  (forall os yahoo google randint file,
      read_local_json_file false
        (snd (get_hot_words_json_on_disk os no_faults yahoo google randint file))
      = match result_sections (fetch_yahoo_news_trending yahoo)
                (fetch_google_news_rss google) with
        | [] => PNone
        | _ :: _ =>
            if encodable (get_hot_words_json yahoo google randint)
            then PStr (get_hot_words_json yahoo google randint)
            else PStr []
        end).
Proof.
  split; [intros j; apply encode_no_cr|].
  intros os yahoo google randint file.
  unfold get_hot_words_json_on_disk, get_hot_words_json.
  destruct (result_sections _ _) as [|sec secs]; [now destruct file|].
  cbn [snd no_faults save_fails save_json_to_file].
  destruct (encodable _); [|reflexivity].
  cbn [read_local_json_file]. rewrite read_written_text; [reflexivity|].
  apply encode_no_cr.
Qed.

(** ** Where [html.unescape] cannot raise *)

Lemma rstrip_semicolon_length (s : pystr) :
  length (Html.rstrip_semicolon s) <= length s.
Proof.
  induction s as [|c s IH]; simpl; [lia|].
  destruct (Html.rstrip_semicolon s) as [|x r].
  - destruct (c =? 59)%N; simpl; lia.
  - simpl in *. lia.
Qed.

(** [_replace_charref] by cases on the first character of the group. *)
Lemma replace_charref_named (m : Re.rematch) (c : pychar) (rest : pystr) :
  Re.group m 1 = c :: rest -> c <> 35%N ->
  exists r, Html.replace_charref html5 m = Ok r.
Proof.
  intros E Hc. unfold Html.replace_charref. rewrite E. cbv zeta.
  assert (Hn : exists r,
             match html5 (c :: rest) with
             | Some v => Ok v
             | None =>
                 match Html.longest_name html5 (length (c :: rest) - 1) (c :: rest) with
                 | Some v => Ok v
                 | None => Ok (ch "&" :: c :: rest)
                 end
             end = Ok r).
  { destruct (html5 (c :: rest)); [eauto|].
    destruct (Html.longest_name html5 _ _); eauto. }
  destruct c as [|p]; [exact Hn|].
  do 6 (destruct p as [p|p|]; try exact Hn).
  now contradiction Hc.
Qed.

Lemma replace_charref_numeric (m : Re.rematch) (rest : pystr) :
  Re.group m 1 = 35%N :: rest -> rest <> [] ->
  length rest <= Html.int_max_str_digits ->
  exists r, Html.replace_charref html5 m = Ok r.
Proof.
  intros E Hr Hl. unfold Html.replace_charref. rewrite E. cbv zeta.
  destruct rest as [|c digits]; [contradiction|].
  assert (Hn : exists num,
             (if (c =? ch "x")%N || (c =? ch "X")%N
              then Html.int_base16 (Html.rstrip_semicolon digits)
              else Html.int_base10 (Html.rstrip_semicolon (c :: digits))) = Ok num).
  { destruct ((c =? ch "x")%N || (c =? ch "X")%N); [unfold Html.int_base16; eauto|].
    unfold Html.int_base10.
    pose proof (rstrip_semicolon_length (c :: digits)) as Hs.
    destruct (Html.int_max_str_digits <? length (Html.rstrip_semicolon (c :: digits)))%nat
      eqn:El; [|eauto].
    apply Nat.ltb_lt in El. lia. }
  destruct Hn as [num ->]. unfold bind.
  destruct (Html.charref_of num Html.invalid_charrefs); [eauto|].
  destruct (_ || _); [eauto|].
  destruct (Html.in_ranges num Html.invalid_codepoints); eauto.
Qed.

(** The group of a match of [_charref] is a name that does not start with
    [#], or [#] and at least one more character; with the [&] before it,
    it lies inside the text. *)
Lemma charref_group_shape (s : pystr) (m : Re.rematch) :
  Re.match_here Html.charref s = Some m ->
  (exists c rest, Re.group m 1 = c :: rest /\ c <> 35%N) \/
  (exists rest, Re.group m 1 = 35%N :: rest /\ rest <> [] /\ 2 + length rest <= length s).
Proof.
  intros H. destruct (match_here_sound _ _ H) as (s' & Hm & _).
  unfold Re.group. destruct m as [sp caps]. simpl Re.groups in *. clear H.
  unfold Html.charref, Re.seq, Re.Plus, Re.Opt in Hm. cbn [fold_right matches] in Hm.
  repeat match goal with
         | H : exists _, _ |- _ => destruct H
         | H : _ /\ _ |- _ => destruct H
         | H : _ \/ _ |- _ => destruct H
         end; subst; cbn [Re.lookup Nat.eqb].
  - right.
    match goal with H : Re.mem (Re.Lit (ch "#")) ?c = true |- _ =>
      simpl in H; apply N.eqb_eq in H; subst c end.
    match goal with |- context [firstn _ (_ :: ?a ++ ?b ++ ?c)] =>
      pose proof (firstn_taken (35%N :: a ++ b) c) as E;
      cbn [app] in E; rewrite <- app_assoc in E; rewrite E;
      exists (a ++ b); repeat split;
      [destruct a; [simpl in *; lia|discriminate]
      |simpl; rewrite !length_app; lia]
    end.
  - right.
    match goal with H : Re.mem (Re.Lit (ch "#")) ?c = true |- _ =>
      simpl in H; apply N.eqb_eq in H; subst c end.
    match goal with |- context [firstn _ (_ :: ?x :: ?a ++ ?b ++ ?c)] =>
      pose proof (firstn_taken (35%N :: x :: a ++ b) c) as E;
      cbn [app] in E; rewrite <- app_assoc in E; rewrite E;
      exists (x :: a ++ b); repeat split;
      [discriminate|simpl; rewrite !length_app; lia]
    end.
  - left.
    match goal with |- context [firstn _ (?a ++ ?b ++ ?c)] =>
      pose proof (firstn_taken (a ++ b) c) as E;
      rewrite <- app_assoc in E; rewrite E;
      destruct a as [|c0 a]; [simpl in *; lia|];
      exists c0, (a ++ b); split; [reflexivity|]
    end.
    match goal with H : forallb _ (_ :: _) = true |- _ =>
      simpl in H; apply andb_true_iff in H; destruct H as [H _];
      intros ->; discriminate H end.
Qed.

Lemma charref_sub_returns (s : pystr) :
  length s <= 2 + Html.int_max_str_digits ->
  forall skip, exists u, Html.charref_sub html5 s skip = Ok u.
Proof.
  induction s as [|c s IH]; intros Hl skip; simpl; [eauto|].
  assert (Hs : length s <= 2 + Html.int_max_str_digits) by (simpl in Hl; lia).
  destruct skip as [|n]; [|apply IH; exact Hs].
  destruct (Re.match_here Html.charref (c :: s)) as [m|] eqn:E.
  - assert (Hr : exists r, Html.replace_charref html5 m = Ok r).
    { destruct (charref_group_shape _ E) as [(c0 & rest & Eg & Hc)|(rest & Eg & Hr & Hlen)].
      - eapply replace_charref_named; eassumption.
      - eapply replace_charref_numeric; [eassumption|assumption|].
        unfold pystr, pychar in *. simpl in Hl, Hlen. lia. }
    destruct Hr as [r ->]. unfold bind.
    destruct (IH Hs (pred (Re.span m))) as [u ->]. eauto.
  - destruct (IH Hs 0) as [u ->]. unfold bind. eauto.
Qed.

Lemma unescape_returns (t : pystr) :
  length t <= 2 + Html.int_max_str_digits -> exists u, Html.unescape html5 t = Ok u.
Proof.
  intros H. unfold Html.unescape.
  destruct (negb (existsb (N.eqb (ch "&")) t)); [eauto|].
  now apply charref_sub_returns.
Qed.

Lemma clean_title_returns (t : pystr) :
  length t <= 2 + Html.int_max_str_digits ->
  exists r, clean_title (PStr t) = Ok (PStr r).
Proof.
  intros H. destruct t as [|c t]; [now exists []|].
  rewrite clean_title_nonempty.
  destruct (unescape_returns _ H) as [u ->]. unfold bind. eauto.
Qed.

Lemma limit_title_length (title : pystr) : length (limit_title title) <= 255.
Proof. rewrite limit_title_firstn, length_firstn. lia. Qed.

Lemma for_each_never_raises (X : Type) (body : X -> list NewsItem -> flow) (xs : list X) :
  (forall x a a' e, body x a <> Raised a' e) ->
  forall a, snd (for_each body xs a) = None.
Proof.
  intros Hb. induction xs as [|x xs IH]; intros a; simpl; [reflexivity|].
  destruct (body x a) as [a'|a'|a' e] eqn:E; [apply IH|reflexivity|].
  exfalso. exact (Hb _ _ _ _ E).
Qed.

(** X8: [html.unescape], and with it [clean_title], returns normally on
    every title of at most 4302 characters.  The third markup loop cuts
    its titles to 255 characters, so it never ends by an exception. *)
Theorem short_titles_never_raise :
  (forall t, length t <= 4302 -> exists u, Html.unescape html5 t = Ok u) /\
  (forall t, length t <= 4302 -> exists r, clean_title (PStr t) = Ok (PStr r)) /\
  (forall matches news_array,
      snd (for_each pattern3_body matches news_array) = None).
Proof.
  split; [exact unescape_returns|]. split; [exact clean_title_returns|].
  intros ms news_array. apply for_each_never_raises.
  intros m a a' e. unfold pattern3_body.
  destruct (MAX_NEWS_ITEMS <=? length a)%nat; [discriminate|]. cbv zeta.
  destruct (clean_title_returns (limit_title (Re.group m 2))) as [r ->].
  { pose proof (limit_title_length (Re.group m 2)). unfold Html.int_max_str_digits. lia. }
  repeat match goal with
         | |- context [if ?c then _ else _] => destruct c
         end; discriminate.
Qed.

(** ** The title filter and letter case *)

Lemma upper_case_letter_is_no_space (c : pychar) :
  (65 <=? c)%N && (c <=? 90)%N = true -> isspace c = false /\ isspace (c + 32)%N = false.
Proof.
  intros H. apply andb_true_iff in H. destruct H as [H1 H2].
  apply N.leb_le in H1, H2.
  split; apply not_true_is_false; intros Hs; unfold isspace in Hs;
    apply existsb_exists in Hs; destruct Hs as (x & Hin & Hx);
    apply N.eqb_eq in Hx; subst x; simpl in Hin;
    repeat (destruct Hin as [Hin|Hin]; [lia|]); exact Hin.
Qed.

Lemma isspace_ascii_lower (c : pychar) : isspace (ascii_lower c) = isspace c.
Proof.
  unfold ascii_lower. destruct ((65 <=? c)%N && (c <=? 90)%N) eqn:E; [|reflexivity].
  destruct (upper_case_letter_is_no_space c E) as [-> ->]. reflexivity.
Qed.

Lemma lstrip_ascii_lower (s : pystr) :
  lstrip (map ascii_lower s) = map ascii_lower (lstrip s).
Proof.
  induction s as [|c s IH]; simpl; [reflexivity|].
  rewrite isspace_ascii_lower. now destruct (isspace c).
Qed.

Lemma rstrip_ascii_lower (s : pystr) :
  rstrip (map ascii_lower s) = map ascii_lower (rstrip s).
Proof.
  induction s as [|c s IH]; simpl; [reflexivity|].
  rewrite IH, isspace_ascii_lower.
  destruct (rstrip s); simpl; [now destruct (isspace c)|reflexivity].
Qed.

Lemma strip_ascii_lower (s : pystr) :
  strip (map ascii_lower s) = map ascii_lower (strip s).
Proof. unfold strip. now rewrite lstrip_ascii_lower, rstrip_ascii_lower. Qed.

Lemma lower_of_ascii (s : pystr) :
  forallb is_ascii s = true -> lower s = map ascii_lower s.
Proof. intros H. unfold lower. now rewrite H. Qed.

(** X9: on titles made of ASCII characters the title filter ignores
    letter case: two such titles that differ only in the case of their
    letters are both excluded or both let pass. *)
Theorem should_exclude_text_ignores_case (t t' : pystr) :
  forallb is_ascii t = true ->
  forallb is_ascii t' = true ->
  map ascii_lower t = map ascii_lower t' ->
  should_exclude_text (PStr t) = should_exclude_text (PStr t').
Proof.
  intros Ha Ha' E.
  assert (Hlen : length (strip t) = length (strip t')).
  { rewrite <- (length_map ascii_lower (strip t)), <- (length_map ascii_lower (strip t')).
    now rewrite <- !strip_ascii_lower, E. }
  destruct t as [|c t], t' as [|c' t']; try discriminate E; [reflexivity|].
  unfold should_exclude_text. cbv beta iota delta [truthy negb].
  now rewrite (lower_of_ascii _ Ha), (lower_of_ascii _ Ha'), E, Hlen.
Qed.

(** ** The matcher finds a match when there is one *)

Lemma repeat_then_complete (A : Type) (k : Re.cset) (cont : pystr -> option A)
    (taken s' : pystr) :
  forallb (Re.mem k) taken = true ->
  cont s' <> None ->
  forall lo, lo <= length taken -> Re.repeat_then k lo None cont (taken ++ s') <> None.
Proof.
  intros Hall Hc. induction taken as [|c taken IH]; intros lo Hlo.
  - simpl in Hlo. assert (lo = 0) by lia. subst lo. simpl app.
    destruct s' as [|c s']; simpl; [exact Hc|].
    destruct (Re.mem k c); simpl; [|exact Hc].
    destruct (Re.repeat_then k 0 None cont s'); [discriminate|exact Hc].
  - simpl in Hall. apply andb_true_iff in Hall. destruct Hall as [Hk Hall].
    simpl. rewrite Hk. simpl.
    specialize (IH Hall (pred lo)).
    destruct (Re.repeat_then k (pred lo) None cont (taken ++ s')); [discriminate|].
    exfalso. apply IH; [simpl in Hlo; lia|reflexivity].
Qed.

Lemma run_complete (A : Type) (r : Re.regex) :
  unbounded r = true ->
  forall (cont : pystr -> Re.captures -> option A) s caps s' caps',
    matches r s caps s' caps' -> cont s' caps' <> None ->
    Re.run r cont s caps <> None.
Proof.
  induction r as [|k|k lo hi|r1 IH1 r2 IH2|r1 IH1 r2 IH2|i r1 IH1|];
    simpl; intros Hu cont s caps s' caps'.
  - now intros [-> ->].
  - intros (c & -> & Hk & ->). now rewrite Hk.
  - destruct hi; [discriminate|].
    intros (taken & -> & Hall & Hlo & ->) Hc.
    now apply repeat_then_complete.
  - apply andb_true_iff in Hu. destruct Hu as [Hu1 Hu2].
    intros (s1 & caps1 & H1 & H2) Hc.
    eapply IH1; [exact Hu1|exact H1|]. eapply IH2; eassumption.
  - apply andb_true_iff in Hu. destruct Hu as [Hu1 Hu2].
    intros [H|H] Hc.
    + pose proof (IH1 Hu1 cont _ _ _ _ H Hc) as H1.
      now destruct (Re.run r1 cont s caps).
    + destruct (Re.run r1 cont s caps); [discriminate|].
      eapply IH2; eassumption.
  - intros (caps1 & H & ->) Hc. eapply IH1; [exact Hu|exact H|exact Hc].
  - intros (-> & -> & [->| ->]); [tauto|]. simpl. tauto.
Qed.

Lemma match_here_complete (r : Re.regex) (s s' : pystr) (caps' : Re.captures) :
  unbounded r = true -> matches r s [] s' caps' ->
  exists m, Re.match_here r s = Some m.
Proof.
  intros Hu Hm. unfold Re.match_here.
  pose proof (@run_complete _ r Hu
                (fun s' caps => Some (Re.mkMatch (length s - length s') caps))
                s [] s' caps' Hm) as H.
  destruct (Re.run r _ s []) as [m|]; [now exists m|].
  exfalso. apply H; [discriminate|reflexivity].
Qed.

(** ** What [clean_title] removes *)

Lemma sub_from_skips (r : Re.regex) (s : pystr) :
  Re.sub_from r [] s (length s) = [].
Proof.
  induction s as [|c s IH]; simpl; [|exact IH].
  now destruct (Re.match_here r []).
Qed.

(** [re.sub] with an empty replacement, on a text whose first match
    begins after [p] and runs to the end, leaves [p]. *)
Lemma sub_cuts_at_first_match (r : Re.regex) (q : pystr) (m : Re.rematch) :
  Re.match_here r q = Some m -> Re.span m = length q ->
  forall p,
    (forall p1 p2, p = p1 ++ p2 -> p2 <> [] -> Re.match_here r (p2 ++ q) = None) ->
    Re.sub r [] (p ++ q) = p.
Proof.
  intros Hm Hspan. unfold Re.sub. induction p as [|x p IH]; intros Hp.
  - simpl app. destruct q as [|c q].
    + simpl. now destruct (Re.match_here r []).
    + simpl Re.sub_from. rewrite Hm, Hspan. simpl. apply sub_from_skips.
  - simpl app. simpl Re.sub_from.
    change (x :: p ++ q) with ((x :: p) ++ q).
    rewrite (Hp [] (x :: p) eq_refl) by discriminate.
    f_equal. apply IH. intros p1 p2 -> Hp2.
    now apply (Hp (x :: p1) p2).
Qed.

Lemma last_occurrence (d : pychar) (l1 : pystr) :
  forall l2 b1 b2,
    l1 ++ d :: b1 = l2 ++ d :: b2 -> ~ In d b1 -> ~ In d b2 -> l1 = l2.
Proof.
  induction l1 as [|x l1 IH]; intros [|y l2] b1 b2; simpl; intros E H1 H2.
  - reflexivity.
  - injection E as <- E. exfalso. apply H1. rewrite E.
    apply in_or_app. right. now left.
  - injection E as -> E. exfalso. apply H2. rewrite <- E.
    apply in_or_app. right. now left.
  - injection E as -> E. f_equal. now apply IH with (b1 := b1) (b2 := b2).
Qed.

Lemma first_occurrence (d : pychar) (l1 : pystr) :
  forall l2 b1 b2,
    l1 ++ d :: b1 = l2 ++ d :: b2 -> ~ In d l1 -> ~ In d l2 -> l1 = l2.
Proof.
  induction l1 as [|x l1 IH]; intros [|y l2] b1 b2; simpl; intros E H1 H2.
  - reflexivity.
  - injection E as <- E. exfalso. apply H2. now left.
  - injection E as -> E. exfalso. apply H1. now left.
  - injection E as -> E. f_equal. apply IH with (b1 := b1) (b2 := b2).
    + exact E.
    + intros H. apply H1. now right.
    + intros H. apply H2. now right.
Qed.

Lemma spaces_lack (c : pychar) (l : pystr) :
  isspace c = false -> forallb isspace l = true -> ~ In c l.
Proof.
  intros Hc Hl Hin. rewrite forallb_forall in Hl. specialize (Hl c Hin). congruence.
Qed.

Lemma none_of_lacks (d : pychar) (l : pystr) :
  forallb (Re.mem (Re.NoneOf [d])) l = true <-> ~ In d l.
Proof.
  induction l as [|x l IH]; simpl.
  - split; [intros _ []|reflexivity].
  - rewrite andb_true_iff, IH, orb_false_r, negb_true_iff, N.eqb_neq. split.
    + intros [Hx Hl] [H|H]; [now apply Hx|now apply Hl].
    + intros H. split; [intros Hx|intros Hl]; apply H; [now left|now right].
Qed.

Lemma rstrip_all_space (s : pystr) : forallb isspace s = true -> rstrip s = [].
Proof.
  induction s as [|c s IH]; [reflexivity|].
  intros H. apply andb_true_iff in H. destruct H as [Hc Hs].
  change (rstrip (c :: s)) with
    (match rstrip s with [] => if isspace c then [] else [c] | r => c :: r end).
  now rewrite (IH Hs), Hc.
Qed.

Lemma rstrip_fixed_tail (c : pychar) (s : pystr) :
  rstrip (c :: s) = c :: s -> rstrip s = s.
Proof.
  change (rstrip (c :: s)) with
    (match rstrip s with [] => if isspace c then [] else [c] | r => c :: r end).
  destruct (rstrip s) as [|x r].
  - destruct (isspace c); [discriminate|]. now intros [= <-].
  - now intros [= <-].
Qed.

Lemma rstrip_fixed_suffix (p1 p2 : pystr) :
  rstrip (p1 ++ p2) = p1 ++ p2 -> p2 <> [] -> forallb isspace p2 = false.
Proof.
  induction p1 as [|x p1 IH]; simpl app; intros H Hp2.
  - destruct (forallb isspace p2) eqn:E; [|reflexivity].
    rewrite rstrip_all_space in H by exact E. now symmetry in H.
  - apply IH; [|exact Hp2]. now apply rstrip_fixed_tail with (c := x).
Qed.

Lemma strip_fixed_rstrip (a : pystr) : strip a = a -> rstrip a = a.
Proof.
  intros H. transitivity (rstrip (strip a)); [now rewrite H|].
  unfold strip. rewrite rstrip_idempotent. exact H.
Qed.

Lemma lstrip_in (c : pychar) (s : pystr) : In c (lstrip s) -> In c s.
Proof.
  induction s as [|x s IH]; simpl; [intros []|].
  destruct (isspace x); [|intros H; exact H]. intros H. right. now apply IH.
Qed.

Lemma rstrip_in (c : pychar) (s : pystr) : In c (rstrip s) -> In c s.
Proof.
  induction s as [|x s IH]; [intros []|].
  change (rstrip (x :: s)) with
    (match rstrip s with [] => if isspace x then [] else [x] | r => x :: r end).
  destruct (rstrip s) as [|y r].
  - destruct (isspace x); simpl; [intros []|]. intros [H|[]]. now left.
  - intros [H|H]; [now left|]. right. now apply IH.
Qed.

Lemma strip_in (c : pychar) (s : pystr) : In c (strip s) -> In c s.
Proof. intros H. now apply lstrip_in, rstrip_in. Qed.

Lemma title_patterns_fold (u : pystr) :
  fold_left (fun title pattern => Re.sub pattern [] title) title_patterns u =
  Re.sub dash_pattern [] (Re.sub pipe_pattern [] u).
Proof. reflexivity. Qed.

Lemma dash_pattern_matches (ws b : pystr) :
  forallb isspace ws = true -> ~ In (ch "-") b ->
  matches dash_pattern (ws ++ ch "-" :: b) [] [] [].
Proof.
  intros Hws Hb.
  exists (ch "-" :: b), []. split.
  { exists ws. repeat split; [exact Hws|apply Nat.le_0_l]. }
  exists b, []. split.
  { exists (ch "-"). repeat split. }
  exists b, []. split.
  { exists []. repeat split. apply Nat.le_0_l. }
  exists [], []. split.
  { exists b. rewrite app_nil_r. repeat split;
      [now apply none_of_lacks|apply Nat.le_0_l]. }
  exists [], []. split.
  { repeat split. now left. }
  split; reflexivity.
Qed.

Lemma dash_pattern_ends (s s' : pystr) (caps : Re.captures) :
  matches dash_pattern s [] s' caps ->
  exists taken rest,
    s = taken ++ ch "-" :: rest /\ forallb isspace taken = true /\
    ~ In (ch "-") rest /\ (s' = [] \/ s' = [10%N]).
Proof.
  intros (s1 & c1 & (taken & E1 & Ht & _ & _) & s2 & c2 & (c & E2 & Hc & _) &
          s3 & c3 & (sp & E3 & Hsp & _ & _) & s4 & c4 & (nd & E4 & Hnd & _ & _) &
          s5 & c5 & (E5 & _ & Hend) & E6 & _).
  apply N.eqb_eq in Hc. subst.
  exists taken, (sp ++ nd ++ s4). repeat split; [exact Ht| |exact Hend].
  intros Hin. apply in_app_or in Hin. destruct Hin as [Hin|Hin].
  - revert Hin. now apply spaces_lack.
  - apply in_app_or in Hin. destruct Hin as [Hin|Hin].
    + revert Hin. now apply none_of_lacks.
    + destruct Hend as [-> | ->]; [destruct Hin|].
      destruct Hin as [Hin|[]]. discriminate.
Qed.

Lemma dash_pattern_needs_spaces (p2 ws b : pystr) :
  forallb isspace p2 = false -> ~ In (ch "-") b ->
  Re.match_here dash_pattern (p2 ++ ws ++ ch "-" :: b) = None.
Proof.
  intros Hp Hb.
  destruct (Re.match_here dash_pattern (p2 ++ ws ++ ch "-" :: b)) as [m|] eqn:E;
    [exfalso|reflexivity].
  destruct (match_here_sound _ _ E) as (s' & Hm & _).
  destruct (dash_pattern_ends Hm) as (taken & rest & Es & Ht & Hrest & _).
  rewrite app_assoc in Es.
  apply last_occurrence in Es; [|exact Hb|exact Hrest].
  rewrite <- Es, forallb_app, Hp in Ht. discriminate.
Qed.

(** On a text without a line feed at its end the second pattern removes
    what begins with the white space before the last dash. *)
Lemma dash_pattern_cuts (a ws b : pystr) :
  rstrip a = a -> forallb isspace ws = true -> ~ In (ch "-") b ->
  rstrip (a ++ ws ++ ch "-" :: b) = a ++ ws ++ ch "-" :: b ->
  Re.sub dash_pattern [] (a ++ ws ++ ch "-" :: b) = a.
Proof.
  intros Ha Hws Hb Hu.
  destruct (@match_here_complete dash_pattern _ _ _ eq_refl (@dash_pattern_matches ws b Hws Hb))
    as [m Hm].
  apply sub_cuts_at_first_match with (m := m).
  - exact Hm.
  - destruct (match_here_sound _ _ Hm) as (s' & Hs' & ->).
    destruct (dash_pattern_ends Hs') as (_ & _ & _ & _ & _ & [-> | ->]);
      [simpl; apply Nat.sub_0_r|].
    exfalso. destruct (matches_suffix _ _ _ _ _ Hs') as [p Ep].
    rewrite Ep, app_assoc in Hu.
    apply rstrip_fixed_suffix in Hu; discriminate.
  - intros p1 p2 -> Hp2. apply dash_pattern_needs_spaces; [|exact Hb].
    now apply rstrip_fixed_suffix with (p1 := p1).
Qed.

(** X10: a title without [&] and [|] whose trimmed form is a trimmed head,
    white space, a dash and a rest without a dash is cleaned to the head:
    [clean_title] removes what begins with the white space before the
    last dash. *)
Theorem clean_title_drops_the_source (title a ws b : pystr) :
  strip title = a ++ ws ++ ch "-" :: b ->
  strip a = a ->
  forallb isspace ws = true ->
  ~ In (ch "-") b ->
  ~ In (ch "|") title ->
  ~ In (ch "&") title ->
  clean_title (PStr title) = Ok (PStr a).
Proof.
  intros Hu Ha Hws Hb Hpipe Hamp.
  destruct title as [|c t]; [now destruct a|].
  rewrite clean_title_nonempty.
  rewrite unescape_without_ampersand by now apply existsb_eqb_false.
  unfold bind. rewrite title_patterns_fold.
  rewrite sub_requires with (c := ch "|") (r := pipe_pattern);
    [|reflexivity|intros H; apply Hpipe; now apply strip_in].
  rewrite Hu, dash_pattern_cuts, Ha; [reflexivity| |exact Hws|exact Hb|].
  - now apply strip_fixed_rstrip.
  - rewrite <- Hu. unfold strip. apply rstrip_idempotent.
Qed.

Lemma pipe_pattern_matches (ws mid b : pystr) :
  forallb isspace ws = true -> ~ In (ch "|") mid -> ~ In (ch "-") b ->
  matches pipe_pattern (ws ++ ch "|" :: mid ++ ch "-" :: b) [] [] [].
Proof.
  intros Hws Hmid Hb.
  exists (ch "|" :: mid ++ ch "-" :: b), []. split.
  { exists ws. repeat split; [exact Hws|apply Nat.le_0_l]. }
  exists (mid ++ ch "-" :: b), []. split.
  { exists (ch "|"). repeat split. }
  exists (mid ++ ch "-" :: b), []. split.
  { exists []. repeat split. apply Nat.le_0_l. }
  exists (ch "-" :: b), []. split.
  { exists mid. repeat split; [now apply none_of_lacks|apply Nat.le_0_l]. }
  exists (ch "-" :: b), []. split.
  { exists []. repeat split. apply Nat.le_0_l. }
  exists b, []. split.
  { exists (ch "-"). repeat split. }
  exists b, []. split.
  { exists []. repeat split. apply Nat.le_0_l. }
  exists [], []. split.
  { exists b. rewrite app_nil_r. repeat split;
      [now apply none_of_lacks|apply Nat.le_0_l]. }
  exists [], []. split.
  { repeat split. now left. }
  split; reflexivity.
Qed.

Lemma pipe_pattern_ends (s s' : pystr) (caps : Re.captures) :
  matches pipe_pattern s [] s' caps ->
  exists taken rest,
    s = taken ++ ch "|" :: rest /\ forallb isspace taken = true /\
    (s' = [] \/ s' = [10%N]).
Proof.
  intros (s1 & c1 & (taken & E1 & Ht & _ & _) & s2 & c2 & (c & E2 & Hc & _) &
          s3 & c3 & _ & s4 & c4 & _ & s5 & c5 & _ & s6 & c6 & _ & s7 & c7 & _ &
          s8 & c8 & _ & s9 & c9 & (E9 & _ & Hend) & E10 & _).
  apply N.eqb_eq in Hc. subst.
  exists taken, s2. now repeat split.
Qed.

Lemma pipe_pattern_needs_spaces (p2 ws rest : pystr) :
  forallb isspace p2 = false -> ~ In (ch "|") p2 -> forallb isspace ws = true ->
  Re.match_here pipe_pattern (p2 ++ ws ++ ch "|" :: rest) = None.
Proof.
  intros Hp Hpipe Hws.
  destruct (Re.match_here pipe_pattern (p2 ++ ws ++ ch "|" :: rest)) as [m|] eqn:E;
    [exfalso|reflexivity].
  destruct (match_here_sound _ _ E) as (s' & Hm & _).
  destruct (pipe_pattern_ends Hm) as (taken & rest' & Es & Ht & _).
  rewrite app_assoc in Es.
  apply first_occurrence in Es.
  - rewrite <- Es, forallb_app, Hp in Ht. discriminate.
  - intros Hin. apply in_app_or in Hin. destruct Hin as [Hin|Hin];
      [now apply Hpipe|]. revert Hin. now apply spaces_lack.
  - now apply spaces_lack.
Qed.

(** On a text without a line feed at its end the first pattern removes
    what begins with the white space before the [|], when a dash follows
    the [|]. *)
Lemma pipe_pattern_cuts (a ws mid b : pystr) :
  rstrip a = a -> ~ In (ch "|") a -> forallb isspace ws = true ->
  ~ In (ch "|") mid -> ~ In (ch "-") b ->
  rstrip (a ++ ws ++ ch "|" :: mid ++ ch "-" :: b)
  = a ++ ws ++ ch "|" :: mid ++ ch "-" :: b ->
  Re.sub pipe_pattern [] (a ++ ws ++ ch "|" :: mid ++ ch "-" :: b) = a.
Proof.
  intros Ha Hpa Hws Hmid Hb Hu.
  destruct (@match_here_complete pipe_pattern _ _ _ eq_refl
              (@pipe_pattern_matches ws mid b Hws Hmid Hb)) as [m Hm].
  apply sub_cuts_at_first_match with (m := m).
  - exact Hm.
  - destruct (match_here_sound _ _ Hm) as (s' & Hs' & ->).
    destruct (pipe_pattern_ends Hs') as (_ & _ & _ & _ & [-> | ->]);
      [simpl; apply Nat.sub_0_r|].
    exfalso. destruct (matches_suffix _ _ _ _ _ Hs') as [p Ep].
    rewrite Ep, app_assoc in Hu.
    apply rstrip_fixed_suffix in Hu; discriminate.
  - intros p1 p2 -> Hp2. apply pipe_pattern_needs_spaces; [| |exact Hws].
    + now apply rstrip_fixed_suffix with (p1 := p1).
    + intros Hin. apply Hpa. apply in_or_app. now right.
Qed.

(** X11: a title without [&] whose trimmed form is a trimmed head without
    [|] and dash, white space, a [|], a part without [|], a dash and a
    rest without a dash is cleaned to the head: [clean_title] removes the
    section and the source that follow the [|]. *)
Theorem clean_title_drops_the_section (title a ws mid b : pystr) :
  strip title = a ++ ws ++ ch "|" :: mid ++ ch "-" :: b ->
  strip a = a ->
  forallb isspace ws = true ->
  ~ In (ch "|") a ->
  ~ In (ch "-") a ->
  ~ In (ch "|") mid ->
  ~ In (ch "-") b ->
  ~ In (ch "&") title ->
  clean_title (PStr title) = Ok (PStr a).
Proof.
  intros Hu Ha Hws Hpa Hda Hmid Hb Hamp.
  destruct title as [|c t]; [now destruct a|].
  rewrite clean_title_nonempty.
  rewrite unescape_without_ampersand by now apply existsb_eqb_false.
  unfold bind. rewrite title_patterns_fold.
  rewrite Hu, pipe_pattern_cuts;
    [|now apply strip_fixed_rstrip|exact Hpa|exact Hws|exact Hmid|exact Hb|].
  - rewrite sub_requires with (c := ch "-"); [|reflexivity|exact Hda].
    now rewrite Ha.
  - rewrite <- Hu. unfold strip. apply rstrip_idempotent.
Qed.
(** ** Where the patterns cannot match *)

Lemma occurrences_app (cs : list pychar) (x y : pystr) :
  occurrences cs (x ++ y) = occurrences cs x + occurrences cs y.
Proof. unfold occurrences. now rewrite filter_app, length_app. Qed.

Lemma occurrences_lacks (cs : list pychar) (s : pystr) :
  lacks cs s = true <-> occurrences cs s = 0.
Proof.
  unfold lacks, occurrences. induction s as [|c s IH]; simpl; [easy|].
  destruct (existsb (N.eqb c) cs); simpl; [easy|exact IH].
Qed.

Lemma cset_within_mem (cs : list pychar) (k : Re.cset) (c : pychar) :
  cset_within cs k = true -> Re.mem k c = true -> existsb (N.eqb c) cs = true.
Proof.
  destruct k as [d|d|l|l| |]; simpl; try discriminate.
  - intros H Hc. apply N.eqb_eq in Hc. now subst.
  - intros H Hc. apply existsb_exists in Hc. destruct Hc as (x & Hx & Hc).
    apply N.eqb_eq in Hc. subst x. rewrite forallb_forall in H. now apply H.
Qed.

Lemma occurrences_all (cs : list pychar) (k : Re.cset) (taken : pystr) :
  cset_within cs k = true -> forallb (Re.mem k) taken = true ->
  occurrences cs taken = length taken.
Proof.
  intros Hk. unfold occurrences. induction taken as [|c taken IH]; simpl; [reflexivity|].
  intros H. apply andb_true_iff in H. destruct H as [Hc H].
  rewrite (cset_within_mem _ _ _ Hk Hc). simpl. now rewrite IH.
Qed.

(** Every match holds the occurrences the pattern needs. *)
Lemma matches_needs (cs : list pychar) (r : Re.regex) :
  forall s caps s' caps',
    matches r s caps s' caps' ->
    exists x, s = x ++ s' /\ needs cs r <= occurrences cs x.
Proof.
  induction r as [|k|k lo hi|r1 IH1 r2 IH2|r1 IH1 r2 IH2|i r1 IH1|];
    simpl; intros s caps s' caps'.
  - intros [-> _]. exists []. split; [reflexivity|apply Nat.le_0_l].
  - intros (c & -> & Hc & _). exists [c]. split; [reflexivity|].
    destruct (cset_within cs k) eqn:Hk; [|apply Nat.le_0_l].
    unfold occurrences. simpl. now rewrite (cset_within_mem _ _ _ Hk Hc).
  - intros (taken & -> & Hall & Hlo & _). exists taken. split; [reflexivity|].
    destruct (cset_within cs k) eqn:Hk; [|apply Nat.le_0_l].
    now rewrite (occurrences_all _ _ _ Hk Hall).
  - intros (s1 & caps1 & H1 & H2).
    destruct (IH1 _ _ _ _ H1) as (x1 & -> & L1).
    destruct (IH2 _ _ _ _ H2) as (x2 & -> & L2).
    exists (x1 ++ x2). split; [now rewrite app_assoc|].
    rewrite occurrences_app. now apply Nat.add_le_mono.
  - intros [H|H].
    + destruct (IH1 _ _ _ _ H) as (x & -> & L). exists x. split; [reflexivity|].
      eapply Nat.le_trans; [apply Nat.le_min_l|exact L].
    + destruct (IH2 _ _ _ _ H) as (x & -> & L). exists x. split; [reflexivity|].
      eapply Nat.le_trans; [apply Nat.le_min_r|exact L].
  - intros (caps1 & H & _). exact (IH1 _ _ _ _ H).
  - intros (-> & _). exists []. split; [reflexivity|apply Nat.le_0_l].
Qed.

Lemma match_here_needs (cs : list pychar) (r : Re.regex) (s : pystr) :
  occurrences cs s < needs cs r -> Re.match_here r s = None.
Proof.
  intros Hlt. destruct (Re.match_here r s) as [m|] eqn:E; [exfalso|reflexivity].
  destruct (match_here_sound _ _ E) as (s' & Hm & _).
  destruct (matches_needs cs _ _ _ _ _ Hm) as (x & -> & L).
  rewrite occurrences_app in Hlt.
  apply (Nat.lt_irrefl (needs cs r)).
  eapply Nat.le_lt_trans; [exact L|].
  eapply Nat.le_lt_trans; [apply Nat.le_add_r|exact Hlt].
Qed.

(** A text with fewer occurrences than the pattern needs holds no match. *)
Lemma finditer_needs (cs : list pychar) (r : Re.regex) (s : pystr) :
  occurrences cs s < needs cs r -> forall skip, Re.finditer_from r s skip = [].
Proof.
  induction s as [|c s IH]; intros Hlt skip.
  - simpl. destruct skip; [|reflexivity].
    now rewrite (match_here_needs cs) by exact Hlt.
  - assert (Hs : occurrences cs s < needs cs r).
    { eapply Nat.le_lt_trans; [|exact Hlt].
      change (c :: s) with ([c] ++ s). rewrite occurrences_app. apply Nat.le_add_l. }
    simpl. destruct skip; [|now apply IH].
    rewrite (match_here_needs cs) by exact Hlt. now apply IH.
Qed.

Lemma finditer_from_skips (r : Re.regex) (x y : pystr) :
  Re.finditer_from r (x ++ y) (length x) = Re.finditer_from r y 0.
Proof. induction x as [|c x IH]; simpl; [reflexivity|exact IH]. Qed.

Lemma finditer_from_first_match (r : Re.regex) (rest : pystr) :
  forall pre,
    (forall p1 p2, pre = p1 ++ p2 -> p2 <> [] -> Re.match_here r (p2 ++ rest) = None) ->
    Re.finditer_from r (pre ++ rest) 0 = Re.finditer_from r rest 0.
Proof.
  induction pre as [|x pre IH]; intros Hp; [reflexivity|].
  simpl app. simpl Re.finditer_from.
  change (x :: pre ++ rest) with ((x :: pre) ++ rest).
  rewrite (Hp [] (x :: pre) eq_refl) by discriminate.
  apply IH. intros p1 p2 -> Hp2. now apply (Hp (x :: p1) p2).
Qed.

Lemma lacks_app (cs : list pychar) (x y : pystr) :
  lacks cs (x ++ y) = lacks cs x && lacks cs y.
Proof. apply forallb_app. Qed.

Lemma lacks_fewer (cs cs' : list pychar) (s : pystr) :
  forallb (fun c => existsb (N.eqb c) cs) cs' = true ->
  lacks cs s = true -> lacks cs' s = true.
Proof.
  intros Hsub. unfold lacks. rewrite !forallb_forall. intros H c Hc.
  specialize (H c Hc). apply negb_true_iff in H. apply negb_true_iff.
  destruct (existsb (N.eqb c) cs') eqn:E; [|reflexivity].
  apply existsb_exists in E. destruct E as (x & Hx & E). apply N.eqb_eq in E. subst x.
  rewrite forallb_forall in Hsub. specialize (Hsub c Hx).
  apply existsb_exists in Hsub. destruct Hsub as (y & Hy & E). apply N.eqb_eq in E. subst y.
  rewrite <- H. symmetry. apply existsb_exists. exists c. split; [exact Hy|apply N.eqb_refl].
Qed.

(** Two texts that agree up to their first occurrence of [cs] agree on
    what stands before it, on the occurrence and on the rest. *)
Lemma first_of (cs : list pychar) (l1 : pystr) :
  forall l2 d1 d2 b1 b2,
    l1 ++ d1 :: b1 = l2 ++ d2 :: b2 ->
    lacks cs l1 = true -> lacks cs l2 = true ->
    existsb (N.eqb d1) cs = true -> existsb (N.eqb d2) cs = true ->
    l1 = l2 /\ d1 = d2 /\ b1 = b2.
Proof.
  induction l1 as [|x l1 IH]; intros [|y l2] d1 d2 b1 b2; simpl; intros E H1 H2 Hd1 Hd2.
  - now injection E as -> ->.
  - injection E as -> E. rewrite Hd1 in H2. discriminate.
  - injection E as -> E. rewrite Hd2 in H1. discriminate.
  - injection E as -> E.
    apply andb_true_iff in H1. destruct H1 as [_ H1].
    apply andb_true_iff in H2. destruct H2 as [_ H2].
    destruct (IH _ _ _ _ _ E H1 H2 Hd1 Hd2) as (-> & -> & ->). now repeat split.
Qed.

Lemma app_same_length (x y x' y' : pystr) :
  x ++ y = x' ++ y' -> length x = length x' -> x = x' /\ y = y'.
Proof.
  revert x'. induction x as [|c x IH]; intros [|c' x']; simpl; intros E L;
    try discriminate.
  - now split.
  - injection E as -> E. injection L as L. destruct (IH _ E L) as [-> ->]. now split.
Qed.

Lemma occurrences_cons_in (cs : list pychar) (c : pychar) (s : pystr) :
  existsb (N.eqb c) cs = true -> occurrences cs (c :: s) = S (occurrences cs s).
Proof. intros H. unfold occurrences. simpl. now rewrite H. Qed.

(** A text with two quotes is read in one way by a pattern that asks for
    two. *)
Lemma two_quotes (A link R x g R' : pystr) (q q1 q2 : pychar) :
  A ++ q :: link ++ q :: R = x ++ q1 :: g ++ q2 :: R' ->
  lacks quotes A = true -> lacks quotes link = true -> lacks quotes R = true ->
  lacks quotes g = true ->
  existsb (N.eqb q) quotes = true ->
  existsb (N.eqb q1) quotes = true -> existsb (N.eqb q2) quotes = true ->
  x = A /\ g = link /\ R' = R.
Proof.
  intros E HA Hl HR Hg Hq Hq1 Hq2.
  assert (Hx : lacks quotes x = true).
  { pose proof (f_equal (occurrences quotes) E) as C.
    rewrite !occurrences_app, !occurrences_cons_in, !occurrences_app,
      !occurrences_cons_in in C by assumption.
    apply occurrences_lacks in HA, Hl, HR, Hg. rewrite HA, Hl, HR, Hg in C.
    apply occurrences_lacks. lia. }
  destruct (first_of quotes _ _ _ _ _ _ E HA Hx Hq Hq1) as (-> & -> & E').
  destruct (first_of quotes _ _ _ _ _ _ E' Hl Hg Hq1 Hq2) as (-> & _ & ->).
  now repeat split.
Qed.

(** What a literal that ignores case consumes. *)
Lemma matches_literal_i (w : pystr) :
  forall s caps s' caps',
    matches (Re.literal_i w) s caps s' caps' ->
    exists x, s = x ++ s' /\ length x = length w /\ caps' = caps /\
              (forall d w', w = d :: w' -> Re.is_ascii_letter d = false ->
                            exists x', x = d :: x').
Proof.
  unfold Re.literal_i, Re.seq.
  induction w as [|d w IH]; simpl; intros s caps s' caps'.
  - intros [-> ->]. exists []. repeat split. discriminate.
  - intros (s1 & caps1 & (c & -> & Hc & ->) & H).
    destruct (IH _ _ _ _ H) as (x & -> & L & -> & _).
    exists (c :: x). repeat split; [simpl; now rewrite L|].
    intros d' w' [= <- <-] Hd. rewrite Hd in Hc. simpl in Hc.
    apply N.eqb_eq in Hc. subst c. now exists x.
Qed.

(** A literal that ignores case matches the literal itself. *)
Lemma literal_i_matches_itself (w : pystr) (s : pystr) (caps : Re.captures) :
  matches (Re.literal_i w) (w ++ s) caps s caps.
Proof.
  unfold Re.literal_i, Re.seq.
  induction w as [|d w IH]; simpl; [now split|].
  exists (w ++ s), caps. split; [|exact IH].
  exists d. repeat split.
  destruct (Re.is_ascii_letter d); simpl; [|apply N.eqb_refl].
  now rewrite N.eqb_refl.
Qed.

Lemma anchor_app (q : pychar) (link title post : pystr) :
  anchor q link title ++ post =
  str "<a" ++ ch " " :: str "href=" ++ q :: link ++ q :: ch ">" :: title
    ++ str "</a>" ++ post.
Proof.
  unfold anchor. change (str "<a href=") with (str "<a" ++ ch " " :: str "href=").
  repeat (rewrite <- ?app_assoc, <- ?app_comm_cons). reflexivity.
Qed.

Lemma pattern3_matches_anchor (q : pychar) (link title post : pystr) :
  existsb (N.eqb q) quotes = true ->
  lacks quotes link = true -> link <> [] ->
  lacks [ch "<"] title = true -> 10 <= length title ->
  matches pattern3 (anchor q link title ++ post) [] post [(2, title); (1, link)].
Proof.
  intros Hq Hl Hne Ht Hlen. rewrite anchor_app.
  unfold pattern3, Re.seq, Re.Plus, Re.Star, a_quote. cbn [fold_right matches].
  generalize (str "<a"), (str "href="), (str "</a>"). intros w1 w2 w3.
  eexists _, _. split; [apply literal_i_matches_itself|].
  eexists _, _. split.
  { exists [ch " "]. split; [reflexivity|]. repeat split. apply Nat.le_refl. }
  eexists _, _. split.
  { exists []. split; [reflexivity|]. repeat split. apply Nat.le_0_l. }
  eexists _, _. split; [apply literal_i_matches_itself|].
  eexists _, _. split.
  { exists q. split; [reflexivity|]. split; [exact Hq|reflexivity]. }
  eexists _, _. split.
  { eexists. split.
    - exists link. split; [reflexivity|]. split; [exact Hl|]. split; [|reflexivity].
      destruct link; [contradiction|simpl; apply le_n_S, Nat.le_0_l].
    - reflexivity. }
  eexists _, _. split.
  { exists q. split; [reflexivity|]. split; [exact Hq|reflexivity]. }
  eexists _, _. split.
  { exists []. split; [reflexivity|]. repeat split. apply Nat.le_0_l. }
  eexists _, _. split.
  { exists (ch ">"). split; [reflexivity|]. split; reflexivity. }
  eexists _, _. split.
  { eexists. split.
    - exists title. split; [reflexivity|]. split; [exact Ht|]. split; [exact Hlen|reflexivity].
    - reflexivity. }
  eexists _, _. split; [apply literal_i_matches_itself|].
  split; [reflexivity|].
  rewrite !firstn_taken. reflexivity.
Qed.

(** The third pattern reads an anchor in one way only. *)
Lemma pattern3_reads_anchor (q : pychar) (link title post s' : pystr)
    (caps : Re.captures) :
  existsb (N.eqb q) quotes = true ->
  lacks quotes link = true ->
  lacks (ch "<" :: quotes) title = true ->
  lacks quotes post = true ->
  matches pattern3 (anchor q link title ++ post) [] s' caps ->
  s' = post /\ caps = [(2, title); (1, link)].
Proof.
  intros Hq Hl Ht Hpost Hm. rewrite anchor_app in Hm.
  assert (Htq : lacks quotes title = true) by (revert Ht; now apply lacks_fewer).
  assert (Htl : lacks [ch "<"] title = true) by (revert Ht; now apply lacks_fewer).
  unfold pattern3, Re.seq, Re.Plus, Re.Star, a_quote in Hm.
  cbn [fold_right matches] in Hm.
  destruct Hm as (s1 & c1 & M1 & s2 & c2 & (sp & E2 & Hsp & Lsp & Ec2) &
    s3 & c3 & (x1 & E3 & Hx1 & _ & Ec3) & s4 & c4 & M4 &
    s5 & c5 & (q1 & E5 & Hq1 & Ec5) &
    s6 & c6 & (c6' & (g1 & E6 & Hg1 & Lg1 & Ec6') & Ec6) &
    s7 & c7 & (q2 & E7 & Hq2 & Ec7) &
    s8 & c8 & (x2 & E8 & Hx2 & _ & Ec8) &
    s9 & c9 & (gt & E9 & Hgt & Ec9) &
    s10 & c10 & (c10' & (g2 & E10 & Hg2 & Lg2 & Ec10') & Ec10) &
    s11 & c11 & M11 & E12 & Ec12).
  destruct (matches_literal_i _ _ _ _ _ M1) as (w1 & E1 & L1 & Ec1 & _).
  destruct (matches_literal_i _ _ _ _ _ M4) as (w4 & E4 & L4 & Ec4 & _).
  destruct (matches_literal_i _ _ _ _ _ M11) as (w11 & E11 & L11 & Ec11 & Hw11).
  destruct (Hw11 _ _ eq_refl eq_refl) as [w11' ->].
  clear M1 M4 M11 Hw11.
  apply N.eqb_eq in Hgt. subst gt.
  (* the captures *)
  assert (Hcaps : caps = [(2, g2); (1, g1)]).
  { subst. now rewrite !firstn_taken. }
  clear Ec1 Ec2 Ec3 Ec4 Ec5 Ec6 Ec6' Ec7 Ec8 Ec9 Ec10 Ec10' Ec11 Ec12.
  (* the first two characters and the blank *)
  apply app_same_length in E1; [|now rewrite L1]. destruct E1 as [_ E1].
  rewrite <- E1 in E2. clear E1 L1 w1.
  assert (E2' : sp = [ch " "] /\
                s2 = str "href=" ++ q :: link ++ q :: ch ">" :: title ++ str "</a>" ++ post).
  { destruct sp as [|a [|b sp]].
    - simpl in Lsp. inversion Lsp.
    - simpl in E2. injection E2 as Ha Es2. rewrite <- Ha, <- Es2. now split.
    - simpl in E2. injection E2 as _ Hb _.
      cbn [forallb] in Hsp. apply andb_true_iff in Hsp. destruct Hsp as [_ Hsp].
      apply andb_true_iff in Hsp. destruct Hsp as [Hsp _].
      rewrite <- Hb in Hsp. discriminate Hsp. }
  destruct E2' as [_ ->]. clear E2 Hsp Lsp sp.
  (* the two quotes *)
  rewrite E4, E5, E6, E7 in E3. rewrite (app_assoc x1 w4) in E3.
  apply two_quotes in E3; try assumption.
  - destruct E3 as (_ & -> & ->).
    (* the end of the tag and the text *)
    rewrite E9, E10, E11 in E8.
    destruct (first_of [ch ">"] [] x2 (ch ">") (ch ">") _ _ E8)
      as (<- & _ & E8'); [reflexivity|exact Hx2|reflexivity|reflexivity|].
    change (str "</a>") with (ch "<" :: str "/a>") in E8'.
    destruct (first_of [ch "<"] title g2 (ch "<") (ch "<") _ _ E8')
      as (<- & _ & E8''); [exact Htl|exact Hg2|reflexivity|reflexivity|].
    assert (E : str "/a>" ++ post = w11' ++ s11) by exact E8''.
    apply app_same_length in E; [|simpl in L11; simpl; lia].
    destruct E as [_ <-]. split; [exact E12|exact Hcaps].
  - reflexivity.
  - change (ch ">" :: title ++ str "</a>" ++ post)
      with ([ch ">"] ++ title ++ str "</a>" ++ post).
    now rewrite !lacks_app, Htq, Hpost.
Qed.

Lemma pattern3_finds_anchor (q : pychar) (link title post : pystr) :
  existsb (N.eqb q) quotes = true ->
  lacks quotes link = true -> link <> [] ->
  lacks (ch "<" :: quotes) title = true -> 10 <= length title ->
  lacks quotes post = true ->
  exists m,
    Re.match_here pattern3 (anchor q link title ++ post) = Some m /\
    Re.span m = length (anchor q link title) /\
    Re.group m 1 = link /\ Re.group m 2 = title.
Proof.
  intros Hq Hl Hne Ht Hlen Hpost.
  assert (Htl : lacks [ch "<"] title = true) by (revert Ht; now apply lacks_fewer).
  destruct (@match_here_complete pattern3 _ _ _ eq_refl
              (@pattern3_matches_anchor q link title post Hq Hl Hne Htl Hlen)) as [m Hm].
  exists m. split; [exact Hm|].
  destruct (match_here_sound _ _ Hm) as (s' & Hs' & Hspan).
  destruct (@pattern3_reads_anchor q link title post s' _ Hq Hl Ht Hpost Hs') as [-> Hcaps].
  unfold Re.group. rewrite Hcaps, Hspan, length_app. repeat split. lia.
Qed.

Lemma pattern3_begins_with_lt (c : pychar) (s : pystr) :
  c <> ch "<" -> Re.match_here pattern3 (c :: s) = None.
Proof.
  intros Hc. destruct (Re.match_here pattern3 (c :: s)) as [m|] eqn:E;
    [exfalso|reflexivity].
  destruct (match_here_sound _ _ E) as (s' & Hm & _).
  unfold pattern3, Re.seq in Hm. cbn [fold_right matches] in Hm.
  destruct Hm as (s1 & c1 & M1 & _).
  destruct (matches_literal_i _ _ _ _ _ M1) as (w1 & E1 & _ & _ & Hw1).
  destruct (Hw1 _ _ eq_refl eq_refl) as [w1' ->].
  injection E1 as -> _. now apply Hc.
Qed.

Lemma lacks_not_in (cs : list pychar) (c d : pychar) (x y : pystr) :
  lacks cs (x ++ c :: y) = true -> existsb (N.eqb d) cs = true -> c <> d.
Proof.
  rewrite lacks_app. intros H Hd ->. apply andb_true_iff in H. destruct H as [_ H].
  simpl in H. rewrite Hd in H. discriminate.
Qed.

(** In a page whose only markup is one anchor the third pattern finds
    the anchor and nothing else. *)
Lemma pattern3_finds_the_anchor_only (q : pychar) (pre link title post : pystr) :
  existsb (N.eqb q) quotes = true ->
  lacks [ch "<"] pre = true ->
  lacks quotes link = true -> link <> [] ->
  lacks (ch "<" :: quotes) title = true -> 10 <= length title ->
  lacks (ch "<" :: quotes) post = true ->
  exists m,
    Re.finditer pattern3 (pre ++ anchor q link title ++ post) = [m] /\
    Re.group m 1 = link /\ Re.group m 2 = title.
Proof.
  intros Hq Hpre Hl Hne Ht Hlen Hpost.
  assert (Hpq : lacks quotes post = true) by (revert Hpost; now apply lacks_fewer).
  assert (Hpl : lacks [ch "<"] post = true) by (revert Hpost; now apply lacks_fewer).
  destruct (@pattern3_finds_anchor q link title post Hq Hl Hne Ht Hlen Hpq) as (m & Hm & Hspan & G1 & G2).
  exists m. split; [|now split].
  unfold Re.finditer. rewrite finditer_from_first_match.
  - revert Hm Hspan. unfold anchor. change (str "<a href=") with (ch "<" :: str "a href=").
    cbn [app]. intros Hm Hspan. cbn [Re.finditer_from].
    rewrite Hm, Hspan. cbn [length pred]. rewrite finditer_from_skips.
    rewrite (finditer_needs [ch "<"]); [reflexivity|].
    apply occurrences_lacks in Hpl. rewrite Hpl. vm_compute. lia.
  - intros p1 [|c p2] -> Hp2; [contradiction|]. cbn [app].
    apply pattern3_begins_with_lt.
    now apply lacks_not_in with (cs := [ch "<"]) (x := p1) (y := p2).
Qed.

Lemma quote_cases (q : pychar) :
  existsb (N.eqb q) quotes = true -> q = 34%N \/ q = 39%N.
Proof.
  simpl. intros H. apply orb_true_iff in H. destruct H as [H|H].
  - left. now apply N.eqb_eq.
  - apply orb_true_iff in H. destruct H as [H|H]; [|discriminate].
    right. now apply N.eqb_eq.
Qed.

Lemma anchor_parts (q : pychar) (link title : pystr) :
  anchor q link title
  = str "<a href=" ++ [q] ++ link ++ [q] ++ [ch ">"] ++ title ++ str "</a>".
Proof. reflexivity. Qed.

Lemma page_lacks_backslash (q : pychar) (pre link title post : pystr) :
  existsb (N.eqb q) quotes = true ->
  lacks [92%N] pre = true -> lacks [92%N] link = true ->
  lacks [92%N] title = true -> lacks [92%N] post = true ->
  occurrences [92%N] (pre ++ anchor q link title ++ post) = 0.
Proof.
  intros Hq Hpre Hl Ht Hpost. apply occurrences_lacks.
  rewrite anchor_parts, !lacks_app, Hpre, Hl, Ht, Hpost.
  destruct (quote_cases _ Hq) as [-> | ->]; reflexivity.
Qed.

Lemma page_holds_two_quotes (q : pychar) (pre link title post : pystr) :
  existsb (N.eqb q) quotes = true ->
  lacks quotes pre = true -> lacks quotes link = true ->
  lacks quotes title = true -> lacks quotes post = true ->
  occurrences quotes (pre ++ anchor q link title ++ post) = 2.
Proof.
  intros Hq Hpre Hl Ht Hpost. apply occurrences_lacks in Hpre, Hl, Ht, Hpost.
  rewrite anchor_parts, !occurrences_app, Hpre, Hl, Ht, Hpost.
  destruct (quote_cases _ Hq) as [-> | ->]; reflexivity.
Qed.

Lemma should_exclude_text_truthy (v : pyval) :
  should_exclude_text v = false -> truthy v = true.
Proof.
  unfold should_exclude_text. destruct (truthy v); [reflexivity|discriminate].
Qed.

Lemma should_exclude_url_truthy (v : pyval) :
  should_exclude_url v = false -> truthy v = true.
Proof.
  unfold should_exclude_url. destruct (truthy v); [reflexivity|discriminate].
Qed.

(** X12: a page whose only markup is one anchor, with a title of at least
    ten characters that the title filter passes after cleaning and a link
    that the link filter passes after rebasing, gives exactly the record
    of that anchor, found by the third pattern after the first two found
    nothing. *)
Theorem single_anchor_is_extracted (quote : pychar) (pre link title post : pystr)
    (cleaned : pyval) :
  In quote quotes ->
  lacks special pre = true ->
  lacks special link = true ->
  lacks special title = true ->
  lacks special post = true ->
  10 <= length title ->
  clean_title (PStr (limit_title title)) = Ok cleaned ->
  should_exclude_text cleaned = false ->
  should_exclude_url (PStr (rebase_link link)) = false ->
  parse_yahoo_html (pre ++ anchor quote link title ++ post) []
  = ([yahoo_record cleaned (rebase_link link)], [Pattern1; Pattern2; Pattern3]).
Proof.
  intros Hin Hpre Hl Ht Hpost Hlen Hclean Htext Hurl.
  assert (Hq : existsb (N.eqb quote) quotes = true).
  { apply existsb_exists. exists quote. split; [exact Hin|apply N.eqb_refl]. }
  assert (Hne : link <> []).
  { intros ->. discriminate Hurl. }
  assert (H1 : Re.finditer pattern1 (pre ++ anchor quote link title ++ post) = []).
  { apply (finditer_needs [92%N]).
    rewrite page_lacks_backslash; [vm_compute; lia|exact Hq|..];
      match goal with |- lacks _ ?s = true =>
        apply lacks_fewer with (cs := special); [reflexivity|assumption] end. }
  assert (H2 : Re.finditer pattern2 (pre ++ anchor quote link title ++ post) = []).
  { apply (finditer_needs quotes).
    rewrite page_holds_two_quotes; [vm_compute; lia|exact Hq|..];
      match goal with |- lacks _ ?s = true =>
        apply lacks_fewer with (cs := special); [reflexivity|assumption] end. }
  destruct (@pattern3_finds_the_anchor_only quote pre link title post Hq)
    as (m & H3 & G1 & G2); try assumption;
    try (match goal with |- lacks _ ?s = true =>
           apply lacks_fewer with (cs := special); [reflexivity|assumption] end).
  unfold parse_yahoo_html, search, none_found. cbn [raised arr searched].
  rewrite H1. cbn [for_each raised arr searched length Nat.eqb app].
  rewrite H2. cbn [for_each raised arr searched length Nat.eqb app].
  rewrite H3. cbn [for_each].
  unfold pattern3_body. rewrite G1, G2, Hclean, Htext, Hurl.
  rewrite (should_exclude_text_truthy _ Htext), (should_exclude_url_truthy _ Hurl).
  reflexivity.
Qed.

(** ** The second pattern on an anchor with a class *)

Lemma one_blank (sp s2 rest : pystr) (c : pychar) :
  ch " " :: c :: rest = sp ++ s2 ->
  forallb (Re.mem Re.Space) sp = true -> 1 <= length sp -> isspace c = false ->
  s2 = c :: rest.
Proof.
  intros E Hsp Lsp Hc. destruct sp as [|a [|b sp]].
  - simpl in Lsp. inversion Lsp.
  - simpl in E. now injection E as _ <-.
  - simpl in E. injection E as _ Hb _.
    cbn [forallb] in Hsp. apply andb_true_iff in Hsp. destruct Hsp as [_ Hsp].
    apply andb_true_iff in Hsp. destruct Hsp as [Hsp _].
    rewrite <- Hb in Hsp. simpl in Hsp. congruence.
Qed.

Lemma reads_text_and_end (x g w s' title post : pystr) :
  ch ">" :: title ++ str "</a>" ++ post = x ++ ch ">" :: g ++ (ch "<" :: w) ++ s' ->
  lacks [ch ">"] x = true -> lacks [ch "<"] g = true -> lacks [ch "<"] title = true ->
  length w = 3 ->
  g = title /\ s' = post.
Proof.
  intros E Hx Hg Ht Lw.
  destruct (first_of [ch ">"] [] x (ch ">") (ch ">") _ _ E)
    as (<- & _ & E'); [reflexivity|exact Hx|reflexivity|reflexivity|].
  change (str "</a>") with (ch "<" :: str "/a>") in E'.
  destruct (first_of [ch "<"] title g (ch "<") (ch "<") _ _ E')
    as (<- & _ & E''); [exact Ht|exact Hg|reflexivity|reflexivity|].
  assert (E3 : str "/a>" ++ post = w ++ s') by exact E''.
  apply app_same_length in E3; [|now rewrite Lw].
  destruct E3 as [_ <-]. now split.
Qed.

(** A text with four quotes is read in one way by a pattern that asks for
    four. *)
Lemma four_quotes (A B C D R x g1 y g2 R' : pystr) (q q1 q2 q3 q4 : pychar) :
  A ++ q :: B ++ q :: C ++ q :: D ++ q :: R
  = x ++ q1 :: g1 ++ q2 :: y ++ q3 :: g2 ++ q4 :: R' ->
  lacks quotes A = true -> lacks quotes B = true -> lacks quotes C = true ->
  lacks quotes D = true -> lacks quotes R = true ->
  existsb (N.eqb q) quotes = true ->
  existsb (N.eqb q1) quotes = true -> existsb (N.eqb q2) quotes = true ->
  existsb (N.eqb q3) quotes = true -> existsb (N.eqb q4) quotes = true ->
  g1 = B /\ g2 = D /\ R' = R.
Proof.
  intros E HA HB HC HD HR Hq Hq1 Hq2 Hq3 Hq4.
  pose proof (f_equal (occurrences quotes) E) as C0.
  repeat (rewrite ?occurrences_app, ?occurrences_cons_in in C0 by assumption).
  pose proof HA as HA'. pose proof HB as HB'. pose proof HC as HC'.
  pose proof HD as HD'. pose proof HR as HR'.
  apply occurrences_lacks in HA', HB', HC', HD', HR'.
  rewrite HA', HB', HC', HD', HR' in C0.
  assert (Hx : lacks quotes x = true) by (apply occurrences_lacks; lia).
  assert (Hg1 : lacks quotes g1 = true) by (apply occurrences_lacks; lia).
  assert (Hy : lacks quotes y = true) by (apply occurrences_lacks; lia).
  assert (Hg2 : lacks quotes g2 = true) by (apply occurrences_lacks; lia).
  destruct (first_of quotes _ _ _ _ _ _ E HA Hx Hq Hq1) as (_ & _ & E1).
  destruct (first_of quotes _ _ _ _ _ _ E1 HB Hg1 Hq Hq2) as (<- & _ & E2).
  destruct (first_of quotes _ _ _ _ _ _ E2 HC Hy Hq Hq3) as (_ & _ & E3).
  destruct (first_of quotes _ _ _ _ _ _ E3 HD Hg2 Hq Hq4) as (<- & _ & <-).
  now repeat split.
Qed.

Lemma class_anchor_app (q : pychar) (before name after link title post : pystr) :
  class_anchor q before name after link title ++ post =
  str "<a" ++ ch " " :: str "class=" ++ q :: (before ++ name ++ after) ++ q
    :: str " href=" ++ q :: link ++ q :: ch ">" :: title ++ str "</a>" ++ post.
Proof.
  unfold class_anchor. change (str "<a class=") with (str "<a" ++ ch " " :: str "class=").
  repeat (rewrite <- ?app_assoc, <- ?app_comm_cons). reflexivity.
Qed.

Lemma class_name_matches (name s : pystr) (caps : Re.captures) :
  In name class_names ->
  matches (Re.Or (Re.literal_i (str "gPFEn"))
             (Re.Or (Re.literal_i (str "IFHyqb")) (Re.literal_i (str "IBr9hb"))))
    (name ++ s) caps s caps.
Proof.
  intros [<-|[<-|[<-|[]]]]; cbn [matches].
  - left. apply literal_i_matches_itself.
  - right. left. apply literal_i_matches_itself.
  - right. right. apply literal_i_matches_itself.
Qed.

Lemma pattern2_matches_anchor (q : pychar) (before name after link title post : pystr) :
  existsb (N.eqb q) quotes = true ->
  In name class_names ->
  lacks quotes before = true -> lacks quotes after = true ->
  lacks quotes link = true ->
  lacks [ch "<"] title = true ->
  matches pattern2 (class_anchor q before name after link title ++ post) [] post
    [(3, title); (2, link); (1, before ++ name ++ after)].
Proof.
  intros Hq Hname Hb Ha Hl Ht. rewrite class_anchor_app.
  unfold pattern2, Re.seq, Re.Plus, Re.Star, a_quote. cbn [fold_right].
  pose proof (fun s caps => @class_name_matches name s caps Hname) as Hnames.
  revert Hnames.
  generalize (Re.Or (Re.literal_i (str "gPFEn"))
                (Re.Or (Re.literal_i (str "IFHyqb")) (Re.literal_i (str "IBr9hb")))).
  intros names Hnames.
  cbn [matches].
  generalize (str "<a"), (str "class="), (str "</a>"). intros w1 w2 w3.
  eexists _, _. split; [apply literal_i_matches_itself|].
  eexists _, _. split.
  { exists [ch " "]. split; [reflexivity|]. repeat split. apply Nat.le_refl. }
  eexists _, _. split.
  { exists []. split; [reflexivity|]. repeat split. apply Nat.le_0_l. }
  eexists _, _. split; [apply literal_i_matches_itself|].
  eexists _, _. split.
  { exists q. split; [reflexivity|]. split; [exact Hq|reflexivity]. }
  eexists _, _. split.
  { eexists. split; [|reflexivity].
    eexists _, _. split.
    { exists before. split; [rewrite <- app_assoc; reflexivity|].
      split; [exact Hb|]. split; [apply Nat.le_0_l|reflexivity]. }
    eexists _, _. split.
    { rewrite <- app_assoc. apply Hnames. }
    eexists _, _. split.
    { exists after. split; [reflexivity|].
      split; [exact Ha|]. split; [apply Nat.le_0_l|reflexivity]. }
    split; reflexivity. }
  eexists _, _. split.
  { exists q. split; [reflexivity|]. split; [exact Hq|reflexivity]. }
  eexists _, _. split.
  { exists [ch " "]. split; [reflexivity|]. repeat split. apply Nat.le_0_l. }
  eexists _, _. split; [apply (literal_i_matches_itself (str "href="))|].
  eexists _, _. split.
  { exists q. split; [reflexivity|]. split; [exact Hq|reflexivity]. }
  eexists _, _. split.
  { eexists. split; [|reflexivity].
    exists link. split; [reflexivity|]. split; [exact Hl|].
    split; [apply Nat.le_0_l|reflexivity]. }
  eexists _, _. split.
  { exists q. split; [reflexivity|]. split; [exact Hq|reflexivity]. }
  eexists _, _. split.
  { exists []. split; [reflexivity|]. repeat split. apply Nat.le_0_l. }
  eexists _, _. split.
  { exists (ch ">"). split; [reflexivity|]. split; reflexivity. }
  eexists _, _. split.
  { eexists. split; [|reflexivity].
    exists title. split; [reflexivity|]. split; [exact Ht|].
    split; [apply Nat.le_0_l|reflexivity]. }
  eexists _, _. split; [apply literal_i_matches_itself|].
  split; [reflexivity|].
  rewrite !firstn_taken. reflexivity.
Qed.

(** The second pattern reads an anchor with a class in one way only. *)
Lemma pattern2_reads_anchor (q : pychar) (cls link title post s' : pystr)
    (caps : Re.captures) :
  existsb (N.eqb q) quotes = true ->
  lacks quotes cls = true ->
  lacks quotes link = true ->
  lacks (ch "<" :: quotes) title = true ->
  lacks quotes post = true ->
  matches pattern2
    (str "<a" ++ ch " " :: str "class=" ++ q :: cls ++ q
       :: str " href=" ++ q :: link ++ q :: ch ">" :: title ++ str "</a>" ++ post)
    [] s' caps ->
  s' = post /\ caps = [(3, title); (2, link); (1, cls)].
Proof.
  intros Hq Hc Hl Ht Hpost Hm.
  assert (Htq : lacks quotes title = true) by (revert Ht; now apply lacks_fewer).
  assert (Htl : lacks [ch "<"] title = true) by (revert Ht; now apply lacks_fewer).
  unfold pattern2, Re.seq, Re.Plus, Re.Star, a_quote in Hm.
  cbn [fold_right] in Hm.
  revert Hm.
  assert (Hng : no_groups
    (Re.Cat (Re.Repeat not_quote 0 None)
       (Re.Cat (Re.Or (Re.literal_i (str "gPFEn"))
                  (Re.Or (Re.literal_i (str "IFHyqb")) (Re.literal_i (str "IBr9hb"))))
          (Re.Cat (Re.Repeat not_quote 0 None) Re.Empty))) = true) by reflexivity.
  revert Hng.
  generalize (Re.Cat (Re.Repeat not_quote 0 None)
       (Re.Cat (Re.Or (Re.literal_i (str "gPFEn"))
                  (Re.Or (Re.literal_i (str "IFHyqb")) (Re.literal_i (str "IBr9hb"))))
          (Re.Cat (Re.Repeat not_quote 0 None) Re.Empty))).
  intros inner Hng Hm. cbn [matches] in Hm.
  destruct Hm as (s1 & c1 & M1 & s2 & c2 & (sp & E2 & Hsp & Lsp & Ec2) &
    s3 & c3 & (x1 & E3 & Hx1 & _ & Ec3) & s4 & c4 & M4 &
    s5 & c5 & (q1 & E5 & Hq1 & Ec5) &
    s6 & c6 & (c6' & M6 & Ec6) &
    s7 & c7 & (q2 & E7 & Hq2 & Ec7) &
    s8 & c8 & (x2 & E8 & Hx2 & _ & Ec8) & s9 & c9 & M9 &
    s10 & c10 & (q3 & E10 & Hq3 & Ec10) &
    s11 & c11 & (c11' & (g2 & E11 & Hg2 & _ & Ec11') & Ec11) &
    s12 & c12 & (q4 & E12 & Hq4 & Ec12) &
    s13 & c13 & (x3 & E13 & Hx3 & _ & Ec13) &
    s14 & c14 & (gt & E14 & Hgt & Ec14) &
    s15 & c15 & (c15' & (g3 & E15 & Hg3 & _ & Ec15') & Ec15) &
    s16 & c16 & M16 & E17 & Ec17).
  destruct (matches_literal_i _ _ _ _ _ M1) as (w1 & E1 & L1 & Ec1 & _).
  destruct (matches_literal_i _ _ _ _ _ M4) as (w4 & E4 & L4 & Ec4 & _).
  destruct (matches_literal_i _ _ _ _ _ M9) as (w9 & E9 & L9 & Ec9 & _).
  destruct (matches_literal_i _ _ _ _ _ M16) as (w16 & E16 & L16 & Ec16 & Hw16).
  destruct (Hw16 _ _ eq_refl eq_refl) as [w16' ->].
  destruct (matches_plain _ _ _ _ _ Hng M6) as (Ec6'' & g1 & E6).
  clear M1 M4 M9 M16 Hw16 M6.
  apply N.eqb_eq in Hgt. subst gt.
  assert (Hcaps : caps = [(3, g3); (2, g2); (1, g1)]).
  { subst. now rewrite !firstn_taken. }
  clear Ec1 Ec2 Ec3 Ec4 Ec5 Ec6 Ec6'' Ec7 Ec8 Ec9 Ec10 Ec11 Ec11' Ec12 Ec13 Ec14
    Ec15 Ec15' Ec16 Ec17.
  apply app_same_length in E1; [|now rewrite L1]. destruct E1 as [_ E1].
  rewrite <- E1 in E2. clear E1 L1 w1.
  change (str "class=") with (ch "c" :: str "lass=") in E2. cbn [app] in E2.
  apply one_blank in E2; [|exact Hsp|exact Lsp|reflexivity].
  clear Hsp Lsp sp.
  rewrite E2 in E3. clear E2.
  rewrite E4, E5, E6, E7, E8, E9, E10, E11, E12 in E3.
  rewrite (app_assoc x1 w4), (app_assoc x2 w9) in E3.
  change (ch "c" :: str "lass=" ++ q :: cls ++ q
            :: str " href=" ++ q :: link ++ q :: ch ">" :: title ++ str "</a>" ++ post)
    with (str "class=" ++ q :: cls ++ q
            :: str " href=" ++ q :: link ++ q :: ch ">" :: title ++ str "</a>" ++ post)
    in E3.
  apply four_quotes in E3; try assumption; try reflexivity.
  - destruct E3 as (-> & -> & E3).
    rewrite E13, E14, E15, E16 in E3. symmetry in E3.
    apply reads_text_and_end in E3;
      [|exact Hx3|exact Hg3|exact Htl|simpl in L16; simpl; lia].
    destruct E3 as [-> <-]. split; [exact E17|exact Hcaps].
  - change (ch ">" :: title ++ str "</a>" ++ post)
      with ([ch ">"] ++ title ++ str "</a>" ++ post).
    now rewrite !lacks_app, Htq, Hpost.
Qed.

Lemma class_name_lacks (cs : list pychar) (name : pystr) :
  In name class_names -> lacks cs (str "gPFEnIFHyqbIBr9hb") = true ->
  lacks cs name = true.
Proof.
  intros Hname H.
  change (str "gPFEnIFHyqbIBr9hb") with (str "gPFEn" ++ str "IFHyqb" ++ str "IBr9hb") in H.
  rewrite !lacks_app in H.
  apply andb_true_iff in H. destruct H as [H1 H].
  apply andb_true_iff in H. destruct H as [H2 H3].
  destruct Hname as [<-|[<-|[<-|[]]]]; assumption.
Qed.

Lemma pattern2_finds_anchor (q : pychar) (before name after link title post : pystr) :
  existsb (N.eqb q) quotes = true ->
  In name class_names ->
  lacks quotes before = true -> lacks quotes after = true ->
  lacks quotes link = true ->
  lacks (ch "<" :: quotes) title = true ->
  lacks quotes post = true ->
  exists m,
    Re.match_here pattern2 (class_anchor q before name after link title ++ post)
    = Some m /\
    Re.span m = length (class_anchor q before name after link title) /\
    Re.group m 2 = link /\ Re.group m 3 = title.
Proof.
  intros Hq Hname Hb Ha Hl Ht Hpost.
  assert (Htl : lacks [ch "<"] title = true) by (revert Ht; now apply lacks_fewer).
  destruct (@match_here_complete pattern2 _ _ _ eq_refl
              (@pattern2_matches_anchor q before name after link title post
                 Hq Hname Hb Ha Hl Htl)) as [m Hm].
  exists m. split; [exact Hm|].
  destruct (match_here_sound _ _ Hm) as (s' & Hs' & Hspan).
  rewrite class_anchor_app in Hs'.
  apply pattern2_reads_anchor in Hs'; try assumption.
  - destruct Hs' as [-> Hcaps].
    unfold Re.group. rewrite Hcaps, Hspan, length_app. repeat split. lia.
  - rewrite !lacks_app, Hb, Ha.
    now rewrite (class_name_lacks quotes Hname).
Qed.

Lemma pattern2_begins_with_lt (c : pychar) (s : pystr) :
  c <> ch "<" -> Re.match_here pattern2 (c :: s) = None.
Proof.
  intros Hc. destruct (Re.match_here pattern2 (c :: s)) as [m|] eqn:E;
    [exfalso|reflexivity].
  destruct (match_here_sound _ _ E) as (s' & Hm & _).
  unfold pattern2, Re.seq in Hm. cbn [fold_right matches] in Hm.
  destruct Hm as (s1 & c1 & M1 & _).
  destruct (matches_literal_i _ _ _ _ _ M1) as (w1 & E1 & _ & _ & Hw1).
  destruct (Hw1 _ _ eq_refl eq_refl) as [w1' ->].
  injection E1 as -> _. now apply Hc.
Qed.

(** In a page whose only markup is one anchor with a known class the
    second pattern finds the anchor and nothing else. *)
Lemma pattern2_finds_the_anchor_only (q : pychar)
    (pre before name after link title post : pystr) :
  existsb (N.eqb q) quotes = true ->
  In name class_names ->
  lacks [ch "<"] pre = true ->
  lacks quotes before = true -> lacks quotes after = true ->
  lacks quotes link = true ->
  lacks (ch "<" :: quotes) title = true ->
  lacks (ch "<" :: quotes) post = true ->
  exists m,
    Re.finditer pattern2 (pre ++ class_anchor q before name after link title ++ post)
    = [m] /\
    Re.group m 2 = link /\ Re.group m 3 = title.
Proof.
  intros Hq Hname Hpre Hb Ha Hl Ht Hpost.
  assert (Hpq : lacks quotes post = true) by (revert Hpost; now apply lacks_fewer).
  assert (Hpl : lacks [ch "<"] post = true) by (revert Hpost; now apply lacks_fewer).
  destruct (@pattern2_finds_anchor q before name after link title post
              Hq Hname Hb Ha Hl Ht Hpq) as (m & Hm & Hspan & G2 & G3).
  exists m. split; [|now split].
  unfold Re.finditer. rewrite finditer_from_first_match.
  - revert Hm Hspan. unfold class_anchor.
    change (str "<a class=") with (ch "<" :: str "a class=").
    cbn [app]. intros Hm Hspan. cbn [Re.finditer_from].
    rewrite Hm, Hspan. cbn [length pred]. rewrite finditer_from_skips.
    rewrite (finditer_needs [ch "<"]); [reflexivity|].
    apply occurrences_lacks in Hpl. rewrite Hpl. vm_compute. lia.
  - intros p1 [|c p2] -> Hp2; [contradiction|]. cbn [app].
    apply pattern2_begins_with_lt.
    now apply lacks_not_in with (cs := [ch "<"]) (x := p1) (y := p2).
Qed.

Lemma class_anchor_parts (q : pychar) (before name after link title : pystr) :
  class_anchor q before name after link title
  = str "<a class=" ++ [q] ++ before ++ name ++ after ++ [q] ++ str " href="
      ++ [q] ++ link ++ [q] ++ [ch ">"] ++ title ++ str "</a>".
Proof. reflexivity. Qed.

(** X13: a page whose only markup is one anchor with one of the known
    class names, a title that the title filter passes after cleaning and
    a link that the link filter passes as it stands, gives exactly the
    record of that anchor, found by the second pattern; the third pattern
    is not searched. *)
Theorem class_anchor_is_extracted (quote : pychar)
    (pre before name after link title post : pystr) (cleaned : pyval) :
  In quote quotes ->
  In name class_names ->
  lacks special pre = true ->
  lacks special before = true ->
  lacks special after = true ->
  lacks special link = true ->
  lacks special title = true ->
  lacks special post = true ->
  clean_title (PStr title) = Ok cleaned ->
  should_exclude_text cleaned = false ->
  should_exclude_url (PStr link) = false ->
  parse_yahoo_html (pre ++ class_anchor quote before name after link title ++ post) []
  = ([yahoo_record cleaned link], [Pattern1; Pattern2]).
Proof.
  intros Hin Hname Hpre Hb Ha Hl Ht Hpost Hclean Htext Hurl.
  assert (Hq : existsb (N.eqb quote) quotes = true).
  { apply existsb_exists. exists quote. split; [exact Hin|apply N.eqb_refl]. }
  assert (H1 : Re.finditer pattern1
                 (pre ++ class_anchor quote before name after link title ++ post) = []).
  { apply (finditer_needs [92%N]).
    assert (H0 : occurrences [92%N]
                   (pre ++ class_anchor quote before name after link title ++ post) = 0).
    { apply occurrences_lacks.
      rewrite class_anchor_parts, !lacks_app.
      rewrite (class_name_lacks [92%N] Hname) by reflexivity.
      rewrite (@lacks_fewer special [92%N] pre), (@lacks_fewer special [92%N] before),
        (@lacks_fewer special [92%N] after), (@lacks_fewer special [92%N] link),
        (@lacks_fewer special [92%N] title), (@lacks_fewer special [92%N] post)
        by (reflexivity || assumption).
      destruct (quote_cases _ Hq) as [-> | ->]; reflexivity. }
    rewrite H0. vm_compute. lia. }
  destruct (@pattern2_finds_the_anchor_only quote pre before name after link title post
              Hq Hname)
    as (m & H2 & G2 & G3);
    try (match goal with |- lacks _ ?s = true =>
           apply lacks_fewer with (cs := special); [reflexivity|assumption] end).
  unfold parse_yahoo_html, search, none_found. cbn [raised arr searched].
  rewrite H1. cbn [for_each raised arr searched length Nat.eqb app].
  rewrite H2. cbn [for_each].
  unfold pattern2_body. rewrite G2, G3, Hclean, Htext, Hurl.
  rewrite (should_exclude_text_truthy _ Htext), (should_exclude_url_truthy _ Hurl).
  reflexivity.
Qed.

End Provider.

(** C9, the counterexample: on a title that holds a decimal character
    reference of 4301 digits, [html.unescape] raises [ValueError] whatever
    the entity table is, and [clean_title] lets it through. *)
Lemma clean_title_raises_on_overlong_reference :
  length overlong_reference = 4304 /\
  (forall html5, clean_title html5 (PStr overlong_reference) = Raise ValueError).
Proof.
  split; [reflexivity|]. intros html5. vm_compute. reflexivity.
Qed.

(** C4, the counterexample: cleaning [A - B - C] gives [A - B], and
    cleaning that gives [A]. *)
Lemma clean_title_twice_differs :
  (forall html5, clean_title html5 (PStr (str "A - B - C")) = Ok (PStr (str "A - B"))) /\
  (forall html5, clean_title html5 (PStr (str "A - B")) = Ok (PStr (str "A"))) /\
  str "A" <> str "A - B".
Proof.
  repeat split; try (intros html5; vm_compute; reflexivity). discriminate.
Qed.

(** C4, a witness: 台股大漲 - 自由時報 is cleaned to 台股大漲, which is
    cleaned to itself. *)
Lemma clean_title_idempotent_on_headline :
  clean_title no_named_references (PStr headline_with_source) = Ok (PStr headline) /\
  clean_title no_named_references (PStr headline) = Ok (PStr headline).
Proof.
  assert (H : clean_title no_named_references (PStr headline_with_source)
              = Ok (PStr headline)) by (vm_compute; reflexivity).
  split; [exact H|].
  apply (@clean_title_idempotent_on_plain_titles no_named_references
           (PStr headline_with_source) (PStr headline) H); reflexivity.
Defined.

(** C6, the counterexample: [HTTP://example.com/] contains no denylist
    substring and its scheme is http when case is ignored, so the filter
    as the specification words it lets it pass; [should_exclude_url]
    excludes it. *)
Lemma upper_case_scheme_is_excluded :
  (forall unicode_lower,
      should_exclude_url unicode_lower (PStr (str "HTTP://example.com/")) = true) /\
  (forall unicode_lower,
      excluded_link_as_specified unicode_lower (PStr (str "HTTP://example.com/")) = false).
Proof. split; intros unicode_lower; vm_compute; reflexivity. Qed.

(** C10, a witness: an absolute https url with a fragment. *)
Lemma should_exclude_url_fragment_example :
  should_exclude_url lower_ascii_letters (PStr (str "https://example.com/page#section")) = true.
Proof.
  apply (@should_exclude_url_fragment lower_ascii_letters). vm_compute. reflexivity.
Defined.

(** C2, the counterexample: the feed extractor accepts an item whose link
    is an ftp url. *)
Lemma feed_accepts_ftp_link :
  rss_items no_named_references lower_ascii_letters feed_with_ftp_link
  = ([google_record (PStr (str "Breaking news today")) (PStr (str "ftp://example.com/a"))],
     None) /\
  fetch_google_news_rss no_named_references lower_ascii_letters
    (parses_as feed_with_ftp_link) (Response 200 [])
  = [google_record (PStr (str "Breaking news today")) (PStr (str "ftp://example.com/a"))] /\
  startswith (str "ftp://example.com/a") (str "http://") = false /\
  startswith (str "ftp://example.com/a") (str "https://") = false.
Proof. repeat split; vm_compute; reflexivity. Qed.






(** Called with a list that already holds a record, the extractor
    searches pattern 1 alone, whatever the page holds. *)
Example filled_list_stops_at_pattern1 :
  parse_yahoo_html no_named_references lower_ascii_letters
    page_with_known_class [numbered_record 0]
  = ([numbered_record 0], [Pattern1]).
Proof. vm_compute. reflexivity. Qed.

(** An exception in the first loop ends the search: the other patterns
    are not searched although no record was accepted. *)
Example cascade_ends_on_exception :
  parse_yahoo_html no_named_references lower_ascii_letters page_with_overlong_title []
  = ([], [Pattern1]) /\
  raised_by_pattern1 no_named_references lower_ascii_letters page_with_overlong_title []
  = Some ValueError.
Proof. split; vm_compute; reflexivity. Qed.

(** On a page whose only anchor matches pattern 2, the first loop
    accepts nothing, the second accepts the anchor, and pattern 3 is not
    searched. *)
Example cascade_stops_at_pattern2 :
  parse_yahoo_html no_named_references lower_ascii_letters page_with_known_class []
  = ([yahoo_record (PStr (str "Big headline number one")) (str "https://news.example/a1")],
     [Pattern1; Pattern2]).
Proof. vm_compute. reflexivity. Qed.

(** C7, a witness: the anchor of [page_with_relative_link] reaches the
    third loop, which appends its text with the link rebased. *)
Lemma relative_link_is_rebased :
  parse_yahoo_html no_named_references lower_ascii_letters page_with_relative_link []
  = ([yahoo_record (PStr (str "Some long headline text"))
        (str "https://tw.news.yahoo.com/articles/123")],
     [Pattern1; Pattern2; Pattern3]) /\
  rebase_link (str "./articles/123") = str "https://tw.news.yahoo.com/articles/123".
Proof.
  split; [vm_compute; reflexivity|].
  exact (proj1 (proj2 (proj2 (proj2
    (pattern3_truncates_and_rebases no_named_references lower_ascii_letters))))).
Defined.

(** C5, a witness: both sources answer with an empty body. *)
Lemma empty_sources_give_fallback :
  get_hot_words_json no_named_references lower_ascii_letters rejects_every_text
    (Response 200 []) (Response 200 []) 37
  = create_fallback_json.
Proof.
  apply get_hot_words_json_falls_back; vm_compute; reflexivity.
Defined.

(** The title filter on a browser warning:
    Internet Explorer 瀏覽器版本過低. *)
Example browser_warning_is_excluded :
  should_exclude_text lower_ascii_letters
    (PStr (str "Internet Explorer "
           ++ [28687; 35261; 22120; 29256; 26412; 36942; 20302]%N)) = true.
Proof. vm_compute. reflexivity. Qed.

(** X5, a witness: the relative link of the specification's example. *)
Lemma dot_slash_link_is_rooted :
  startswith (str "./articles/123") (str "./") = true /\
  rebase_link (str "./articles/123") = YAHOO_NEWS_URL ++ skipn 2 (str "./articles/123").
Proof.
  destruct (@pattern3_accepts_only_rooted_links lower_ascii_letters (str "./articles/123"))
    as [[H _]|[[H _]|[H|[H _]]]]; try discriminate H.
  - vm_compute. reflexivity.
  - exact H.
Defined.

(** X6, a witness: the second item's title holds the overlong reference. *)
Lemma overlong_title_empties_the_feed :
  fetch_google_news_rss no_named_references lower_ascii_letters
    (parses_as feed_with_overlong_title) (Response 200 [])
  = [].
Proof.
  apply (@feed_is_lost_on_exception no_named_references lower_ascii_letters
           (parses_as feed_with_overlong_title) [] feed_with_overlong_title
           (feed_item (PStr overlong_reference) (PStr (numbered_link 1)))
           (ET.mkElement (str "title") (PStr overlong_reference) [])
           (ET.mkElement (str "link") (PStr (numbered_link 1)) [])
           ValueError);
    try (vm_compute; reflexivity).
  right. left. reflexivity.
Defined.

(** X8, a witness: a title with a numeric reference, and the shortest
    kind of title on which [clean_title] raises: [&#] and 4301 digits,
    4303 characters. *)
Lemma numeric_reference_is_decoded :
  (exists r, clean_title no_named_references (PStr (str "AT&#38;T news today")) = Ok (PStr r)) /\
  clean_title no_named_references (PStr (str "AT&#38;T news today"))
  = Ok (PStr (str "AT&T news today")) /\
  length (str "&#" ++ repeat (ch "1") 4301) = 4303 /\
  clean_title no_named_references (PStr (str "&#" ++ repeat (ch "1") 4301))
  = Raise ValueError.
Proof.
  split.
  - apply (proj1 (proj2 (@short_titles_never_raise no_named_references
                           lower_ascii_letters))).
    vm_compute. lia.
  - repeat split; vm_compute; reflexivity.
Defined.

(** X9, a witness: a browser warning in capitals. *)
Lemma capitals_are_excluded_too :
  should_exclude_text lower_ascii_letters (PStr (str "Please update your BROWSER VERSION"))
  = should_exclude_text lower_ascii_letters (PStr (str "please update your browser version")) /\
  should_exclude_text lower_ascii_letters (PStr (str "Please update your BROWSER VERSION"))
  = true.
Proof.
  split.
  - apply should_exclude_text_ignores_case; vm_compute; reflexivity.
  - vm_compute. reflexivity.
Defined.

(** X10, a witness: a padded title with its source. *)
Lemma padded_title_loses_its_source :
  clean_title no_named_references (PStr (str "  Markets rally - Reuters "))
  = Ok (PStr (str "Markets rally")).
Proof.
  apply (@clean_title_drops_the_source no_named_references
           (str "  Markets rally - Reuters ") (str "Markets rally") (str " ")
           (str " Reuters"));
    try (vm_compute; reflexivity);
    apply existsb_eqb_false; reflexivity.
Defined.

(** X11, a witness: a title with a section and a source. *)
Lemma title_loses_section_and_source :
  clean_title no_named_references (PStr (str "Markets rally | Business - Reuters"))
  = Ok (PStr (str "Markets rally")).
Proof.
  apply (@clean_title_drops_the_section no_named_references
           (str "Markets rally | Business - Reuters") (str "Markets rally") (str " ")
           (str " Business ") (str " Reuters"));
    try (vm_compute; reflexivity);
    apply existsb_eqb_false; reflexivity.
Defined.

(** X12, a witness: an anchor with a relative link between two pieces of
    text. *)
Lemma anchor_in_text_is_extracted :
  parse_yahoo_html no_named_references lower_ascii_letters
    (str "Top stories: "
       ++ anchor 34%N (str "./articles/123") (str "Markets rally today - Reuters")
       ++ str " and more") []
  = ([yahoo_record (PStr (str "Markets rally today"))
        (str "https://tw.news.yahoo.com/articles/123")],
     [Pattern1; Pattern2; Pattern3]).
Proof.
  change (str "https://tw.news.yahoo.com/articles/123")
    with (rebase_link (str "./articles/123")).
  apply (@single_anchor_is_extracted no_named_references lower_ascii_letters
           34%N (str "Top stories: ") (str "./articles/123")
           (str "Markets rally today - Reuters") (str " and more")
           (PStr (str "Markets rally today")));
    try (vm_compute; reflexivity).
  - now left.
  - vm_compute. lia.
Defined.

(** X13, a witness: an anchor with a known class between two pieces of
    text. *)
Lemma class_anchor_in_text_is_extracted :
  parse_yahoo_html no_named_references lower_ascii_letters
    (str "Latest: "
       ++ class_anchor 39%N (str "x ") (str "gPFEn") (str " y")
            (str "https://news.example/a1") (str "Big headline number one - Src")
       ++ str " (more)") []
  = ([yahoo_record (PStr (str "Big headline number one"))
        (str "https://news.example/a1")],
     [Pattern1; Pattern2]).
Proof.
  apply (@class_anchor_is_extracted no_named_references lower_ascii_letters
           39%N (str "Latest: ") (str "x ") (str "gPFEn") (str " y")
           (str "https://news.example/a1") (str "Big headline number one - Src")
           (str " (more)") (PStr (str "Big headline number one")));
    try (vm_compute; reflexivity).
  - right. now left.
  - now left.
Defined.

(** X7, a witness: a document whose one title holds a carriage return,
    saved where [os.linesep] is a carriage return and a line feed, over
    an older file. *)
Lemma document_with_carriage_return_reads_back :
  read_local_json_file false
    (snd (get_hot_words_json_on_disk no_named_references lower_ascii_letters
            (parses_as feed_with_carriage_return) Windows no_faults
            UrlopenRaises (Response 200 []) 10 (Some (str "an older document"))))
  = PStr (get_hot_words_json no_named_references lower_ascii_letters
            (parses_as feed_with_carriage_return) UrlopenRaises (Response 200 []) 10) /\
  In 13%N (written_text Windows
             (get_hot_words_json no_named_references lower_ascii_letters
                (parses_as feed_with_carriage_return) UrlopenRaises (Response 200 []) 10)).
Proof.
  split.
  - rewrite (proj2 (saved_document_reads_back no_named_references lower_ascii_letters
                      (parses_as feed_with_carriage_return))).
    vm_compute. reflexivity.
  - vm_compute. right. now left.
Defined.
